(** * Olist e-commerce dashboard (app.py): the data pipeline

    A shallow embedding of the tabular pipeline of [app.py]: the
    preparation stage (lines 40-60), the year filter (lines 67-73) and the
    aggregation views handed to the charts (lines 91-182).

    The table operations of the data-frame library are modelled on rows:
    a frame is the dtype of each column together with the list of its rows,
    a row maps column names to cells.  Numbers are the finite values of a
    numeric column, written as rationals; what the library's arithmetic
    makes of the sum of a list of them (a sum that rounds or wraps
    around) is a parameter.  Boolean columns are not part of the
    data model. *)

From Stdlib Require Import ZArith QArith Qcanon Ascii String.
From stdpp Require Import base option list sorting numbers strings gmap.

Local Open Scope Z_scope.

(** ** Cells, series and frames *)

Inductive dtype := ObjectDtype | NumericDtype | DatetimeDtype | PeriodDtype.

(** [Time] holds nanoseconds since the epoch, [Period] the ordinal of a
    calendar month (months since January 1970), [NaN] stands for every
    missing value (NaN and NaT). *)
Inductive cell :=
  | NaN
  | Str (s : string)
  | Num (q : Qc)
  | Time (ns : Z)
  | Period (m : Z).

#[global] Instance dtype_eq_dec : EqDecision dtype.
Proof. solve_decision. Defined.
#[global] Instance cell_eq_dec : EqDecision cell.
Proof. solve_decision. Defined.
#[global] Instance cell_inhabited : Inhabited cell := populate NaN.

Definition Series : Type := dtype * list cell.

Record DataFrame := mkDataFrame {
  dtypes : gmap string dtype;
  rows : list (gmap string cell)
}.

Definition columns (df : DataFrame) : list string :=
  (map_to_list (dtypes df)).*1.

Definition with_rows (df : DataFrame) (l : list (gmap string cell)) : DataFrame :=
  {| dtypes := dtypes df; rows := l |}.

(** ** Exceptions *)

Inductive exn := KeyError (c : string) | TypeError | AttributeError.

Inductive result (A : Type) := Ok (a : A) | Raise (e : exn).
Arguments Ok {A} a.
Arguments Raise {A} e.

Definition bind {A B} (r : result A) (f : A → result B) : result B :=
  match r with
  | Ok a => f a
  | Raise e => Raise e
  end.

Notation "x <- e ;; k" := (bind e (λ x, k))
  (at level 100, e at next level, right associativity).

Fixpoint traverse {A B} (f : A → result B) (l : list A) : result (list B) :=
  match l with
  | [] => Ok []
  | x :: l => y <- f x;; ys <- traverse f l;; Ok (y :: ys)
  end.

(** ** Frame primitives *)

(** [df[c]] *)
Definition getitem (df : DataFrame) (c : string) : result Series :=
  match dtypes df !! c with
  | Some dt => Ok (dt, (λ r : gmap string cell, r !!! c) <$> rows df)
  | None => Raise (KeyError c)
  end.

(** [df[c] = s] *)
Definition setitem (df : DataFrame) (c : string) (s : Series) : DataFrame :=
  {| dtypes := <[c := s.1]> (dtypes df);
     rows := zip_with (λ (r : gmap string cell) v, <[c := v]> r) (rows df) s.2 |}.

(** [df[mask]] *)
Definition boolean_index (df : DataFrame) (mask : list bool) : DataFrame :=
  with_rows df ((filter (λ rb, rb.2 = true) (zip (rows df) mask)).*1).

(** ** Calendar arithmetic on the proleptic Gregorian calendar *)

Definition ns_per_day : Z := 86400000000000.

(** Year, month and day of a day count since 1970-01-01. *)
Definition civil_from_days (z : Z) : Z * Z * Z :=
  let z := z + 719468 in
  let era := z / 146097 in
  let doe := z - era * 146097 in
  let yoe := (doe - doe / 1460 + doe / 36524 - doe / 146096) / 365 in
  let doy := doe - (365 * yoe + yoe / 4 - yoe / 100) in
  let mp := (5 * doy + 2) / 153 in
  let d := doy - (153 * mp + 2) / 5 + 1 in
  let m := if mp <? 10 then mp + 3 else mp - 9 in
  (yoe + era * 400 + (if m <=? 2 then 1 else 0), m, d).

Definition days_from_civil (y m d : Z) : Z :=
  let y := y - (if m <=? 2 then 1 else 0) in
  let era := y / 400 in
  let yoe := y - era * 400 in
  let doy := (153 * (if 2 <? m then m - 3 else m + 9) + 2) / 5 + d - 1 in
  let doe := yoe * 365 + yoe / 4 - yoe / 100 + doy in
  era * 146097 + doe - 719468.

(** [.dt.year] of a timestamp. *)
Definition year_of (ns : Z) : Z := (civil_from_days (ns / ns_per_day)).1.1.

(** [.dt.to_period('M')] of a timestamp: the ordinal of its month. *)
Definition month_of (ns : Z) : Z :=
  let '(y, m, _) := civil_from_days (ns / ns_per_day) in (y - 1970) * 12 + (m - 1).

(** [.dt.to_timestamp()] of a month: midnight of its first day. *)
Definition month_start (p : Z) : Z :=
  days_from_civil (1970 + p / 12) (p `mod` 12 + 1) 1 * ns_per_day.

(** ** The date-time conversion of the library

    [pd.to_datetime(s, errors='coerce')] is a collaborator of the
    pipeline and a parameter of the development: which series it returns
    for a column (the format in which it reads a column of text is
    inferred from the column as a whole and differs between versions of
    the library, as does the dtype of the result for mixed time zones),
    and on which columns it raises although errors are coerced.  Four
    facts are assumed of it: it keeps the length of the column, every
    value of the series it returns is a timestamp or missing, a missing
    value stays missing, and converting a converted column once more
    does not change it. *)

(** A value of a converted column: a timestamp or missing. *)
Definition temporal (c : cell) : Prop :=
  match c with NaN | Time _ => True | _ => False end.

#[global] Instance temporal_dec c : Decision (temporal c).
Proof. destruct c; simpl; apply _. Defined.

Class ToDatetime := {
  to_datetime : Series → result Series;
  to_datetime_length s s' :
    to_datetime s = Ok s' → length s'.2 = length s.2;
  to_datetime_temporal s s' :
    to_datetime s = Ok s' → Forall temporal s'.2;
  to_datetime_missing s s' i :
    to_datetime s = Ok s' → s.2 !! i = Some NaN → s'.2 !! i = Some NaN;
  to_datetime_again s s' s'' :
    to_datetime s = Ok s' → to_datetime s' = Ok s'' → s'' = s'
}.

Definition contains (needle hay : string) : bool :=
  bool_decide (is_Some (String.index 0 needle hay)).

(** ** Operations on series *)

Definition days_between (a b : cell) : cell :=
  match a, b with
  | Time x, Time y => Num (Qc_of_Z ((x - y) / ns_per_day))
  | _, _ => NaN
  end.

(** [(a - b).dt.days]: only the difference of two date-time series has
    the [.dt] accessor; the class of the exception raised on other
    operands is not told apart further.  The two columns are taken to be
    of one time zone and their differences to fit the 64 bits of a time
    difference: what is stated of the derived delivery times is stated of
    the tables that the preparation returns. *)
Definition sub_dt_days (a b : Series) : result Series :=
  match a.1, b.1 with
  | DatetimeDtype, DatetimeDtype => Ok (NumericDtype, zip_with days_between a.2 b.2)
  | NumericDtype, NumericDtype => Raise AttributeError
  | _, _ => Raise TypeError
  end.

(** [s.notna()] *)
Definition notna (s : Series) : list bool :=
  (λ c, bool_decide (c ≠ NaN)) <$> s.2.

Definition cell_ge_zero (c : cell) : result bool :=
  match c with
  | NaN => Ok false
  | Num q => Ok (bool_decide (0 ≤ q)%Qc)
  | _ => Raise TypeError
  end.

(** [s >= 0] *)
Definition ge_zero (s : Series) : result (list bool) :=
  match s.1 with
  | DatetimeDtype | PeriodDtype => Raise TypeError
  | _ => traverse cell_ge_zero s.2
  end.

(** [s.dt]: the accessor exists on date-time series only. *)
Definition dt (s : Series) : result (list cell) :=
  match s.1 with
  | DatetimeDtype => Ok s.2
  | _ => Raise AttributeError
  end.

Definition to_period_M (c : cell) : cell :=
  match c with
  | Time ns => Period (month_of ns)
  | _ => NaN
  end.

Definition year (c : cell) : cell :=
  match c with
  | Time ns => Num (Qc_of_Z (year_of ns))
  | _ => NaN
  end.

(** [.dt.to_timestamp()]: the first instant of the month.  The library
    holds instants in 64 bits of nanoseconds and raises for a month that
    begins before the first of them (a purchase of late September 1677);
    the months of such purchases are outside the data model, and where a
    label is stated for every timestamp the bound is a hypothesis. *)
Definition to_timestamp (c : cell) : cell :=
  match c with
  | Period p => Time (month_start p)
  | _ => NaN
  end.

(** ** Preparation (lines 40-60) *)

Section preparation.
Context `{ToDatetime}.

(** line 40 *)
Definition date_cols (df : DataFrame) : list string :=
  filter (λ col, contains "date" col || contains "timestamp" col) (columns df).

(** lines 42-45, the body of the loop *)
Definition coerce_col (df : DataFrame) (col : string) : DataFrame :=
  match s <- getitem df col;; to_datetime s with
  | Ok s => setitem df col s
  | Raise _ => df
  end.

(** lines 41-45 *)
Definition coerce_dates (df : DataFrame) : DataFrame :=
  foldl coerce_col df (date_cols df).

(** lines 48-52 *)
Definition derive_delivery_time (df : DataFrame) : result DataFrame :=
  if bool_decide ("delivery_time_days" ∈ columns df) then Ok df
  else if bool_decide ("order_delivered_customer_date" ∈ columns df)
          && bool_decide ("order_purchase_timestamp" ∈ columns df)
  then
    a <- getitem df "order_delivered_customer_date";;
    b <- getitem df "order_purchase_timestamp";;
    d <- sub_dt_days a b;;
    Ok (setitem df "delivery_time_days" d)
  else Ok df.

(** lines 55-56 *)
Definition drop_invalid (df : DataFrame) : result DataFrame :=
  s <- getitem df "delivery_time_days";;
  let df := boolean_index df (notna s) in
  s <- getitem df "delivery_time_days";;
  m <- ge_zero s;;
  Ok (boolean_index df m).

(** lines 59-60 *)
Definition add_periods (df : DataFrame) : result DataFrame :=
  s <- getitem df "order_purchase_timestamp";;
  l <- dt s;;
  let df := setitem df "order_year_month" (PeriodDtype, to_period_M <$> l) in
  s <- getitem df "order_purchase_timestamp";;
  l <- dt s;;
  Ok (setitem df "order_year" (NumericDtype, year <$> l)).

(** lines 40-60 *)
Definition prepare (df : DataFrame) : result DataFrame :=
  df <- derive_delivery_time (coerce_dates df);;
  df <- drop_invalid df;;
  add_periods df.

(** What the conversion makes of column [c]: nothing when the column
    does not exist or the conversion raises. *)
Definition converted (df : DataFrame) (c : string) : option Series :=
  match s <- getitem df c;; to_datetime s with
  | Ok s => Some s
  | Raise _ => None
  end.

(** What the loop does to row number [i], over the columns [l]. *)
Definition coerce_row (df : DataFrame) (l : list string) (i : nat) (r : gmap string cell)
  : gmap string cell :=
  foldl (λ r c, match converted df c with
                | Some s => <[c := s.2 !!! i]> r
                | None => r
                end) r l.
End preparation.

(** ** Year filter (lines 67-73) *)

Inductive selection := Semua | Tahun (y : Qc).

Definition numbers (l : list cell) : list Qc :=
  omap (λ c, match c with Num q => Some q | _ => None end) l.

(** line 67 *)
Definition tahun_opsi (df : DataFrame) : result (list selection) :=
  s <- getitem df "order_year";;
  Ok (Semua :: (Tahun <$> merge_sort Qcle (remove_dups (numbers s.2)))).

(** lines 71-73 *)
Definition filtered_df (df : DataFrame) (tahun_terpilih : selection) : result DataFrame :=
  match tahun_terpilih with
  | Semua => Ok df
  | Tahun y =>
      s <- getitem df "order_year";;
      Ok (boolean_index df ((λ c, bool_decide (c = Num y)) <$> s.2))
  end.

(** ** Grouping and aggregation *)

Definition cell_rank (c : cell) : Z :=
  match c with NaN => 0 | Num _ => 1 | Str _ => 2 | Time _ => 3 | Period _ => 4 end.

(** The order in which group keys are sorted: the natural order inside
    one kind of cell. *)
Definition cell_le (a b : cell) : Prop :=
  match a, b with
  | Num x, Num y => (x ≤ y)%Qc
  | Str x, Str y => String.leb x y = true
  | Time x, Time y => x ≤ y
  | Period x, Period y => x ≤ y
  | _, _ => cell_rank a ≤ cell_rank b
  end.

#[global] Instance cell_le_dec : RelDecision cell_le.
Proof. intros [] []; simpl; apply _. Defined.

(** The keys of the groups: missing keys form no group, the keys are
    sorted. *)
Definition group_keys (keys : list cell) : list cell :=
  merge_sort cell_le (remove_dups (filter (λ k, k ≠ NaN) keys)).

(** [groupby(keys)[vals]]: every key with the values of its rows. *)
Definition groupby (keys vals : list cell) : list (cell * list cell) :=
  (λ k, (k, (filter (λ kv, kv.1 = k) (zip keys vals)).*2)) <$> group_keys keys.

Definition cell_number (c : cell) : result (option Qc) :=
  match c with
  | NaN => Ok None
  | Num q => Ok (Some q)
  | _ => Raise TypeError
  end.

(** The sum of a list of numbers in exact arithmetic. *)
Definition Qc_sum (l : list Qc) : Qc := foldr Qcplus 0%Qc l.

(** The arithmetic of the library.  [.sum()] adds the prices of a group
    in the arithmetic of the column, binary floating point that rounds
    or 64-bit integers that wrap around: it is not the sum of exact
    arithmetic, and the result depends on the order of the numbers and
    on the representation of the column.  What the library makes of the
    sum of the numbers of a column, in the order of the rows, is a
    parameter of the development. *)
Class Arithmetic := {
  machine_sum : list Qc → Qc
}.

(** The numbers of a group, missing values skipped.  Prices and
    delivery times that are not numbers are outside the data model (the
    library raises on some, and concatenates a group of text): here the
    aggregation raises, and what is stated of a view is stated of the
    tables on which it returns. *)
Definition skipna (l : list cell) : result (list Qc) :=
  xs <- traverse cell_number l;; Ok (omap id xs).

(** [.sum()] *)
Definition sum `{Arithmetic} (l : list cell) : result Qc :=
  xs <- skipna l;; Ok (machine_sum xs).

(** [.mean()]: the arithmetic mean, in floating point whatever the
    column; the rounding of the last digit is not modelled. *)
Definition mean (l : list cell) : result cell :=
  xs <- skipna l;;
  Ok (match xs with
      | [] => NaN
      | _ => Num (Qc_sum xs / Qc_of_Z (Z.of_nat (length xs)))%Qc
      end).

(** [.nunique()] *)
Definition nunique (l : list cell) : nat :=
  length (remove_dups (filter (λ c, c ≠ NaN) l)).

Definition aggregate {A} (f : list cell → result A) (g : list (cell * list cell))
  : result (list (cell * A)) :=
  traverse (λ kv, a <- f kv.2;; Ok (kv.1, a)) g.

(** ** Aggregation views (lines 91-182) *)

(** lines 91-96 *)
Definition orders_per_month (filtered_df : DataFrame) : result (list (cell * nat)) :=
  s <- getitem filtered_df "order_purchase_timestamp";;
  l <- dt s;;
  v <- getitem filtered_df "order_id";;
  Ok ((λ kv, (to_timestamp kv.1, nunique kv.2)) <$> groupby (to_period_M <$> l) v.2).

(** lines 109-114 *)
Definition revenue_per_month `{Arithmetic} (filtered_df : DataFrame)
  : result (list (cell * Qc)) :=
  s <- getitem filtered_df "order_purchase_timestamp";;
  l <- dt s;;
  v <- getitem filtered_df "price";;
  g <- aggregate sum (groupby (to_period_M <$> l) v.2);;
  Ok (prod_map to_timestamp id <$> g).

(** [.sort_values(ascending=False)] on the sums.  Equal sums come out
    in the order of this merge sort, which need not be the library's:
    what is stated of the view holds for either order. *)
Definition sum_ge (a b : cell * Qc) : Prop := (b.2 ≤ a.2)%Qc.

#[global] Instance sum_ge_dec : RelDecision sum_ge := λ a b, decide_rel Qcle b.2 a.2.

Definition sort_values_desc (l : list (cell * Qc)) : list (cell * Qc) :=
  merge_sort sum_ge l.

(** lines 127-133 *)
Definition top10_products `{Arithmetic} (filtered_df : DataFrame)
  : result (list (cell * Qc)) :=
  k <- getitem filtered_df "product_category_name";;
  v <- getitem filtered_df "price";;
  g <- aggregate sum (groupby k.2 v.2);;
  Ok (take 10 (sort_values_desc g)).

(** line 155: the values handed to the histogram; binning and density
    are the plotting library's. *)
Definition delivery_time_distribution (filtered_df : DataFrame) : result (list cell) :=
  s <- getitem filtered_df "delivery_time_days";;
  Ok s.2.

(** lines 163-167 *)
Definition delivery_vs_review (filtered_df : DataFrame)
  : result (list (cell * cell)) :=
  k <- getitem filtered_df "review_score";;
  v <- getitem filtered_df "delivery_time_days";;
  aggregate mean (groupby k.2 v.2).

(** [.sort_values(by='review_score', ascending=True)], for review
    scores of one kind: the library does not compare a number with
    text. *)
Definition key_le (a b : cell * cell) : Prop := cell_le a.1 b.1.

#[global] Instance key_le_dec : RelDecision key_le := λ a b, decide_rel cell_le a.1 b.1.

Definition sort_by_key (l : list (cell * cell)) : list (cell * cell) :=
  merge_sort key_le l.

(** lines 177-182 *)
Definition avg_delivery (filtered_df : DataFrame)
  : result (list (cell * cell)) :=
  k <- getitem filtered_df "review_score";;
  v <- getitem filtered_df "delivery_time_days";;
  g <- aggregate mean (groupby k.2 v.2);;
  Ok (sort_by_key g).

(** ** A concrete date-time conversion

    The timestamps of the data set are written [YYYY-MM-DD] or
    [YYYY-MM-DD HH:MM:SS]; this instance converts these forms and
    integral numbers (nanoseconds since the epoch) and nothing else, and
    never raises.  It serves to run the pipeline on examples. *)

Definition digit (a : ascii) : option Z :=
  let n := Z.of_nat (nat_of_ascii a) in
  if bool_decide (48 ≤ n ≤ 57) then Some (n - 48) else None.

Fixpoint digits (acc : Z) (l : list ascii) : option Z :=
  match l with
  | [] => Some acc
  | a :: l => d ← digit a; digits (10 * acc + d) l
  end.

Definition field (l : list ascii) (from len : nat) : option Z :=
  let f := take len (drop from l) in
  if bool_decide (length f = len) then digits 0 f else None.

Definition separator (l : list ascii) (i : nat) (seps : list ascii) : option unit :=
  a ← l !! i; if bool_decide (a ∈ seps) then Some () else None.

Definition parse_date (l : list ascii) : option Z :=
  y ← field l 0 4; _ ← separator l 4 ["-"%char];
  m ← field l 5 2; _ ← separator l 7 ["-"%char];
  d ← field l 8 2;
  let z := days_from_civil y m d in
  if bool_decide (civil_from_days z = (y, m, d)) then Some z else None.

Definition parse_time (l : list ascii) : option Z :=
  _ ← separator l 10 [" "%char; "T"%char];
  h ← field l 11 2; _ ← separator l 13 [":"%char];
  m ← field l 14 2; _ ← separator l 16 [":"%char];
  s ← field l 17 2;
  if bool_decide (h < 24 ∧ m < 60 ∧ s < 60) then Some ((h * 60 + m) * 60 + s) else None.

Definition parse_iso (s : string) : option Z :=
  let l := list_ascii_of_string s in
  z ← parse_date l;
  t ← (if bool_decide (length l = 10%nat) then Some 0
       else if bool_decide (length l = 19%nat) then parse_time l else None);
  let ns := z * ns_per_day + t * 1000000000 in
  if bool_decide (- 2 ^ 63 < ns < 2 ^ 63) then Some ns else None.

Definition iso_scalar (c : cell) : option Z :=
  match c with
  | Str s => parse_iso s
  | Num q => if bool_decide (Qden q = 1%positive) then Some (Qnum q) else None
  | _ => None
  end.

Definition iso_cell (c : cell) : cell :=
  match c with
  | NaN => NaN
  | Time ns => Time ns
  | _ => match iso_scalar c with
         | Some ns => Time ns
         | None => NaN
         end
  end.

Definition iso_series (s : Series) : result Series :=
  Ok (DatetimeDtype, iso_cell <$> s.2).

Definition iso_to_datetime : ToDatetime.
Proof.
  refine {| to_datetime := iso_series |}.
  - intros s s' [= <-]. apply length_fmap.
  - intros s s' [= <-]. apply Forall_fmap, Forall_forall. intros c _.
    unfold compose, iso_cell. destruct c; try done; by destruct (iso_scalar _).
  - intros s s' i [= <-] Hi. simpl. by rewrite list_lookup_fmap, Hi.
  - intros s s' s'' [= <-] [= <-]. simpl. f_equal. rewrite <-list_fmap_compose.
    apply list_fmap_ext. intros _ c _.
    unfold compose, iso_cell. destruct c; try done; by destruct (iso_scalar _).
Defined.

(** A conversion that gives up on a column: it raises when a value of
    the column is text that is no timestamp, and converts the column as
    above otherwise. *)
Definition parses (c : cell) : bool :=
  match c with
  | Str t => bool_decide (is_Some (parse_iso t))
  | _ => true
  end.

Definition strict_series (s : Series) : result Series :=
  if forallb parses s.2 then iso_series s else Raise TypeError.

Definition strict_to_datetime : ToDatetime.
Proof.
  refine {| to_datetime := strict_series |}; unfold strict_series.
  - intros s s'. destruct (forallb _ _); [apply (@to_datetime_length iso_to_datetime) | done].
  - intros s s'. destruct (forallb _ _); [apply (@to_datetime_temporal iso_to_datetime) | done].
  - intros s s' i. destruct (forallb _ _); [apply (@to_datetime_missing iso_to_datetime) | done].
  - intros s s' s''. destruct (forallb _ _); [|done]. intros Hs.
    pose proof (@to_datetime_temporal iso_to_datetime _ _ Hs) as Ht.
    assert (forallb parses s'.2 = true) as ->.
    { induction Ht as [|c l Hc _ IH]; [done |]. simpl. rewrite IH. by destruct c. }
    by apply (@to_datetime_again iso_to_datetime s).
Defined.

(** ** Exact arithmetic

    The arithmetic in which no sum rounds or wraps around.  It serves to
    run the pipeline on examples whose numbers are small integers. *)

Definition exact_arithmetic : Arithmetic := {| machine_sum := Qc_sum |}.

#[global] Instance exn_eq_dec : EqDecision exn.
Proof. solve_decision. Defined.
#[global] Instance result_eq_dec `{EqDecision A} : EqDecision (result A).
Proof. solve_decision. Defined.
#[global] Instance selection_eq_dec : EqDecision selection.
Proof. solve_decision. Defined.
#[global] Instance DataFrame_eq_dec : EqDecision DataFrame.
Proof. solve_decision. Defined.

(** ** Notions used in the statements *)

(** A delivery time that the filter of lines 55-56 keeps. *)
Definition valid_delivery_time (c : cell) : Prop :=
  ∃ q, c = Num q ∧ (0 ≤ q)%Qc.

#[global] Instance valid_delivery_time_dec c : Decision (valid_delivery_time c).
Proof.
  refine (match c with
          | Num q => cast_if (decide (0 ≤ q)%Qc)
          | _ => right _
          end); unfold valid_delivery_time;
    first [ by eauto | by intros (? & [= <-] & ?) | by intros (? & [=] & ?) ].
Defined.

(** The two period cells that lines 59-60 add to a row. *)
Definition add_periods_row (r : gmap string cell) : gmap string cell :=
  <["order_year" := year (r !!! "order_purchase_timestamp")]>
    (<["order_year_month" := to_period_M (r !!! "order_purchase_timestamp")]> r).

(** The sum of the numbers of column function [vf] over the rows [l],
    missing values skipped. *)
Definition total_of {A} (vf : A → cell) (l : list A) : Qc := Qc_sum (numbers (vf <$> l)).

(** The month of purchase of a row, the key of the two monthly views. *)
Definition purchase_month (r : gmap string cell) : cell :=
  to_period_M (r !!! "order_purchase_timestamp").

(** Chronological order of timestamps. *)
Definition chronological (a b : cell) : Prop :=
  match a, b with
  | Time x, Time y => x < y
  | _, _ => False
  end.

(** The sum that the library makes of the numbers of column function
    [vf] over the rows [l], in the order of the rows, missing values
    skipped. *)
Definition machine_total `{Arithmetic} {A} (vf : A → cell) (l : list A) : Qc :=
  machine_sum (numbers (vf <$> l)).

(** The summed revenue of category [c] over the rows [l]. *)
Definition category_revenue `{Arithmetic} (c : cell) (l : list (gmap string cell)) : Qc :=
  machine_total (λ r, r !!! "price") (filter (λ r, r !!! "product_category_name" = c) l).

(** The summed revenue of the month [p] over the rows [l]. *)
Definition month_revenue `{Arithmetic} (p : Z) (l : list (gmap string cell)) : Qc :=
  machine_total (λ r, r !!! "price") (filter (λ r, purchase_month r = Period p) l).

(** The arithmetic mean of [delivery_time_days] over the rows [l],
    missing values skipped; missing when there is no value. *)
Definition mean_delivery_time (l : list (gmap string cell)) : cell :=
  match numbers ((λ r : gmap string cell, r !!! "delivery_time_days") <$> l) with
  | [] => NaN
  | xs => Num (Qc_sum xs / Qc_of_Z (Z.of_nat (length xs)))%Qc
  end.

(** The distinct pairs of a key and a value, both present. *)
Definition distinct_pairs {A} (kf vf : A → cell) (l : list A) : list (cell * cell) :=
  remove_dups (filter (λ kv, kv.1 ≠ NaN ∧ kv.2 ≠ NaN) ((λ r, (kf r, vf r)) <$> l)).

(** The distinct pairs of a month and an order placed in it. *)
Definition month_orders (l : list (gmap string cell)) : list (cell * cell) :=
  distinct_pairs purchase_month (λ r, r !!! "order_id") l.

(** ** The script as a whole (lines 25-34 and 62-190) *)

(** The derived tables handed to the charts. *)
Record Views := mkViews {
  view_orders_per_month : list (cell * nat);
  view_revenue_per_month : list (cell * Qc);
  view_top10_products : list (cell * Qc);
  view_delivery_time : list cell;
  view_delivery_vs_review : list (cell * cell);
  view_avg_delivery : list (cell * cell)
}.

(** lines 86-190: the derived tables, in the order in which the script
    computes them; the first exception ends the run. *)
Definition views `{Arithmetic} (filtered_df : DataFrame) : result Views :=
  a <- orders_per_month filtered_df;;
  b <- revenue_per_month filtered_df;;
  c <- top10_products filtered_df;;
  d <- delivery_time_distribution filtered_df;;
  e <- delivery_vs_review filtered_df;;
  f <- avg_delivery filtered_df;;
  Ok (mkViews a b c d e f).

(** How a run of the script ends: stopped with the error message of
    line 33, the derived tables computed for the chosen year and handed
    to the charts (drawing them is the plotting library's), or an
    exception that nothing catches. *)
Inductive outcome :=
  | Stopped (message : string)
  | Rendered (tahun_terpilih : selection) (v : Views)
  | Uncaught (e : exn).

Section script.
Context `{ToDatetime} `{Arithmetic}.

(** The script.  [csv] is what [pd.read_csv] finds ([None]: no such
    file, lines 30-34), [selectbox] is the choice the user makes among
    the options of line 68. *)
Definition dashboard (csv : option DataFrame) (selectbox : list selection → selection)
  : outcome :=
  match csv with
  | None => Stopped "File 'olist_cleaned_dataset.csv' tidak ditemukan."
  | Some df =>
      match
        df <- prepare df;;
        tahun_opsi <- tahun_opsi df;;
        let tahun_terpilih := selectbox tahun_opsi in
        f <- filtered_df df tahun_terpilih;;
        v <- views f;;
        Ok (tahun_terpilih, v)
      with
      | Ok (tahun_terpilih, v) => Rendered tahun_terpilih v
      | Raise e => Uncaught e
      end
  end.
End script.

(** ** Further notions used in the statements *)

(** A cell of a numeric column: a number or missing. *)
Definition numeric_cell (c : cell) : Prop :=
  match c with NaN | Num _ => True | _ => False end.

#[global] Instance numeric_cell_dec c : Decision (numeric_cell c).
Proof. destruct c; simpl; apply _. Defined.

(** What lines 50-52 write into a row. *)
Definition derive_row (r : gmap string cell) : gmap string cell :=
  <["delivery_time_days" :=
      days_between (r !!! "order_delivered_customer_date") (r !!! "order_purchase_timestamp")]> r.

(** A row whose purchase has a year. *)
Definition has_year (r : gmap string cell) : Prop :=
  match r !!! "order_year" with Num _ => True | _ => False end.

#[global] Instance has_year_dec r : Decision (has_year r).
Proof. unfold has_year. destruct (r !!! "order_year"); apply _. Defined.

(** The values that [.sum()] and [.mean()] take: in every row that has
    key [kf], the value [vf] is a number or missing. *)
Definition numeric_groups {A} (kf vf : A → cell) (l : list A) : Prop :=
  Forall (λ r, kf r ≠ NaN → numeric_cell (vf r)) l.

#[global] Instance numeric_groups_dec {A} (kf vf : A → cell) l :
  Decision (numeric_groups kf vf l).
Proof. unfold numeric_groups. apply _. Defined.

(** The monthly table of the rows [l] for the aggregation [F]: one line
    per month of purchase, in the order of the months. *)
Definition monthly {B} (F : list (gmap string cell) → B) (l : list (gmap string cell))
  : list (cell * B) :=
  (λ k, (to_timestamp k, F (filter (λ r, purchase_month r = k) l))) <$>
    group_keys (purchase_month <$> l).

(** The instants that a timestamp of the library holds: nanoseconds in
    64 bits, the least value standing for a missing timestamp. *)
Definition Timestamp_min : Z := - 2 ^ 63 + 1.
Definition Timestamp_max : Z := 2 ^ 63 - 1.

(** A timestamp whose month has a label: the first instant of the month
    is an instant that a timestamp holds. *)
Definition month_in_bounds (c : cell) : Prop :=
  match c with Time ns => Timestamp_min ≤ month_start (month_of ns) | _ => True end.

#[global] Instance month_in_bounds_dec c : Decision (month_in_bounds c).
Proof. destruct c; simpl; apply _. Defined.

(** The rows of the year [y]. *)
Definition rows_of_year (y : Qc) (l : list (gmap string cell)) : list (gmap string cell) :=
  filter (λ r, r !!! "order_year" = Num y) l.

(** * The pipeline on concrete tables *)

Definition n (z : Z) : cell := Num (Qc_of_Z z).

(** The two rows of the scenario of the specification. *)
Definition scenario : DataFrame :=
  {| dtypes := {[ "order_id" := NumericDtype; "order_purchase_timestamp" := ObjectDtype;
                  "order_delivered_customer_date" := ObjectDtype; "price" := NumericDtype;
                  "product_category_name" := ObjectDtype; "review_score" := NumericDtype ]};
     rows := [ {[ "order_id" := n 1; "order_purchase_timestamp" := Str "2023-01-05";
                  "order_delivered_customer_date" := Str "2023-01-10"; "price" := n 100;
                  "product_category_name" := Str "toys"; "review_score" := n 4 ]};
               {[ "order_id" := n 2; "order_purchase_timestamp" := Str "2023-01-20";
                  "order_delivered_customer_date" := Str "2023-01-22"; "price" := n 50;
                  "product_category_name" := Str "toys"; "review_score" := n 5 ]} ] |}.

Definition scenario_prepared : DataFrame :=
  {| dtypes := {[ "order_id" := NumericDtype; "order_purchase_timestamp" := DatetimeDtype;
                  "order_delivered_customer_date" := DatetimeDtype; "price" := NumericDtype;
                  "product_category_name" := ObjectDtype; "review_score" := NumericDtype;
                  "delivery_time_days" := NumericDtype; "order_year_month" := PeriodDtype;
                  "order_year" := NumericDtype ]};
     rows := [ {[ "order_id" := n 1; "order_purchase_timestamp" := Time 1672876800000000000;
                  "order_delivered_customer_date" := Time 1673308800000000000;
                  "price" := n 100; "product_category_name" := Str "toys";
                  "review_score" := n 4; "delivery_time_days" := n 5;
                  "order_year_month" := Period 636; "order_year" := n 2023 ]};
               {[ "order_id" := n 2; "order_purchase_timestamp" := Time 1674172800000000000;
                  "order_delivered_customer_date" := Time 1674345600000000000;
                  "price" := n 50; "product_category_name" := Str "toys";
                  "review_score" := n 5; "delivery_time_days" := n 2;
                  "order_year_month" := Period 636; "order_year" := n 2023 ]} ] |}.

(** A table that comes with its delivery times; the second row has no
    purchase timestamp. *)
Definition purchased : gmap string cell :=
  {[ "order_id" := n 1; "order_purchase_timestamp" := Str "2023-01-05"; "price" := n 100;
     "product_category_name" := Str "toys"; "review_score" := n 4;
     "delivery_time_days" := n 5 ]}.

Definition unpurchased : gmap string cell :=
  {[ "order_id" := n 2; "order_purchase_timestamp" := NaN; "price" := n 40;
     "product_category_name" := Str "toys"; "review_score" := n 4;
     "delivery_time_days" := n 3 ]}.

Definition missing_purchase : DataFrame :=
  {| dtypes := {[ "order_id" := NumericDtype; "order_purchase_timestamp" := ObjectDtype;
                  "price" := NumericDtype; "product_category_name" := ObjectDtype;
                  "review_score" := NumericDtype; "delivery_time_days" := NumericDtype ]};
     rows := [ purchased; unpurchased ] |}.

Definition missing_purchase_prepared : DataFrame :=
  {| dtypes := {[ "order_id" := NumericDtype; "order_purchase_timestamp" := DatetimeDtype;
                  "price" := NumericDtype; "product_category_name" := ObjectDtype;
                  "review_score" := NumericDtype; "delivery_time_days" := NumericDtype;
                  "order_year_month" := PeriodDtype; "order_year" := NumericDtype ]};
     rows := [ {[ "order_id" := n 1; "order_purchase_timestamp" := Time 1672876800000000000;
                  "price" := n 100; "product_category_name" := Str "toys";
                  "review_score" := n 4; "delivery_time_days" := n 5;
                  "order_year_month" := Period 636; "order_year" := n 2023 ]};
               {[ "order_id" := n 2; "order_purchase_timestamp" := NaN;
                  "price" := n 40; "product_category_name" := Str "toys";
                  "review_score" := n 4; "delivery_time_days" := n 3;
                  "order_year_month" := NaN; "order_year" := NaN ]} ] |}.

(** One order whose two item rows were purchased in two months. *)
Definition split_order : DataFrame :=
  {| dtypes := {[ "order_id" := NumericDtype; "order_purchase_timestamp" := ObjectDtype;
                  "price" := NumericDtype; "delivery_time_days" := NumericDtype ]};
     rows := [ {[ "order_id" := n 1; "order_purchase_timestamp" := Str "2023-01-31 23:59:59";
                  "price" := n 10; "delivery_time_days" := n 2 ]};
               {[ "order_id" := n 1; "order_purchase_timestamp" := Str "2023-02-01 00:00:00";
                  "price" := n 20; "delivery_time_days" := n 2 ]} ] |}.

(** Five item lines in two categories, one line without a category. *)
Definition catalogue : DataFrame :=
  {| dtypes := {[ "product_category_name" := ObjectDtype; "price" := NumericDtype ]};
     rows := [ {[ "product_category_name" := Str "books"; "price" := n 30 ]};
               {[ "product_category_name" := Str "toys"; "price" := n 100 ]};
               {[ "product_category_name" := NaN; "price" := n 5 ]};
               {[ "product_category_name" := Str "toys"; "price" := n 50 ]};
               {[ "product_category_name" := Str "books"; "price" := n 20 ]} ] |}.

(** Twelve item lines in eleven categories: one category more than the
    category chart shows. *)
Definition item (c : string) (x : Z) : gmap string cell :=
  {[ "product_category_name" := Str c; "price" := n x ]}.

Definition assortment : DataFrame :=
  {| dtypes := {[ "product_category_name" := ObjectDtype; "price" := NumericDtype ]};
     rows := [ item "k" 11; item "a" 1; item "b" 2; item "c" 3; item "d" 4; item "e" 5;
               item "f" 6; item "g" 7; item "h" 8; item "i" 9; item "j" 10; item "k" 4 ] |}.

Definition assortment_top10 : list (cell * Qc) :=
  [ (Str "k", Qc_of_Z 15); (Str "j", Qc_of_Z 10); (Str "i", Qc_of_Z 9); (Str "h", Qc_of_Z 8);
    (Str "g", Qc_of_Z 7); (Str "f", Qc_of_Z 6); (Str "e", Qc_of_Z 5); (Str "d", Qc_of_Z 4);
    (Str "c", Qc_of_Z 3); (Str "b", Qc_of_Z 2) ].

(** A table without delivery times and without the delivery date. *)
Definition underivable : DataFrame :=
  {| dtypes := {[ "order_id" := NumericDtype; "order_purchase_timestamp" := ObjectDtype;
                  "price" := NumericDtype ]};
     rows := [ {[ "order_id" := n 1; "order_purchase_timestamp" := Str "2023-01-05";
                  "price" := n 100 ]} ] |}.

(** A date column with a value that is no date. *)
Definition unparseable : DataFrame :=
  {| dtypes := {[ "order_id" := NumericDtype; "order_date" := ObjectDtype ]};
     rows := [ {[ "order_id" := n 1; "order_date" := Str "hello" ]};
               {[ "order_id" := n 2; "order_date" := Str "2023-01-05" ]} ] |}.

(** A table that comes with its delivery times and has no purchase
    timestamps. *)
Definition undated : DataFrame :=
  {| dtypes := {[ "order_id" := NumericDtype; "delivery_time_days" := NumericDtype ]};
     rows := [ {[ "order_id" := n 1; "delivery_time_days" := n 5 ]} ] |}.

(** A table with a delivery time that is text. *)
Definition text_delivery_time : DataFrame :=
  {| dtypes := {[ "order_id" := NumericDtype; "order_purchase_timestamp" := ObjectDtype;
                  "delivery_time_days" := ObjectDtype ]};
     rows := [ {[ "order_id" := n 1; "order_purchase_timestamp" := Str "2023-01-05";
                  "delivery_time_days" := Str "soon" ]} ] |}.

(** The choice of a user who leaves the selection box alone (line 68,
    [index=0]). *)
Definition first_option (options : list selection) : selection :=
  default Semua (head options).

(** * Properties *)

(** ** The exception monad and the frame primitives *)

Lemma bind_Ok {A B} (r : result A) (f : A → result B) b :
  bind r f = Ok b ↔ ∃ a, r = Ok a ∧ f a = Ok b.
Proof.
  destruct r as [a|e]; simpl; split.
  - eauto.
  - by intros (? & [= <-] & ?).
  - done.
  - by intros (? & [=] & ?).
Qed.

Ltac inv_bind H :=
  repeat match type of H with
  | bind _ _ = Ok _ =>
      let a := fresh "a" in
      let Ha := fresh "H" a in
      apply bind_Ok in H as (a & Ha & H)
  end.

Lemma traverse_Ok {A B} (f : A → result B) l l' :
  traverse f l = Ok l' ↔ Forall2 (λ x y, f x = Ok y) l l'.
Proof.
  revert l'. induction l as [|x l IH]; intros l'; simpl.
  - split; [intros [= <-]; constructor | by inversion 1].
  - rewrite bind_Ok. split.
    + intros (y & Hy & Hl). apply bind_Ok in Hl as (ys & Hys & [= <-]).
      constructor; [done | by apply IH].
    + inversion 1 as [|? y ? ys Hy Hys]; subst. exists y. split; [done |].
      apply bind_Ok. exists ys. split; [by apply IH | done].
Qed.

Lemma elem_of_columns df c : c ∈ columns df ↔ is_Some (dtypes df !! c).
Proof.
  unfold columns. rewrite list_elem_of_fmap. split.
  - intros ([c' dt] & -> & Hin). apply elem_of_map_to_list in Hin. eauto.
  - intros [dt Hdt]. exists (c, dt). split; [done | by apply elem_of_map_to_list].
Qed.

Lemma getitem_Ok df c s :
  getitem df c = Ok s ↔
  dtypes df !! c = Some s.1 ∧ s.2 = (λ r : gmap string cell, r !!! c) <$> rows df.
Proof.
  unfold getitem. destruct (dtypes df !! c) as [dt|]; destruct s as [dt' l]; simpl.
  - split; [by intros [= <- <-] | by intros [[= <-] ->]].
  - split; [done | by intros [[=] _]].
Qed.

Lemma getitem_Raise df c e :
  getitem df c = Raise e ↔ (c ∉ columns df) ∧ e = KeyError c.
Proof.
  rewrite elem_of_columns. unfold getitem.
  destruct (dtypes df !! c) as [dt|]; split.
  - done.
  - intros [Hn _]. destruct Hn. eauto.
  - intros [= <-]. split; [by intros [? [=]] | done].
  - by intros [_ ->].
Qed.

Lemma getitem_is_Ok df c :
  c ∈ columns df → ∃ dt, getitem df c = Ok (dt, (λ r : gmap string cell, r !!! c) <$> rows df).
Proof.
  rewrite elem_of_columns. intros [dt Hdt]. exists dt. unfold getitem. by rewrite Hdt.
Qed.

Lemma setitem_fmap df c dt (f : gmap string cell → cell) :
  setitem df c (dt, f <$> rows df) =
    {| dtypes := <[c := dt]> (dtypes df); rows := (λ r, <[c := f r]> r) <$> rows df |}.
Proof.
  unfold setitem; simpl. f_equal. induction (rows df) as [|r l IH]; [done |].
  rewrite fmap_cons. simpl. by f_equal.
Qed.

Lemma rows_boolean_index_fmap df (f : gmap string cell → bool) :
  rows (boolean_index df (f <$> rows df)) = filter (λ r, f r = true) (rows df).
Proof.
  unfold boolean_index; simpl. induction (rows df) as [|r l IH]; [done |].
  rewrite fmap_cons. simpl. rewrite !filter_cons. simpl.
  destruct (f r) eqn:Hf; simpl; [by f_equal | done].
Qed.

(** ** Date coercion (lines 40-45) *)

Section coercion.
Context `{ToDatetime}.

Lemma zip_with_imap {A B C} `{Inhabited B} (f : A → B → C) (l : list A) (k : list B) :
  length k = length l → zip_with f l k = imap (λ i x, f x (k !!! i)) l.
Proof.
  revert k. induction l as [|x l IH]; intros [|y k] Hlen; simplify_eq/=; [done |].
  f_equal. by apply IH.
Qed.

Lemma imap_imap {A B C} (f : nat → B → C) (g : nat → A → B) (l : list A) :
  imap f (imap g l) = imap (λ i x, f i (g i x)) l.
Proof.
  apply list_eq. intros i. rewrite !list_lookup_imap. by destruct (l !! i).
Qed.

Lemma converted_Some df c s' :
  converted df c = Some s' ↔ ∃ s, getitem df c = Ok s ∧ to_datetime s = Ok s'.
Proof.
  unfold converted. destruct (getitem df c) as [s|]; simpl.
  - destruct (to_datetime s) as [s''|] eqn:Hs.
    + split; [intros [= <-]; eauto | by intros (? & [= <-] & [= <-]%(eq_trans (eq_sym Hs)))].
    + split; [done | by intros (? & [= <-] & [=]%(eq_trans (eq_sym Hs)))].
  - split; [done | by intros (? & [=] & _)].
Qed.

Lemma length_converted df c s : converted df c = Some s → length s.2 = length (rows df).
Proof.
  intros (s0 & [_ Hs0]%getitem_Ok & Hs)%converted_Some.
  by rewrite (to_datetime_length _ _ Hs), Hs0, length_fmap.
Qed.

Lemma coerce_col_converted df c s :
  converted df c = Some s →
  coerce_col df c =
    {| dtypes := <[c := s.1]> (dtypes df);
       rows := imap (λ i r, <[c := s.2 !!! i]> r) (rows df) |}.
Proof.
  intros Hc. pose proof (length_converted _ _ _ Hc) as Hlen. revert Hc.
  unfold converted, coerce_col. destruct (_ <- getitem df c;; _) as [s'|]; [|done].
  intros [= ->]. unfold setitem. f_equal.
  by apply (zip_with_imap (λ (r : gmap string cell) v, <[c := v]> r)).
Qed.

Lemma coerce_col_not_converted df c : converted df c = None → coerce_col df c = df.
Proof. unfold converted, coerce_col. by destruct (_ <- getitem df c;; _). Qed.

Lemma getitem_coerce_col_ne df c c' : c ≠ c' → getitem (coerce_col df c) c' = getitem df c'.
Proof.
  intros Hne. destruct (converted df c) as [s|] eqn:Hc.
  - rewrite (coerce_col_converted _ _ _ Hc). unfold getitem. simpl.
    rewrite lookup_insert_ne by done. destruct (dtypes df !! c'); [|done].
    f_equal. f_equal. rewrite fmap_imap, <-imap_const. apply imap_ext.
    intros i r _. simpl. by rewrite lookup_total_insert_ne.
  - by rewrite coerce_col_not_converted.
Qed.

Lemma converted_coerce_col_ne df c c' :
  c ≠ c' → converted (coerce_col df c) c' = converted df c'.
Proof. intros Hne. unfold converted. by rewrite getitem_coerce_col_ne. Qed.

Lemma coerce_row_ext df df' l i r :
  (∀ c, c ∈ l → converted df c = converted df' c) →
  coerce_row df l i r = coerce_row df' l i r.
Proof.
  revert r. induction l as [|a l IH]; intros r Hl; [done |]. unfold coerce_row. simpl.
  rewrite (Hl a) by left. apply IH. intros c Hc. apply Hl. by right.
Qed.

Lemma foldl_coerce_col df l :
  NoDup l →
  dtypes (foldl coerce_col df l) =
    foldl (λ m c, match converted df c with Some s => <[c := s.1]> m | None => m end)
      (dtypes df) l ∧
  rows (foldl coerce_col df l) = imap (coerce_row df l) (rows df).
Proof.
  revert df. induction l as [|a l IH]; intros df Hnd.
  - split; [done |]. unfold coerce_row. simpl.
    rewrite <-(list_fmap_id (rows df)) at 1. by rewrite <-imap_const.
  - apply NoDup_cons in Hnd as [Ha Hnd]. simpl.
    destruct (IH (coerce_col df a) Hnd) as [IHd IHr]. rewrite IHd, IHr.
    assert (∀ c, c ∈ l → converted (coerce_col df a) c = converted df c) as Hc.
    { intros c Hc. apply converted_coerce_col_ne. by intros ->. }
    split.
    + transitivity (foldl (λ m c, match converted df c with
                                  | Some s => <[c := s.1]> m
                                  | None => m
                                  end) (dtypes (coerce_col df a)) l).
      { clear -Hc. generalize (dtypes (coerce_col df a)).
        induction l as [|b l IH]; intros m; [done |]. simpl.
        rewrite Hc by left. apply IH. intros c ?. apply Hc. by right. }
      destruct (converted df a) as [s|] eqn:Hca.
      * by rewrite (coerce_col_converted _ _ _ Hca).
      * by rewrite coerce_col_not_converted.
    + unfold coerce_row at 2. simpl. fold (coerce_row df l).
      destruct (converted df a) as [s|] eqn:Hca.
      * rewrite (coerce_col_converted _ _ _ Hca). simpl. rewrite imap_imap.
        apply imap_ext. intros i r _. simpl.
        apply coerce_row_ext. intros c Hcl. rewrite <-Hc by done.
        by rewrite (coerce_col_converted _ _ _ Hca).
      * rewrite coerce_col_not_converted by done. apply imap_ext. by intros i r _.
Qed.

Lemma coerce_row_cons df a l i r :
  coerce_row df (a :: l) i r =
    coerce_row df l i (match converted df a with
                       | Some s => <[a := s.2 !!! i]> r
                       | None => r
                       end).
Proof. done. Qed.

Lemma coerce_row_lookup df l i r c :
  NoDup l →
  coerce_row df l i r !! c =
    match (if bool_decide (c ∈ l) then converted df c else None) with
    | Some s => Some (s.2 !!! i)
    | None => r !! c
    end.
Proof.
  revert r. induction l as [|a l IH]; intros r Hnd.
  - by rewrite bool_decide_eq_false_2 by apply not_elem_of_nil.
  - apply NoDup_cons in Hnd as [Ha Hnd]. rewrite coerce_row_cons.
    rewrite IH by done. destruct (decide (c = a)) as [->|Hne].
    + rewrite (bool_decide_eq_false_2 (a ∈ l)) by done.
      rewrite (bool_decide_eq_true_2 (a ∈ a :: l)) by left.
      destruct (converted df a); [by rewrite lookup_insert_eq | done].
    + assert (bool_decide (c ∈ a :: l) = bool_decide (c ∈ l)) as ->.
      { apply bool_decide_ext. rewrite elem_of_cons. split; [by intros [?|?] | by right]. }
      destruct (converted df a); [by rewrite lookup_insert_ne | done].
Qed.

Lemma coerce_row_lookup_total df l i r c :
  NoDup l →
  coerce_row df l i r !!! c =
    match (if bool_decide (c ∈ l) then converted df c else None) with
    | Some s => s.2 !!! i
    | None => r !!! c
    end.
Proof.
  intros Hnd. rewrite !lookup_total_alt, coerce_row_lookup by done.
  by destruct (if bool_decide (c ∈ l) then converted df c else None).
Qed.

Lemma dtypes_coerce_lookup df l c :
  foldl (λ m c, match converted df c with Some s => <[c := s.1]> m | None => m end)
    (dtypes df) l !! c =
    match (if bool_decide (c ∈ l) then converted df c else None) with
    | Some s => Some s.1
    | None => dtypes df !! c
    end.
Proof.
  generalize (dtypes df) as m. induction l as [|a l IH]; intros m.
  - by rewrite bool_decide_eq_false_2 by apply not_elem_of_nil.
  - simpl. rewrite IH. destruct (decide (c = a)) as [->|Hne].
    + rewrite (bool_decide_eq_true_2 (a ∈ a :: l)) by left.
      destruct (converted df a) as [s|] eqn:Hca.
      * rewrite lookup_insert_eq. by destruct (bool_decide (a ∈ l)).
      * by destruct (bool_decide (a ∈ l)).
    + assert (bool_decide (c ∈ a :: l) = bool_decide (c ∈ l)) as ->.
      { apply bool_decide_ext. rewrite elem_of_cons. split; [by intros [?|?] | by right]. }
      destruct (converted df a); [by rewrite lookup_insert_ne | done].
Qed.

Lemma NoDup_date_cols df : NoDup (date_cols df).
Proof. apply NoDup_filter, NoDup_fst_map_to_list. Qed.

Lemma elem_of_date_cols df c :
  c ∈ date_cols df ↔ (contains "date" c || contains "timestamp" c = true) ∧ c ∈ columns df.
Proof. unfold date_cols. rewrite list_elem_of_filter. by rewrite Is_true_true. Qed.

Lemma rows_coerce_dates df :
  rows (coerce_dates df) = imap (coerce_row df (date_cols df)) (rows df).
Proof.
  unfold coerce_dates.
  by destruct (foldl_coerce_col df (date_cols df) (NoDup_date_cols df)) as [_ ->].
Qed.

Lemma dtypes_coerce_dates df c :
  dtypes (coerce_dates df) !! c =
    match (if bool_decide (c ∈ date_cols df) then converted df c else None) with
    | Some s => Some s.1
    | None => dtypes df !! c
    end.
Proof.
  unfold coerce_dates.
  destruct (foldl_coerce_col df (date_cols df) (NoDup_date_cols df)) as [-> _].
  apply dtypes_coerce_lookup.
Qed.

(** The coerced frame, column by column. *)
Lemma getitem_coerce_dates df c :
  getitem (coerce_dates df) c =
    match (if bool_decide (c ∈ date_cols df) then converted df c else None) with
    | Some s => Ok s
    | None => getitem df c
    end.
Proof.
  unfold getitem at 1. rewrite dtypes_coerce_dates, rows_coerce_dates.
  destruct (if bool_decide (c ∈ date_cols df) then converted df c else None) as [s|] eqn:Hc.
  - assert (converted df c = Some s) as Hs by (by destruct (bool_decide _)).
    apply length_converted in Hs. destruct s as [dt cells]. simpl in *. f_equal. f_equal.
    apply list_eq. intros i. rewrite list_lookup_fmap, list_lookup_imap.
    destruct (rows df !! i) as [r|] eqn:Hr; simpl.
    + rewrite coerce_row_lookup_total, Hc by apply NoDup_date_cols. simpl.
      symmetry. apply list_lookup_lookup_total_lt. rewrite Hs.
      by apply lookup_lt_Some in Hr.
    + symmetry. apply lookup_ge_None. rewrite Hs. by apply lookup_ge_None.
  - unfold getitem. destruct (dtypes df !! c); [|done].
    f_equal. f_equal. rewrite fmap_imap, <-imap_const. apply imap_ext. intros i r _. simpl.
    rewrite coerce_row_lookup_total by apply NoDup_date_cols. by rewrite Hc.
Qed.

Lemma columns_coerce_dates df c : c ∈ columns (coerce_dates df) ↔ c ∈ columns df.
Proof.
  rewrite !elem_of_columns, dtypes_coerce_dates.
  destruct (bool_decide (c ∈ date_cols df)) eqn:Hc; [|done].
  apply bool_decide_eq_true in Hc. apply elem_of_date_cols in Hc as [_ Hc%elem_of_columns].
  destruct (converted df c); [split; eauto | done].
Qed.

Lemma coerce_row_unmarked df i r c :
  contains "date" c || contains "timestamp" c = false →
  coerce_row df (date_cols df) i r !! c = r !! c.
Proof.
  intros Hc. rewrite coerce_row_lookup by apply NoDup_date_cols.
  rewrite bool_decide_eq_false_2; [done |]. rewrite elem_of_date_cols, Hc. by intros [? _].
Qed.

(** The rows of the coerced frame are the rows of the frame, one for
    one, with the cells of the columns without a marker as they were. *)
Lemma Forall2_rows_coerce_dates df :
  Forall2 (λ r0 r, ∀ c, contains "date" c || contains "timestamp" c = false →
                        r !! c = r0 !! c)
    (rows df) (rows (coerce_dates df)).
Proof.
  rewrite rows_coerce_dates. apply Forall2_same_length_lookup_2.
  - by rewrite length_imap.
  - intros i r0 r Hr0 Hr c Hc. rewrite list_lookup_imap, Hr0 in Hr. injection Hr as <-.
    by apply coerce_row_unmarked.
Qed.
End coercion.

(** ** Preparation *)

Lemma ge_zero_mask cells m :
  Forall2 (λ x y, cell_ge_zero x = Ok y) cells m →
  m = (λ c, bool_decide (valid_delivery_time c)) <$> cells.
Proof.
  induction 1 as [|c b cells m Hc _ IH]; [done |]. rewrite fmap_cons, <-IH. f_equal.
  destruct c as [| |q| |]; simplify_eq/=; [done |].
  apply bool_decide_ext. split; [by exists q | by intros (? & [= <-] & ?)].
Qed.

Lemma drop_invalid_Ok df p :
  drop_invalid df = Ok p →
  dtypes p = dtypes df ∧
  rows p = filter (λ r, valid_delivery_time (r !!! "delivery_time_days")) (rows df).
Proof.
  unfold drop_invalid. intros Hp. inv_bind Hp. injection Hp as <-.
  apply getitem_Ok in Ha as [_ Ha]. apply getitem_Ok in Ha0 as [_ Ha0].
  split; [done |].
  assert (Hm : Forall2 (λ x y, cell_ge_zero x = Ok y) a0.2 a1).
  { apply traverse_Ok. unfold ge_zero in Ha1. by destruct a0.1. }
  apply ge_zero_mask in Hm as ->. rewrite Ha0, <-list_fmap_compose.
  rewrite rows_boolean_index_fmap. unfold notna. rewrite Ha, <-list_fmap_compose.
  rewrite rows_boolean_index_fmap, list_filter_filter. apply list_filter_iff.
  intros r. simpl. rewrite !bool_decide_eq_true. split; [tauto |].
  intros Hv. split; [done |]. by destruct Hv as (? & -> & _).
Qed.

Lemma dt_Ok s l : dt s = Ok l ↔ s.1 = DatetimeDtype ∧ l = s.2.
Proof.
  unfold dt. destruct s.1; split; try done; try by intros [[=] _].
  - by intros [= <-].
  - by intros [_ ->].
Qed.

Lemma add_periods_Ok df p :
  add_periods df = Ok p →
  dtypes df !! "order_purchase_timestamp" = Some DatetimeDtype ∧
  dtypes p = <["order_year" := NumericDtype]> (<["order_year_month" := PeriodDtype]> (dtypes df)) ∧
  rows p = add_periods_row <$> rows df.
Proof.
  unfold add_periods. intros Hp. inv_bind Hp. injection Hp as <-.
  apply getitem_Ok in Ha as [Hdt Ha]. apply dt_Ok in Ha0 as [Hd ->].
  rewrite Hd in Hdt. rewrite Ha, <-list_fmap_compose, setitem_fmap in Ha1 |- *.
  apply getitem_Ok in Ha1 as [_ Ha1]. apply dt_Ok in Ha2 as [Hd1 Ha2]. subst a2.
  unfold rows at 1 in Ha1. split; [done |]. split; [done |].
  unfold setitem, rows at 1. rewrite Ha1. unfold rows at 1. clear.
  induction (rows df) as [|r l IH]; [done |]. rewrite !fmap_cons. simpl. f_equal; [|done].
  unfold add_periods_row. by rewrite lookup_total_insert_ne.
Qed.

Lemma marker_delivery_time_days :
  contains "date" "delivery_time_days" || contains "timestamp" "delivery_time_days" = false.
Proof. by vm_compute. Qed.

Section prepared.
Context `{ToDatetime}.

Lemma getitem_coerce_dates_delivery_time df :
  getitem (coerce_dates df) "delivery_time_days" = getitem df "delivery_time_days".
Proof.
  rewrite getitem_coerce_dates. rewrite bool_decide_eq_false_2; [done |].
  rewrite elem_of_date_cols, marker_delivery_time_days. by intros [? _].
Qed.

Lemma derive_delivery_time_present df :
  "delivery_time_days" ∈ columns df → derive_delivery_time df = Ok df.
Proof. intros Hin. unfold derive_delivery_time. by rewrite bool_decide_eq_true_2. Qed.

Lemma derive_delivery_time_underivable df :
  "delivery_time_days" ∉ columns df →
  ("order_delivered_customer_date" ∉ columns df) ∨ ("order_purchase_timestamp" ∉ columns df) →
  derive_delivery_time df = Ok df.
Proof.
  intros Hd Hs. unfold derive_delivery_time. rewrite bool_decide_eq_false_2 by done.
  destruct Hs as [Hs|Hs].
  - by rewrite (bool_decide_eq_false_2 _ Hs).
  - by rewrite (bool_decide_eq_false_2 _ Hs), andb_false_r.
Qed.


(** C2, as amended.  When the column [delivery_time_days] is absent and
    one of the two source columns is absent as well, the column stays
    absent and the filter step raises [KeyError]: no prepared table is
    produced. *)
Theorem prepare_underivable_raises df :
  "delivery_time_days" ∉ columns df →
  ("order_delivered_customer_date" ∉ columns df) ∨ ("order_purchase_timestamp" ∉ columns df) →
  derive_delivery_time (coerce_dates df) = Ok (coerce_dates df) ∧
  ("delivery_time_days" ∉ columns (coerce_dates df)) ∧
  prepare df = Raise (KeyError "delivery_time_days").
Proof.
  intros Hd Hs.
  assert (derive_delivery_time (coerce_dates df) = Ok (coerce_dates df)) as Hderive.
  { apply derive_delivery_time_underivable; rewrite !columns_coerce_dates; done. }
  split; [done |]. split; [by rewrite columns_coerce_dates |].
  unfold prepare. rewrite Hderive. simpl. unfold drop_invalid.
  assert (getitem (coerce_dates df) "delivery_time_days" = Raise (KeyError "delivery_time_days"))
    as ->; [|done].
  apply getitem_Raise. by rewrite columns_coerce_dates.
Qed.

(** C8.  The coercion of lines 40-45 returns a frame for every input:
    nothing is raised by it and no row is lost.  Every column whose name
    contains "date" or "timestamp" is handed to the date-time
    conversion.  When the conversion returns, the column becomes the
    series it returns: as long as the column was, every value a
    timestamp or missing, the missing values still missing.  When the
    conversion of the column fails, that is raises, the column is left
    as it was.  Columns without a marker are left as they were. *)
Theorem coerce_dates_columns df c s :
  getitem df c = Ok s →
  length (rows (coerce_dates df)) = length (rows df) ∧
  (∀ c', c' ∈ columns (coerce_dates df) ↔ c' ∈ columns df) ∧
  if contains "date" c || contains "timestamp" c then
    match to_datetime s with
    | Ok s' =>
        getitem (coerce_dates df) c = Ok s' ∧
        length s'.2 = length s.2 ∧
        Forall temporal s'.2 ∧
        (∀ i, s.2 !! i = Some NaN → s'.2 !! i = Some NaN)
    | Raise _ => getitem (coerce_dates df) c = Ok s
    end
  else getitem (coerce_dates df) c = Ok s.
Proof.
  intros Hs. split; [by rewrite rows_coerce_dates, length_imap |].
  split; [intros c'; apply columns_coerce_dates |].
  rewrite getitem_coerce_dates.
  assert (c ∈ columns df) as Hin.
  { apply elem_of_columns. apply getitem_Ok in Hs as [-> _]. eauto. }
  destruct (contains "date" c || contains "timestamp" c) eqn:Hm.
  - rewrite (bool_decide_eq_true_2 (c ∈ date_cols df)) by by apply elem_of_date_cols.
    unfold converted. rewrite Hs. simpl. destruct (to_datetime s) as [s'|e] eqn:Hc; [|done].
    split; [done |]. split; [by apply to_datetime_length |].
    split; [by apply (to_datetime_temporal s) |]. intros i. by apply to_datetime_missing.
  - rewrite bool_decide_eq_false_2; [done |].
    rewrite elem_of_date_cols, Hm. by intros [? _].
Qed.
End prepared.

(** ** Grouping *)

Section aggregates.
Context `{Arithmetic}.

#[global] Instance cell_le_total : Total cell_le.
Proof.
  intros [|x|x| |] [|y|y| |]; simpl; try lia.
  - destruct (String.leb_total x y); auto.
  - apply (total Qcle).
Qed.

#[global] Instance sum_ge_total : Total sum_ge.
Proof. intros a b. unfold sum_ge. destruct (total Qcle a.2 b.2); auto. Qed.

#[global] Instance sum_ge_trans : Transitive sum_ge.
Proof. intros a b c Hab Hbc. unfold sum_ge in *. by etrans. Qed.

#[global] Instance key_le_total : Total key_le.
Proof. intros a b. apply (total cell_le). Qed.

Lemma elem_of_group_keys keys k : k ∈ group_keys keys ↔ k ≠ NaN ∧ k ∈ keys.
Proof.
  unfold group_keys. by rewrite merge_sort_Permutation, elem_of_remove_dups, list_elem_of_filter.
Qed.

Lemma NoDup_group_keys keys : NoDup (group_keys keys).
Proof. unfold group_keys. rewrite merge_sort_Permutation. apply NoDup_remove_dups. Qed.

Lemma Sorted_group_keys keys : Sorted cell_le (group_keys keys).
Proof. apply (Sorted_merge_sort _). Qed.

Lemma group_values_fmap {A} (kf vf : A → cell) (l : list A) k :
  (filter (λ kv, kv.1 = k) (zip (kf <$> l) (vf <$> l))).*2 = vf <$> filter (λ r, kf r = k) l.
Proof.
  induction l as [|r l IH]; [done |]. rewrite !fmap_cons. simpl. rewrite !filter_cons. simpl.
  destruct (decide (kf r = k)); [|done]. rewrite !fmap_cons. by f_equal.
Qed.

Lemma groupby_fmap {A} (kf vf : A → cell) (l : list A) :
  groupby (kf <$> l) (vf <$> l) =
    (λ k, (k, vf <$> filter (λ r, kf r = k) l)) <$> group_keys (kf <$> l).
Proof.
  unfold groupby. apply list_fmap_ext. intros _ k _. by rewrite group_values_fmap.
Qed.

Lemma aggregate_Ok {A} (f : list cell → result A) g r :
  aggregate f g = Ok r ↔ Forall2 (λ kv ka, ka.1 = kv.1 ∧ f kv.2 = Ok ka.2) g r.
Proof.
  unfold aggregate. rewrite traverse_Ok.
  split; intros HF; (eapply Forall2_impl; [exact HF |]);
    intros [k v] [k' a]; simpl; rewrite bind_Ok.
  - by intros (a' & Ha & [= <- <-]).
  - intros [-> Ha]. eauto.
Qed.

Lemma cell_number_Ok c o :
  cell_number c = Ok o → o = match c with Num q => Some q | _ => None end.
Proof. by destruct c; intros [= <-]. Qed.

Lemma skipna_Ok l xs : skipna l = Ok xs → xs = numbers l.
Proof.
  unfold skipna. intros Hl. inv_bind Hl. injection Hl as <-. apply traverse_Ok in Ha.
  unfold numbers. induction Ha as [|c o l os Hc _ IH]; [done |].
  apply cell_number_Ok in Hc as ->. destruct c; simpl; try f_equal; apply IH.
Qed.

Lemma sum_Ok l s : sum l = Ok s → s = machine_sum (numbers l).
Proof. unfold sum. intros Hl. inv_bind Hl. injection Hl as <-. by apply skipna_Ok in Ha as ->. Qed.

Lemma mean_Ok l m :
  mean l = Ok m →
  m = match numbers l with
      | [] => NaN
      | xs => Num (Qc_sum xs / Qc_of_Z (Z.of_nat (length xs)))%Qc
      end.
Proof.
  unfold mean. intros Hl. inv_bind Hl. injection Hl as <-. apply skipna_Ok in Ha as ->.
  by destruct (numbers l).
Qed.

(** Splitting a list by the keys [ks]: the groups together are, up to
    order, the elements whose key is one of [ks]. *)
Lemma filter_key_cons {A} (key : A → cell) k ks (l : list A) :
  k ∉ ks →
  filter (λ x, key x ∈ k :: ks) l ≡ₚ filter (λ x, key x = k) l ++ filter (λ x, key x ∈ ks) l.
Proof.
  intros Hk. induction l as [|r l IH]; [done |]. rewrite !filter_cons.
  destruct (decide (key r = k)) as [<-|Hne].
  - rewrite decide_True by left. rewrite (decide_False (P := key r ∈ ks)) by done.
    simpl. by rewrite IH.
  - destruct (decide (key r ∈ ks)) as [Hin|Hin].
    + rewrite decide_True by by right. rewrite IH. apply Permutation_middle.
    + rewrite decide_False; [done |]. by intros [?|?]%elem_of_cons.
Qed.

Lemma partition_by_keys {A} (key : A → cell) ks (l : list A) :
  NoDup ks →
  concat ((λ k, filter (λ x, key x = k) l) <$> ks) ≡ₚ filter (λ x, key x ∈ ks) l.
Proof.
  induction 1 as [|k ks Hk _ IH].
  - simpl. induction l as [|r l IHl]; [done |]. rewrite filter_cons.
    rewrite decide_False; [done |]. apply not_elem_of_nil.
  - rewrite fmap_cons. simpl. by rewrite IH, filter_key_cons.
Qed.

Lemma filter_group_keys {A} (key : A → cell) (l : list A) :
  filter (λ x, key x ∈ group_keys (key <$> l)) l = filter (λ x, key x ≠ NaN) l.
Proof.
  generalize (group_keys (key <$> l)), (elem_of_group_keys (key <$> l)). intros ks Hks.
  assert (∀ x, x ∈ l → key x ∈ ks ↔ key x ≠ NaN) as Hl.
  { intros x Hx. rewrite Hks. split; [tauto |]. intros ?. split; [done |].
    by apply list_elem_of_fmap_2. }
  clear Hks. induction l as [|r l IH]; [done |]. rewrite !filter_cons.
  rewrite IH by (intros x Hx; apply Hl; by right).
  pose proof (Hl r (list_elem_of_here _ _)) as Hr.
  destruct (decide (key r ∈ ks)) as [Hin|Hin].
  - rewrite decide_True; [done | by apply Hr].
  - rewrite decide_False; [done | by rewrite <-Hr].
Qed.

(** ** Sums over rows *)

Lemma Qc_sum_app l1 l2 : Qc_sum (l1 ++ l2) = (Qc_sum l1 + Qc_sum l2)%Qc.
Proof.
  induction l1 as [|x l1 IH]; simpl; [by rewrite Qcplus_0_l |].
  by rewrite IH, Qcplus_assoc.
Qed.

#[global] Instance Qc_sum_Permutation : Proper ((≡ₚ) ==> (=)) Qc_sum.
Proof.
  induction 1 as [|x l1 l2 _ IH|x y l|l1 l2 l3 _ IH1 _ IH2]; simpl.
  - done.
  - by rewrite IH.
  - rewrite !Qcplus_assoc. by rewrite (Qcplus_comm x y).
  - by rewrite IH1.
Qed.

Lemma total_app {A} (vf : A → cell) l1 l2 :
  total_of vf (l1 ++ l2) = (total_of vf l1 + total_of vf l2)%Qc.
Proof. unfold total_of, numbers. by rewrite fmap_app, omap_app, Qc_sum_app. Qed.

#[global] Instance total_Permutation {A} (vf : A → cell) : Proper ((≡ₚ) ==> (=)) (total_of vf).
Proof. intros l1 l2 Hl. unfold total_of, numbers. by rewrite Hl. Qed.

Lemma total_concat {A} (vf : A → cell) (ls : list (list A)) :
  Qc_sum (total_of vf <$> ls) = total_of vf (concat ls).
Proof.
  induction ls as [|l ls IH]; [done |]. rewrite fmap_cons. simpl. by rewrite total_app, IH.
Qed.

Lemma filter_all {A} (P : A → Prop) `{∀ x, Decision (P x)} l : Forall P l → filter P l = l.
Proof.
  induction 1 as [|x l Hx _ IH]; [done |]. rewrite filter_cons, decide_True by done.
  by rewrite IH.
Qed.

(** The sum of the group sums is the sum over the rows that have a key. *)
Lemma total_groups {A} (kf vf : A → cell) (l : list A) :
  Qc_sum ((λ k, total_of vf (filter (λ r, kf r = k) l)) <$> group_keys (kf <$> l)) =
  total_of vf (filter (λ r, kf r ≠ NaN) l).
Proof.
  trans (Qc_sum (total_of vf <$> ((λ k, filter (λ r, kf r = k) l) <$> group_keys (kf <$> l)))).
  { by rewrite <-list_fmap_compose. }
  rewrite total_concat.
  rewrite partition_by_keys by apply NoDup_group_keys. by rewrite filter_group_keys.
Qed.

Lemma aggregate_groupby_Ok {A B} (f : list cell → result B) (kf vf : A → cell) (F : list A → B)
    (l : list A) g :
  (∀ l' b, f (vf <$> l') = Ok b → b = F l') →
  aggregate f (groupby (kf <$> l) (vf <$> l)) = Ok g →
  g = (λ k, (k, F (filter (λ r, kf r = k) l))) <$> group_keys (kf <$> l).
Proof.
  intros Hf. rewrite groupby_fmap, aggregate_Ok. generalize (group_keys (kf <$> l)).
  intros ks. revert g. induction ks as [|k ks IH]; intros g Hg.
  - by apply Forall2_nil_inv_l in Hg as ->.
  - rewrite fmap_cons in Hg. apply Forall2_cons_inv_l in Hg as ([k' b] & g' & [Hk Hb] & Hg & ->).
    simpl in Hk, Hb. subst k'. apply Hf in Hb as ->. rewrite fmap_cons. f_equal. by apply IH.
Qed.

Lemma aggregate_sum_groupby {A} (kf vf : A → cell) (l : list A) g :
  aggregate sum (groupby (kf <$> l) (vf <$> l)) = Ok g →
  g = (λ k, (k, machine_total vf (filter (λ r, kf r = k) l))) <$> group_keys (kf <$> l).
Proof. apply aggregate_groupby_Ok. intros l' b. apply sum_Ok. Qed.

(** ** Months and the monthly revenue *)

Lemma days_from_civil_next_month y m :
  1 ≤ m ≤ 12 →
  days_from_civil y m 1 <
  days_from_civil (if m =? 12 then y + 1 else y) (if m =? 12 then 1 else m + 1) 1.
Proof.
  intros Hm. unfold days_from_civil.
  assert (m = 1 ∨ m = 2 ∨ m = 3 ∨ m = 4 ∨ m = 5 ∨ m = 6 ∨ m = 7 ∨ m = 8 ∨ m = 9 ∨ m = 10
          ∨ m = 11 ∨ m = 12) as Hcases by lia.
  destruct_or!; subst m; simpl; Z.to_euclidean_division_equations; lia.
Qed.

Lemma month_start_step p : month_start p < month_start (p + 1).
Proof.
  unfold month_start.
  pose proof (days_from_civil_next_month (1970 + p / 12) (p `mod` 12 + 1)) as Hn.
  assert (1 ≤ p `mod` 12 + 1 ≤ 12) as Hm by (pose proof (Z.mod_pos_bound p 12); lia).
  specialize (Hn Hm). destruct (p `mod` 12 + 1 =? 12) eqn:He.
  - apply Z.eqb_eq in He.
    replace ((p + 1) / 12) with (p / 12 + 1) by (Z.to_euclidean_division_equations; lia).
    replace ((p + 1) `mod` 12) with 0 by (Z.to_euclidean_division_equations; lia).
    replace (1970 + (p / 12 + 1)) with (1970 + p / 12 + 1) by lia.
    change (0 + 1) with 1. unfold ns_per_day. lia.
  - apply Z.eqb_neq in He.
    replace ((p + 1) / 12) with (p / 12) by (Z.to_euclidean_division_equations; lia).
    replace ((p + 1) `mod` 12) with (p `mod` 12 + 1)
      by (Z.to_euclidean_division_equations; lia).
    unfold ns_per_day. lia.
Qed.

Lemma month_start_lt p q : p < q → month_start p < month_start q.
Proof.
  intros Hpq. replace q with (p + 1 + Z.of_nat (Z.to_nat (q - p - 1))) by lia.
  induction (Z.to_nat (q - p - 1)) as [|n IH].
  - rewrite Z.add_0_r. apply month_start_step.
  - etrans; [apply IH |]. rewrite Nat2Z.inj_succ.
    replace (p + 1 + Z.succ (Z.of_nat n)) with (p + 1 + Z.of_nat n + 1) by lia.
    apply month_start_step.
Qed.

#[global] Instance chronological_trans : Transitive chronological.
Proof. intros [] [] []; simpl; try done. lia. Qed.

Lemma purchase_month_cases r :
  purchase_month r = NaN ∨ ∃ p, purchase_month r = Period p.
Proof.
  unfold purchase_month. destruct (r !!! "order_purchase_timestamp"); simpl; eauto.
Qed.

Lemma month_keys_sorted ks :
  Sorted cell_le ks → NoDup ks → Forall (λ k, ∃ p, k = Period p) ks →
  StronglySorted chronological (to_timestamp <$> ks).
Proof.
  intros Hs Hnd Hp. apply Sorted_StronglySorted; [apply _ |].
  induction Hs as [|k ks Hs IH Hhd]; [constructor |].
  apply NoDup_cons in Hnd as [Hk Hnd]. apply Forall_cons in Hp as [[p ->] Hp].
  rewrite fmap_cons. constructor; [by apply IH |].
  destruct Hhd as [|k' ks' Hle]; [constructor |].
  apply Forall_cons in Hp as [[q ->] _]. rewrite fmap_cons. constructor. simpl in *.
  apply month_start_lt. assert (p ≠ q); [|lia]. intros ->. apply Hk. left.
Qed.

Lemma month_keys rows :
  let ks := group_keys (purchase_month <$> rows) in
  StronglySorted chronological (to_timestamp <$> ks) ∧
  Forall (λ k, ∃ p, k = Period p) ks.
Proof.
  intros ks.
  assert (Forall (λ k, ∃ p, k = Period p) ks) as Hp.
  { apply Forall_forall. intros k [Hk Hin]%elem_of_group_keys.
    apply list_elem_of_fmap in Hin as (r & -> & _).
    by destruct (purchase_month_cases r). }
  split; [|done].
  apply month_keys_sorted; [apply Sorted_group_keys | apply NoDup_group_keys | done].
Qed.

(** What the two monthly views group by. *)
Lemma monthly_view_keys f s l :
  getitem f "order_purchase_timestamp" = Ok s → dt s = Ok l →
  to_period_M <$> l = purchase_month <$> rows f.
Proof.
  intros [_ Hs]%getitem_Ok [_ ->]%dt_Ok. by rewrite Hs, <-list_fmap_compose.
Qed.

(** C4, as amended.  The monthly revenue view has one row per calendar
    month in which a row of the filtered table was purchased, ordered
    chronologically, each with the sum that the library makes of [price]
    over the rows of that month.  When none of these monthly sums is
    rounded or wraps around, the monthly revenues add up to the sum of
    [price] over the rows of the filtered table whose purchase timestamp
    is present, which is the sum over the whole table when no row lacks
    it. *)
Theorem revenue_per_month_conservation f v :
  revenue_per_month f = Ok v →
  StronglySorted chronological v.*1 ∧
  (∀ r p, r ∈ rows f → purchase_month r = Period p → Time (month_start p) ∈ v.*1) ∧
  (∀ t x, (t, x) ∈ v → ∃ p,
     t = Time (month_start p) ∧
     Period p ∈ purchase_month <$> rows f ∧
     x = month_revenue p (rows f)) ∧
  ((∀ p, Period p ∈ purchase_month <$> rows f →
         month_revenue p (rows f) =
           total_of (λ r, r !!! "price")
             (filter (λ r, purchase_month r = Period p) (rows f))) →
   Qc_sum v.*2 =
     total_of (λ r, r !!! "price") (filter (λ r, purchase_month r ≠ NaN) (rows f)) ∧
   ((∀ r, r ∈ rows f → purchase_month r ≠ NaN) →
    Qc_sum v.*2 = total_of (λ r, r !!! "price") (rows f))).
Proof.
  unfold revenue_per_month. intros Hv. inv_bind Hv. injection Hv as <-.
  rewrite (monthly_view_keys _ _ _ Ha Ha0) in Ha2. apply getitem_Ok in Ha1 as [_ Ha1].
  rewrite Ha1 in Ha2. apply aggregate_sum_groupby in Ha2 as ->.
  destruct (month_keys (rows f)) as [Hsorted Hperiods].
  rewrite <-!list_fmap_compose. split; [|split; [|split]].
  - done.
  - intros r p Hr Hp. apply list_elem_of_fmap. exists (Period p). split; [done |].
    apply elem_of_group_keys. split; [done |]. rewrite <-Hp. by apply list_elem_of_fmap_2.
  - intros t x (k & [= -> ->] & Hk)%list_elem_of_fmap.
    rewrite Forall_forall in Hperiods. destruct (Hperiods k Hk) as [p ->].
    exists p. split; [done |]. split; [|done]. by apply elem_of_group_keys in Hk as [_ ?].
  - intros Hexact.
    assert (Qc_sum ((snd ∘ prod_map to_timestamp id ∘
                     (λ k, (k, machine_total (λ r : gmap string cell, r !!! "price")
                                 (filter (λ r, purchase_month r = k) (rows f))))) <$>
                    group_keys (purchase_month <$> rows f)) =
            total_of (λ r, r !!! "price") (filter (λ r, purchase_month r ≠ NaN) (rows f)))
      as Hsum.
    { rewrite <-total_groups. f_equal. apply list_fmap_ext. intros _ k Hk%list_elem_of_lookup_2.
      simpl. rewrite Forall_forall in Hperiods. destruct (Hperiods k Hk) as [p ->].
      apply Hexact. by apply elem_of_group_keys in Hk as [_ ?]. }
    split; [done |]. intros Hall. etrans; [exact Hsum |]. f_equal.
    by apply filter_all, Forall_forall.
Qed.

(** ** Top-10 categories *)

(** What the top-10 category view computes: the summed revenues of the
    categories, sorted and cut off. *)
Lemma top10_products_Ok f v :
  top10_products f = Ok v →
  v = take 10 (sort_values_desc
                 ((λ c, (c, category_revenue c (rows f))) <$>
                  group_keys ((λ r : gmap string cell, r !!! "product_category_name")
                                <$> rows f))).
Proof.
  unfold top10_products. intros Hv. inv_bind Hv. injection Hv as <-.
  apply getitem_Ok in Ha as [_ Ha]. apply getitem_Ok in Ha0 as [_ Ha0].
  rewrite Ha, Ha0 in Ha1. by apply aggregate_sum_groupby in Ha1 as ->.
Qed.

Lemma top10_products_sums f v c x :
  top10_products f = Ok v → (c, x) ∈ v →
  c ≠ NaN ∧ c ∈ (λ r : gmap string cell, r !!! "product_category_name") <$> rows f ∧
  x = category_revenue c (rows f).
Proof.
  intros -> %top10_products_Ok Hin%subseteq_take. unfold sort_values_desc in Hin.
  rewrite merge_sort_Permutation in Hin.
  apply list_elem_of_fmap in Hin as (k & [= -> ->] & Hk%elem_of_group_keys). tauto.
Qed.

(** C3. The top-10 category view has at most 10 rows and at most one row
    per category; each row carries a category of the filtered table and
    the sum of [price] over the rows of that category; the rows are
    ordered by summed revenue, descending; and the summed revenue of every
    category that is left out is at most that of every category in the
    view. *)
Theorem top10_products_spec f v :
  top10_products f = Ok v →
  (length v ≤ 10)%nat ∧
  NoDup v.*1 ∧
  (∀ c x, (c, x) ∈ v →
     c ≠ NaN ∧ c ∈ (λ r : gmap string cell, r !!! "product_category_name") <$> rows f ∧
     x = category_revenue c (rows f)) ∧
  StronglySorted sum_ge v ∧
  (∀ c x c', (c, x) ∈ v →
     c' ≠ NaN → c' ∈ (λ r : gmap string cell, r !!! "product_category_name") <$> rows f →
     c' ∉ v.*1 →
     (category_revenue c' (rows f) ≤ x)%Qc).
Proof.
  intros Hv. pose proof (top10_products_sums f v) as Hsums.
  apply top10_products_Ok in Hv as Hv'.
  set (cat := λ r : gmap string cell, r !!! "product_category_name") in *.
  set (g := _ <$> group_keys (cat <$> rows f)) in Hv'.
  assert (Hkeys : g.*1 = group_keys (cat <$> rows f)).
  { unfold g. rewrite <-list_fmap_compose. apply list_fmap_id. }
  pose proof (StronglySorted_merge_sort sum_ge g) as Hsorted.
  pose proof (merge_sort_Permutation sum_ge g) as Hperm.
  fold (sort_values_desc g) in Hsorted, Hperm.
  rewrite <-(take_drop 10 (sort_values_desc g)), <-Hv' in Hsorted.
  split; [|split; [|split; [|split]]].
  - rewrite Hv', length_take. lia.
  - rewrite Hv', fmap_take. eapply sublist_NoDup; [|apply sublist_take].
    rewrite Hperm, Hkeys. apply NoDup_group_keys.
  - intros c x Hin. by apply Hsums.
  - by apply StronglySorted_app_1_l in Hsorted.
  - intros c x c' Hin Hc' Hcat Hout.
    assert ((c', category_revenue c' (rows f)) ∈ sort_values_desc g) as Hin'.
    { rewrite Hperm. apply list_elem_of_fmap. exists c'. split; [done |].
      by apply elem_of_group_keys. }
    rewrite <-(take_drop 10 (sort_values_desc g)), <-Hv' in Hin'.
    apply elem_of_app in Hin' as [Hin'|Hin'].
    + destruct Hout. apply list_elem_of_fmap. by exists (c', category_revenue c' (rows f)).
    + apply (StronglySorted_app_1_elem_of _ _ _ _ _ Hsorted Hin Hin').
Qed.

(** ** Review scores *)

Lemma aggregate_mean_groupby (kf : gmap string cell → cell) (l : list (gmap string cell)) g :
  aggregate mean
    (groupby (kf <$> l) ((λ r : gmap string cell, r !!! "delivery_time_days") <$> l)) = Ok g →
  g = (λ k, (k, mean_delivery_time (filter (λ r, kf r = k) l))) <$> group_keys (kf <$> l).
Proof. apply aggregate_groupby_Ok. intros l' b. apply mean_Ok. Qed.

(** What the review-score view computes. *)
Lemma delivery_vs_review_Ok f v :
  delivery_vs_review f = Ok v →
  v = (λ k, (k, mean_delivery_time (filter (λ r, r !!! "review_score" = k) (rows f)))) <$>
        group_keys ((λ r : gmap string cell, r !!! "review_score") <$> rows f).
Proof.
  unfold delivery_vs_review. intros Hv. inv_bind Hv.
  apply getitem_Ok in Ha as [_ Ha]. apply getitem_Ok in Ha0 as [_ Ha0].
  rewrite Ha, Ha0 in Hv. by apply aggregate_mean_groupby in Hv.
Qed.


(** ** Year filter *)

Lemma Sorted_NoDup_Qclt l : Sorted Qcle l → NoDup l → StronglySorted Qclt l.
Proof.
  intros Hs Hnd. apply Sorted_StronglySorted; [apply _ |].
  induction Hs as [|x l Hs IH Hhd]; [constructor |].
  apply NoDup_cons in Hnd as [Hx Hnd]. constructor; [by apply IH |].
  destruct Hhd as [|y l Hxy]; constructor.
  destruct (Qcle_lt_or_eq _ _ Hxy) as [?| ->]; [done |]. destruct Hx. left.
Qed.

Lemma elem_of_numbers l q : q ∈ numbers l ↔ Num q ∈ l.
Proof.
  unfold numbers. rewrite list_elem_of_omap. split.
  - intros (c & Hc & Hq). destruct c; simplify_eq. done.
  - intros Hq. by exists (Num q).
Qed.

Section year_selection.
Context `{ToDatetime}.

Lemma prepare_dtypes raw df :
  prepare raw = Ok df →
  dtypes df !! "order_purchase_timestamp" = Some DatetimeDtype ∧
  "delivery_time_days" ∈ columns df ∧ "order_year" ∈ columns df ∧
  "order_year_month" ∈ columns df.
Proof.
  unfold prepare. intros Hp. inv_bind Hp.
  assert ("delivery_time_days" ∈ columns a0) as Hd.
  { unfold drop_invalid in Ha0. inv_bind Ha0. injection Ha0 as <-.
    apply getitem_Ok in Ha2 as [Hdt _]. apply elem_of_columns. simpl in *. eauto. }
  apply add_periods_Ok in Hp as (Hts & Hdt & _). rewrite !elem_of_columns, Hdt.
  apply elem_of_columns in Hd.
  rewrite !lookup_insert_ne by done. rewrite lookup_insert_eq.
  rewrite (lookup_insert_ne _ "order_year" "order_year_month") by done.
  rewrite lookup_insert_eq. eauto.
Qed.

Lemma filtered_df_year df y :
  "order_year" ∈ columns df →
  ∃ f, filtered_df df (Tahun y) = Ok f ∧
    dtypes f = dtypes df ∧
    rows f = filter (λ r, r !!! "order_year" = Num y) (rows df).
Proof.
  intros Hy. destruct (getitem_is_Ok df "order_year" Hy) as [dt Hdt].
  unfold filtered_df. rewrite Hdt. simpl. eexists. split; [done |].
  split; [done |]. rewrite <-list_fmap_compose, rows_boolean_index_fmap.
  apply list_filter_iff. intros r. simpl. by rewrite bool_decide_eq_true.
Qed.

(** C7. On a prepared table the year filter returns the whole table
    for the "all years" choice and, for a year, exactly the rows whose
    [order_year] is that year; the choices offered are the "all years"
    choice followed by the values of [order_year] that are not missing,
    without repetition and in increasing order. *)
Theorem year_filter_spec raw df :
  prepare raw = Ok df →
  filtered_df df Semua = Ok df ∧
  (∀ y, ∃ f, filtered_df df (Tahun y) = Ok f ∧
     dtypes f = dtypes df ∧
     rows f = filter (λ r, r !!! "order_year" = Num y) (rows df)) ∧
  ∃ ys, tahun_opsi df = Ok (Semua :: (Tahun <$> ys)) ∧
    StronglySorted Qclt ys ∧
    ∀ y, y ∈ ys ↔ Num y ∈ (λ r : gmap string cell, r !!! "order_year") <$> rows df.
Proof.
  intros (_ & _ & Hy & _)%prepare_dtypes.
  destruct (getitem_is_Ok df "order_year" Hy) as [dt Hdt].
  split; [done |]. split.
  - intros y. by apply filtered_df_year.
  - unfold tahun_opsi. rewrite Hdt. simpl. eexists. split; [done |]. split.
    + apply Sorted_NoDup_Qclt; [apply (Sorted_merge_sort _) |].
      rewrite merge_sort_Permutation. apply NoDup_remove_dups.
    + intros y. by rewrite merge_sort_Permutation, elem_of_remove_dups, elem_of_numbers.
Qed.
End year_selection.

Lemma getitem_no_rows f c :
  rows f = [] → c ∈ columns f → ∃ dt, getitem f c = Ok (dt, []).
Proof.
  intros Hr Hc. destruct (getitem_is_Ok f c Hc) as [dt Hdt]. exists dt. by rewrite Hdt, Hr.
Qed.

Section empty_selection.
Context `{ToDatetime}.

(** C9. On a prepared table, filtering with the "all years" choice
    twice gives the table that filtering once gives; and for a year that
    no row has, the filtered table has no rows and every aggregation
    view of it is computed without an exception and is empty (the table
    is taken to have the columns that the views read). *)
Theorem year_filter_idempotent_empty raw df :
  prepare raw = Ok df →
  (f <- filtered_df df Semua;; filtered_df f Semua) = filtered_df df Semua ∧
  ∀ y,
    "order_id" ∈ columns df → "price" ∈ columns df →
    "product_category_name" ∈ columns df → "review_score" ∈ columns df →
    (∀ r, r ∈ rows df → r !!! "order_year" ≠ Num y) →
    ∃ f, filtered_df df (Tahun y) = Ok f ∧ rows f = [] ∧
      orders_per_month f = Ok [] ∧
      revenue_per_month f = Ok [] ∧
      top10_products f = Ok [] ∧
      delivery_time_distribution f = Ok [] ∧
      delivery_vs_review f = Ok [] ∧
      avg_delivery f = Ok [].
Proof.
  intros Hp. split; [done |]. intros y Hid Hprice Hcat Hscore Hnone.
  destruct (prepare_dtypes raw df Hp) as (Hts & Hdtd & Hyear & _).
  destruct (filtered_df_year df y Hyear) as (f & Hfy & Hdt & Hrows). exists f. split; [done |].
  assert (rows f = []) as Hnil.
  { rewrite Hrows. clear Hrows. revert Hnone. generalize (rows df).
    intros l. induction l as [|r l IH]; intros Hnone; [done |].
    rewrite filter_cons. rewrite decide_False by (apply Hnone; left).
    apply IH. intros r' Hr'. apply Hnone. by right. }
  split; [done |].
  assert (∀ c, c ∈ columns df → ∃ dt, getitem f c = Ok (dt, [])) as Hget.
  { intros c Hc. apply getitem_no_rows; [done |]. by rewrite elem_of_columns, Hdt, <-elem_of_columns. }
  assert (getitem f "order_purchase_timestamp" = Ok (DatetimeDtype, [])) as Hgts.
  { unfold getitem. by rewrite Hdt, Hts, Hnil. }
  destruct (Hget _ Hid) as [? Hgid]. destruct (Hget _ Hprice) as [? Hgprice].
  destruct (Hget _ Hcat) as [? Hgcat]. destruct (Hget _ Hscore) as [? Hgscore].
  destruct (Hget _ Hdtd) as [? Hgdtd].
  unfold orders_per_month, revenue_per_month, top10_products, delivery_time_distribution,
    delivery_vs_review, avg_delivery.
  rewrite Hgts, Hgid, Hgprice, Hgcat, Hgscore, Hgdtd. by repeat split.
Qed.
End empty_selection.

(** ** Distinct orders per month *)

Lemma elem_of_distinct_pairs {A} (kf vf : A → cell) l k i :
  (k, i) ∈ distinct_pairs kf vf l ↔ k ≠ NaN ∧ i ≠ NaN ∧ ∃ r, r ∈ l ∧ kf r = k ∧ vf r = i.
Proof.
  unfold distinct_pairs. rewrite elem_of_remove_dups, list_elem_of_filter, list_elem_of_fmap.
  simpl. split.
  - intros [[Hk Hi] (r & [= -> ->] & Hr)]. eauto 10.
  - intros (Hk & Hi & r & Hr & <- & <-). eauto.
Qed.

Lemma length_concat_sum {A} (ls : list (list A)) :
  length (concat ls) = sum_list (length <$> ls).
Proof. induction ls as [|l ls IH]; [done |]. simpl. by rewrite length_app, IH. Qed.

Lemma nunique_group {A} (kf vf : A → cell) l k :
  k ≠ NaN →
  nunique (vf <$> filter (λ r, kf r = k) l) =
  length (filter (λ kv, kv.1 = k) (distinct_pairs kf vf l)).
Proof.
  intros Hk. unfold nunique.
  rewrite <-(length_fmap snd (filter _ (distinct_pairs kf vf l))).
  apply Permutation_length, NoDup_Permutation.
  - apply NoDup_remove_dups.
  - apply NoDup_fmap_2_strong.
    + intros [k1 i1] [k2 i2] [Hk1 _]%list_elem_of_filter [Hk2 _]%list_elem_of_filter.
      simpl in *. congruence.
    + apply NoDup_filter, NoDup_remove_dups.
  - intros i. rewrite elem_of_remove_dups, list_elem_of_filter, !list_elem_of_fmap. split.
    + intros (Hi & r & -> & [Hr Hin]%list_elem_of_filter). exists (k, vf r). split; [done |].
      apply list_elem_of_filter. split; [done |]. apply elem_of_distinct_pairs. eauto 10.
    + intros ([k' i'] & -> & [Hk' Hin]%list_elem_of_filter). simpl in *. subst k'.
      apply elem_of_distinct_pairs in Hin as (_ & Hi & r & Hr & <- & <-).
      split; [done |]. exists r. split; [done |]. by apply list_elem_of_filter.
Qed.

(** The counts of the groups add up to the number of distinct pairs. *)
Lemma nunique_groups {A} (kf vf : A → cell) (l : list A) :
  sum_list ((λ k, nunique (vf <$> filter (λ r, kf r = k) l)) <$> group_keys (kf <$> l)) =
  length (distinct_pairs kf vf l).
Proof.
  trans (sum_list (length <$> ((λ k, filter (λ kv, kv.1 = k) (distinct_pairs kf vf l)) <$>
                                 group_keys (kf <$> l)))).
  { rewrite <-list_fmap_compose. f_equal. apply list_fmap_ext.
    intros _ k [Hk _]%list_elem_of_lookup_2%elem_of_group_keys. by apply nunique_group. }
  rewrite <-length_concat_sum, (partition_by_keys fst) by apply NoDup_group_keys.
  rewrite filter_all; [done |]. apply Forall_forall. intros [k i] Hin. simpl.
  apply elem_of_distinct_pairs in Hin as (Hk & _ & r & Hr & <- & _).
  apply elem_of_group_keys. split; [done |]. by apply list_elem_of_fmap_2.
Qed.

(** When every value has one key only and no value lacks a key, the
    distinct pairs are as many as the distinct values. *)
Lemma distinct_pairs_nunique {A} (kf vf : A → cell) (l : list A) :
  (∀ r, r ∈ l → vf r ≠ NaN → kf r ≠ NaN) →
  (∀ r1 r2, r1 ∈ l → r2 ∈ l → vf r1 ≠ NaN → vf r1 = vf r2 → kf r1 = kf r2) →
  length (distinct_pairs kf vf l) = nunique (vf <$> l).
Proof.
  intros Hkey Hone. unfold nunique. rewrite <-(length_fmap snd (distinct_pairs kf vf l)).
  apply Permutation_length, NoDup_Permutation.
  - apply NoDup_fmap_2_strong; [|apply NoDup_remove_dups].
    intros [k1 i1] [k2 i2] Hin1 Hin2. simpl. intros <-.
    apply elem_of_distinct_pairs in Hin1 as (_ & Hi & r1 & Hr1 & <- & <-).
    apply elem_of_distinct_pairs in Hin2 as (_ & _ & r2 & Hr2 & <- & Hv).
    f_equal. by apply Hone.
  - apply NoDup_remove_dups.
  - intros i. rewrite elem_of_remove_dups, list_elem_of_filter, !list_elem_of_fmap. split.
    + intros ([k i'] & -> & Hin). simpl.
      apply elem_of_distinct_pairs in Hin as (_ & Hi & r & Hr & _ & <-). eauto.
    + intros (Hi & r & -> & Hr). exists (kf r, vf r). split; [done |].
      apply elem_of_distinct_pairs. split; [by apply Hkey |]. eauto.
Qed.

(** C5, as amended.  The monthly order count view has one row per
    calendar month in which a row of the filtered table was purchased,
    ordered chronologically, each with the number of distinct [order_id]
    values of that month.  The counts add up to the number of distinct
    pairs of a month and an [order_id]; this is the number of distinct
    [order_id] values of the filtered table when no row with an [order_id]
    lacks its purchase timestamp and no [order_id] has rows in two
    months. *)
Theorem orders_per_month_total f v :
  orders_per_month f = Ok v →
  sum_list v.*2 = length (month_orders (rows f)) ∧
  ((∀ r, r ∈ rows f → r !!! "order_id" ≠ NaN → purchase_month r ≠ NaN) →
   (∀ r1 r2, r1 ∈ rows f → r2 ∈ rows f → r1 !!! "order_id" ≠ NaN →
      r1 !!! "order_id" = r2 !!! "order_id" → purchase_month r1 = purchase_month r2) →
   sum_list v.*2 = nunique ((λ r : gmap string cell, r !!! "order_id") <$> rows f)) ∧
  StronglySorted chronological v.*1 ∧
  (∀ t n, (t, n) ∈ v → ∃ p,
     t = Time (month_start p) ∧
     Period p ∈ purchase_month <$> rows f ∧
     n = nunique ((λ r : gmap string cell, r !!! "order_id") <$>
                    filter (λ r, purchase_month r = Period p) (rows f))).
Proof.
  unfold orders_per_month. intros Hv. inv_bind Hv. injection Hv as <-.
  rewrite (monthly_view_keys _ _ _ Ha Ha0). apply getitem_Ok in Ha1 as [_ ->].
  rewrite groupby_fmap. destruct (month_keys (rows f)) as [Hsorted Hperiods].
  set (ks := group_keys (purchase_month <$> rows f)) in *.
  set (ids := λ r : gmap string cell, r !!! "order_id").
  set (v := _ <$> (_ <$> ks)).
  assert (v = (λ k, (to_timestamp k,
                     nunique (ids <$> filter (λ r, purchase_month r = k) (rows f)))) <$> ks)
    as Hv by (unfold v; by rewrite <-list_fmap_compose).
  assert (v.*2 = (λ k, nunique (ids <$> filter (λ r, purchase_month r = k) (rows f))) <$> ks)
    as Hv2 by (rewrite Hv; by rewrite <-list_fmap_compose).
  assert (v.*1 = to_timestamp <$> ks) as Hv1 by (rewrite Hv; by rewrite <-list_fmap_compose).
  rewrite Hv1, Hv2.
  assert (sum_list ((λ k, nunique (ids <$> filter (λ r, purchase_month r = k) (rows f))) <$> ks)
          = length (month_orders (rows f))) as Hsum by apply nunique_groups.
  split; [done |]. split; [|split].
  - intros Hkey Hone. rewrite Hsum. by apply distinct_pairs_nunique.
  - done.
  - intros t n. rewrite Hv. intros (k & [= -> ->] & Hk)%list_elem_of_fmap.
    rewrite Forall_forall in Hperiods. destruct (Hperiods k Hk) as [p ->].
    exists p. split; [done |]. split; [|done]. by apply elem_of_group_keys in Hk as [_ ?].
Qed.

(** ** Rows without a purchase timestamp *)





#[global] Instance numbers_Permutation : Proper ((≡ₚ) ==> (≡ₚ)) numbers.
Proof. intros l1 l2 Hl. unfold numbers. by rewrite Hl. Qed.



Section missing_purchase.
Context `{ToDatetime}.



End missing_purchase.

End aggregates.

(** ** The pipeline on the concrete tables *)

Section examples.
#[local] Existing Instance iso_to_datetime.
#[local] Existing Instance exact_arithmetic.

Lemma prepare_scenario : prepare scenario = Ok scenario_prepared.
Proof. compute_done. Qed.


(** The scenario of the specification: two orders in January 2023, a
    revenue of 150, all of it in the category toys, and a mean delivery
    time of 5 days for the review score 4 and of 2 days for 5. *)
Example scenario_views :
  filtered_df scenario_prepared Semua = Ok scenario_prepared ∧
  tahun_opsi scenario_prepared = Ok [Semua; Tahun (Qc_of_Z 2023)] ∧
  orders_per_month scenario_prepared = Ok [(Time (month_start 636), 2%nat)] ∧
  revenue_per_month scenario_prepared = Ok [(Time (month_start 636), Qc_of_Z 150)] ∧
  top10_products scenario_prepared = Ok [(Str "toys", Qc_of_Z 150)] ∧
  delivery_time_distribution scenario_prepared = Ok [n 5; n 2] ∧
  delivery_vs_review scenario_prepared = Ok [(n 4, n 5); (n 5, n 2)] ∧
  avg_delivery scenario_prepared = Ok [(n 4, n 5); (n 5, n 2)].
Proof. repeat split; compute_done. Qed.
End examples.

(** ** Witnesses and counterexamples *)

Section witnesses.
#[local] Existing Instance iso_to_datetime.
#[local] Existing Instance exact_arithmetic.


(** C2, as stated, fails: the table has neither the delivery times nor
    the delivery date, and preparation raises instead of yielding an
    empty table. *)
Lemma prepare_underivable_counterexample :
  ("delivery_time_days" ∉ columns underivable) ∧
  ("order_delivered_customer_date" ∉ columns underivable) ∧
  prepare underivable = Raise (KeyError "delivery_time_days") ∧
  ¬ ∃ p, prepare underivable = Ok p ∧ rows p = [].
Proof.
  assert (prepare underivable = Raise (KeyError "delivery_time_days")) as Hp by compute_done.
  split; [compute_done |]. split; [compute_done |]. split; [exact Hp |].
  intros (p & Hp' & _). rewrite Hp in Hp'. discriminate.
Qed.

Lemma prepare_underivable_raises_witness :
  ("delivery_time_days" ∉ columns underivable) ∧
  (("order_delivered_customer_date" ∉ columns underivable) ∨
   ("order_purchase_timestamp" ∉ columns underivable)) ∧
  prepare underivable = Raise (KeyError "delivery_time_days").
Proof.
  assert ("delivery_time_days" ∉ columns underivable) as Hd by compute_done.
  assert ("order_delivered_customer_date" ∉ columns underivable) as Hs by compute_done.
  split; [exact Hd |]. split; [left; exact Hs |].
  exact (proj2 (proj2 (prepare_underivable_raises underivable Hd (or_introl Hs)))).
Defined.

Lemma coerce_dates_columns_witness :
  getitem unparseable "order_date" = Ok (ObjectDtype, [Str "hello"; Str "2023-01-05"]) ∧
  getitem (coerce_dates unparseable) "order_date" =
    Ok (DatetimeDtype, [NaN; Time 1672876800000000000]) ∧
  getitem (@coerce_dates strict_to_datetime unparseable) "order_date" =
    Ok (ObjectDtype, [Str "hello"; Str "2023-01-05"]).
Proof.
  assert (getitem unparseable "order_date" = Ok (ObjectDtype, [Str "hello"; Str "2023-01-05"]))
    as Hs by compute_done.
  split; [exact Hs |]. split.
  - exact (proj1 (proj2 (proj2 (coerce_dates_columns unparseable "order_date" _ Hs)))).
  - exact (proj2 (proj2 (@coerce_dates_columns strict_to_datetime unparseable
                           "order_date" _ Hs))).
Defined.

Lemma top10_products_spec_witness :
  top10_products assortment = Ok assortment_top10 ∧
  (length assortment_top10 ≤ 10)%nat ∧
  NoDup assortment_top10.*1 ∧
  Qc_of_Z 15 = category_revenue (Str "k") (rows assortment) ∧
  StronglySorted sum_ge assortment_top10 ∧
  (category_revenue (Str "a") (rows assortment) ≤ Qc_of_Z 2)%Qc.
Proof.
  assert (top10_products assortment = Ok assortment_top10) as Hv by compute_done.
  assert ((Str "k", Qc_of_Z 15) ∈ assortment_top10) as Hk by compute_done.
  assert ((Str "b", Qc_of_Z 2) ∈ assortment_top10) as Hb by compute_done.
  assert (Str "a" ≠ NaN) as Ha by discriminate.
  assert (Str "a" ∈ (λ r : gmap string cell, r !!! "product_category_name") <$>
                      rows assortment) as Hin by compute_done.
  assert (Str "a" ∉ assortment_top10.*1) as Hout by compute_done.
  destruct (top10_products_spec assortment _ Hv) as (Hlen & Hnd & Hsum & Hsorted & Hcut).
  split; [exact Hv |]. split; [exact Hlen |]. split; [exact Hnd |].
  split; [exact (proj2 (proj2 (Hsum _ _ Hk))) |]. split; [exact Hsorted |].
  exact (Hcut _ _ _ Hb Ha Hin Hout).
Defined.

(** C4, as stated, fails: the row without a purchase timestamp is in
    no month, so the monthly revenues add up to 100 while the prices of
    the filtered table add up to 140. *)
Lemma revenue_per_month_counterexample :
  prepare missing_purchase = Ok missing_purchase_prepared ∧
  filtered_df missing_purchase_prepared Semua = Ok missing_purchase_prepared ∧
  revenue_per_month missing_purchase_prepared = Ok [(Time (month_start 636), Qc_of_Z 100)] ∧
  total_of (λ r, r !!! "price") (rows missing_purchase_prepared) = Qc_of_Z 140 ∧
  Qc_sum [(Time (month_start 636), Qc_of_Z 100)].*2 ≠
    total_of (λ r, r !!! "price") (rows missing_purchase_prepared).
Proof. repeat split; compute_done. Qed.

Lemma revenue_per_month_conservation_witness :
  revenue_per_month missing_purchase_prepared = Ok [(Time (month_start 636), Qc_of_Z 100)] ∧
  (∀ p, Period p ∈ purchase_month <$> rows missing_purchase_prepared →
        month_revenue p (rows missing_purchase_prepared) =
          total_of (λ r, r !!! "price")
            (filter (λ r, purchase_month r = Period p) (rows missing_purchase_prepared))) ∧
  Qc_sum [(Time (month_start 636), Qc_of_Z 100)].*2 =
    total_of (λ r, r !!! "price")
      (filter (λ r, purchase_month r ≠ NaN) (rows missing_purchase_prepared)).
Proof.
  assert (revenue_per_month missing_purchase_prepared =
            Ok [(Time (month_start 636), Qc_of_Z 100)]) as Hv by compute_done.
  assert (∀ p, Period p ∈ purchase_month <$> rows missing_purchase_prepared →
               month_revenue p (rows missing_purchase_prepared) =
                 total_of (λ r, r !!! "price")
                   (filter (λ r, purchase_month r = Period p)
                      (rows missing_purchase_prepared))) as Hexact
    by (intros p _; reflexivity).
  split; [exact Hv |]. split; [exact Hexact |].
  exact (proj1 (proj2 (proj2 (proj2
           (revenue_per_month_conservation missing_purchase_prepared _ Hv))) Hexact)).
Defined.

(** C5, as stated, fails twice: the order of the row without a purchase
    timestamp is counted in no month (one order counted, two distinct
    orders), and the order whose rows fall in two months is counted in
    both (two orders counted, one distinct order). *)
Lemma orders_per_month_counterexample :
  (prepare missing_purchase = Ok missing_purchase_prepared ∧
   orders_per_month missing_purchase_prepared = Ok [(Time (month_start 636), 1%nat)] ∧
   nunique ((λ r : gmap string cell, r !!! "order_id") <$> rows missing_purchase_prepared)
     = 2%nat) ∧
  (df <- prepare split_order;; orders_per_month df) =
    Ok [(Time (month_start 636), 1%nat); (Time (month_start 637), 1%nat)] ∧
  (df <- prepare split_order;;
   Ok (nunique ((λ r : gmap string cell, r !!! "order_id") <$> rows df))) = Ok 1%nat.
Proof. repeat split; compute_done. Qed.

Lemma orders_per_month_total_witness :
  orders_per_month scenario_prepared = Ok [(Time (month_start 636), 2%nat)] ∧
  sum_list [(Time (month_start 636), 2%nat)].*2 = length (month_orders (rows scenario_prepared)) ∧
  sum_list [(Time (month_start 636), 2%nat)].*2 =
    nunique ((λ r : gmap string cell, r !!! "order_id") <$> rows scenario_prepared).
Proof.
  assert (orders_per_month scenario_prepared = Ok [(Time (month_start 636), 2%nat)]) as Hv
    by compute_done.
  destruct (orders_per_month_total scenario_prepared _ Hv) as (Hpairs & Hdistinct & _).
  assert (Forall (λ r : gmap string cell, r !!! "order_id" ≠ NaN → purchase_month r ≠ NaN)
            (rows scenario_prepared)) as Hkey by compute_done.
  assert (Forall (λ r1 : gmap string cell,
            Forall (λ r2 : gmap string cell,
              r1 !!! "order_id" ≠ NaN → r1 !!! "order_id" = r2 !!! "order_id" →
              purchase_month r1 = purchase_month r2) (rows scenario_prepared))
            (rows scenario_prepared)) as Hone by compute_done.
  split; [exact Hv |]. split; [exact Hpairs |]. apply Hdistinct.
  - intros r Hr. exact (proj1 (Forall_forall _ _) Hkey r Hr).
  - intros r1 r2 Hr1 Hr2.
    exact (proj1 (Forall_forall _ _) (proj1 (Forall_forall _ _) Hone r1 Hr1) r2 Hr2).
Defined.


Lemma year_filter_spec_witness :
  prepare scenario = Ok scenario_prepared ∧
  filtered_df scenario_prepared Semua = Ok scenario_prepared ∧
  ∃ f, filtered_df scenario_prepared (Tahun (Qc_of_Z 2023)) = Ok f ∧
    dtypes f = dtypes scenario_prepared ∧
    rows f = filter (λ r, r !!! "order_year" = n 2023) (rows scenario_prepared).
Proof.
  pose proof prepare_scenario as Hp.
  destruct (year_filter_spec scenario scenario_prepared Hp) as (Hall & Hyear & _).
  split; [exact Hp |]. split; [exact Hall | exact (Hyear (Qc_of_Z 2023))].
Defined.

Lemma year_filter_idempotent_empty_witness :
  prepare scenario = Ok scenario_prepared ∧
  (∀ r, r ∈ rows scenario_prepared → r !!! "order_year" ≠ n 1999) ∧
  ∃ f, filtered_df scenario_prepared (Tahun (Qc_of_Z 1999)) = Ok f ∧ rows f = [] ∧
    orders_per_month f = Ok [] ∧
    revenue_per_month f = Ok [] ∧
    top10_products f = Ok [] ∧
    delivery_time_distribution f = Ok [] ∧
    delivery_vs_review f = Ok [] ∧
    avg_delivery f = Ok [].
Proof.
  pose proof prepare_scenario as Hp.
  assert (Forall (λ r : gmap string cell, r !!! "order_year" ≠ n 1999)
            (rows scenario_prepared)) as Hall by compute_done.
  assert (∀ r, r ∈ rows scenario_prepared → r !!! "order_year" ≠ n 1999) as Hnone
    by exact (proj1 (Forall_forall _ _) Hall).
  split; [exact Hp |]. split; [exact Hnone |].
  apply (proj2 (year_filter_idempotent_empty scenario scenario_prepared Hp));
    [compute_done .. | exact Hnone].
Defined.

End witnesses.

(** * Further properties of the pipeline *)

Section further.
Context `{Arithmetic}.

(** ** The calendar *)

Lemma civil_from_days_month z : 1 ≤ (civil_from_days z).1.2 ≤ 12.
Proof.
  unfold civil_from_days. cbv zeta. simpl.
  set (doe := z + 719468 - (z + 719468) / 146097 * 146097).
  assert (0 ≤ doe < 146097) as Hdoe by (unfold doe; Z.to_euclidean_division_equations; lia).
  clearbody doe.
  set (yoe := (doe - doe / 1460 + doe / 36524 - doe / 146096) / 365).
  set (doy := doe - (365 * yoe + yoe / 4 - yoe / 100)).
  assert (0 ≤ doy ≤ 365) as Hdoy by (unfold doy, yoe; Z.to_euclidean_division_equations; lia).
  clearbody doy.
  destruct ((5 * doy + 2) / 153 <? 10) eqn:E; [apply Z.ltb_lt in E | apply Z.ltb_ge in E];
    Z.to_euclidean_division_equations; lia.
Qed.

(** The year of a timestamp is the year of its month. *)
Lemma year_of_month_of ns : year_of ns = 1970 + month_of ns / 12.
Proof.
  unfold year_of, month_of. pose proof (civil_from_days_month (ns / ns_per_day)) as Hm.
  destruct (civil_from_days (ns / ns_per_day)) as [[y m] d]. simpl in *.
  Z.to_euclidean_division_equations; lia.
Qed.

Lemma civil_from_days_first y m :
  1 ≤ m ≤ 12 → civil_from_days (days_from_civil y m 1) = (y, m, 1).
Proof.
  intros Hm. unfold days_from_civil. cbv zeta.
  set (y' := y - (if m <=? 2 then 1 else 0)).
  set (mp := if 2 <? m then m - 3 else m + 9).
  assert (0 ≤ mp ≤ 11) as Hmp by (unfold mp; destruct (2 <? m) eqn:E; lia).
  assert (m = if mp <? 10 then mp + 3 else mp - 9) as Hmm.
  { unfold mp. destruct (2 <? m) eqn:E; [apply Z.ltb_lt in E | apply Z.ltb_ge in E].
    - rewrite (proj2 (Z.ltb_lt (m - 3) 10)) by lia. lia.
    - rewrite (proj2 (Z.ltb_ge (m + 9) 10)) by lia. lia. }
  assert (y = y' + (if m <=? 2 then 1 else 0)) as Hy by (unfold y'; lia).
  clearbody y' mp.
  set (era := y' / 400). set (yoe := y' - era * 400).
  assert (0 ≤ yoe ≤ 399) as Hyoe by (unfold yoe, era; Z.to_euclidean_division_equations; lia).
  assert (y' = yoe + era * 400) as Hy' by (unfold yoe; lia).
  clearbody yoe era.
  set (doy := (153 * mp + 2) / 5 + 1 - 1).
  assert (0 ≤ doy ≤ 337) as Hdoy by (unfold doy; Z.to_euclidean_division_equations; lia).
  assert ((5 * doy + 2) / 153 = mp) as Hmp'
    by (unfold doy; Z.to_euclidean_division_equations; lia).
  assert (doy - (153 * mp + 2) / 5 + 1 = 1) as Hd by (unfold doy; lia).
  clearbody doy.
  set (doe := yoe * 365 + yoe / 4 - yoe / 100 + doy).
  assert (0 ≤ doe < 146097) as Hdoe by (unfold doe; Z.to_euclidean_division_equations; lia).
  unfold civil_from_days. cbv zeta.
  replace (era * 146097 + doe - 719468 + 719468) with (doe + era * 146097) by lia.
  replace ((doe + era * 146097) / 146097) with era by (Z.to_euclidean_division_equations; lia).
  replace (doe + era * 146097 - era * 146097) with doe by lia.
  assert ((doe - doe / 1460 + doe / 36524 - doe / 146096) / 365 = yoe) as ->
    by (unfold doe; Z.to_euclidean_division_equations; lia).
  replace (doe - (365 * yoe + yoe / 4 - yoe / 100)) with doy by (unfold doe; lia).
  rewrite Hmp', Hd, <-Hmm. f_equal. f_equal. lia.
Qed.

Lemma civil_from_days_month_start p :
  civil_from_days (month_start p / ns_per_day) = (1970 + p / 12, p `mod` 12 + 1, 1).
Proof.
  unfold month_start. rewrite Z.div_mul by done.
  apply civil_from_days_first. Z.to_euclidean_division_equations; lia.
Qed.

(** The day count of a date decomposes back into the date, and the date
    lies between the first day of its month and the first day of the
    next. *)
Lemma civil_from_days_bounds z :
  let '(y, m, d) := civil_from_days z in
  days_from_civil y m 1 ≤ z <
  days_from_civil (if m =? 12 then y + 1 else y) (if m =? 12 then 1 else m + 1) 1.
Proof.
  unfold civil_from_days, days_from_civil. cbv zeta.
  set (era := (z + 719468) / 146097).
  set (doe := z + 719468 - era * 146097).
  assert (0 ≤ doe < 146097) as Hdoe by (unfold doe, era; Z.to_euclidean_division_equations; lia).
  assert (z = era * 146097 + doe - 719468) as Hz by (unfold doe; lia).
  clearbody doe era. subst z.
  set (yoe := (doe - doe / 1460 + doe / 36524 - doe / 146096) / 365).
  assert (0 ≤ yoe ≤ 399) as Hyoe by (unfold yoe; Z.to_euclidean_division_equations; lia).
  set (doy := doe - (365 * yoe + yoe / 4 - yoe / 100)).
  assert (0 ≤ doy ≤ 365) as Hdoy by (unfold doy, yoe; Z.to_euclidean_division_equations; lia).
  assert (doy ≤ 364 ∨ (yoe + 1) `mod` 4 = 0 ∧ ((yoe + 1) `mod` 100 ≠ 0 ∨ yoe = 399)) as Hleap
    by (unfold doy, yoe; Z.to_euclidean_division_equations; lia).
  assert (doe = yoe * 365 + yoe / 4 - yoe / 100 + doy) as Hd by (unfold doy; lia).
  clearbody doy yoe. subst doe.
  set (mp := (5 * doy + 2) / 153).
  assert (0 ≤ mp ≤ 11) as Hmp by (unfold mp; Z.to_euclidean_division_equations; lia).
  assert (mp = 0 ∨ mp = 1 ∨ mp = 2 ∨ mp = 3 ∨ mp = 4 ∨ mp = 5 ∨ mp = 6 ∨ mp = 7 ∨ mp = 8
          ∨ mp = 9 ∨ mp = 10 ∨ mp = 11) as Hcases by lia.
  assert ((153 * mp + 2) / 5 ≤ doy < (153 * (mp + 1) + 2) / 5) as Hin
    by (unfold mp; Z.to_euclidean_division_equations; lia).
  clearbody mp.
  destruct_or!; subst mp; simpl in *; Z.to_euclidean_division_equations; lia.
Qed.

Lemma month_of_month_start p : month_of (month_start p) = p.
Proof.
  unfold month_of. rewrite civil_from_days_month_start.
  Z.to_euclidean_division_equations; lia.
Qed.

Lemma year_of_month_start p : year_of (month_start p) = 1970 + p / 12.
Proof. unfold year_of. by rewrite civil_from_days_month_start. Qed.

Lemma month_start_month_of ns :
  month_start (month_of ns) ≤ ns < month_start (month_of ns + 1).
Proof.
  unfold month_of, month_start.
  pose proof (civil_from_days_bounds (ns / ns_per_day)) as Hb.
  pose proof (civil_from_days_month (ns / ns_per_day)) as Hm.
  destruct (civil_from_days (ns / ns_per_day)) as [[y m] d]. simpl in Hm.
  set (p := (y - 1970) * 12 + (m - 1)).
  assert (1970 + p / 12 = y ∧ p `mod` 12 + 1 = m) as [-> ->]
    by (unfold p; Z.to_euclidean_division_equations; lia).
  assert (1970 + (p + 1) / 12 = (if m =? 12 then y + 1 else y) ∧
          (p + 1) `mod` 12 + 1 = (if m =? 12 then 1 else m + 1)) as [-> ->].
  { unfold p. destruct (m =? 12) eqn:E; [apply Z.eqb_eq in E | apply Z.eqb_neq in E];
      Z.to_euclidean_division_equations; lia. }
  revert Hb. generalize (days_from_civil y m 1).
  generalize (days_from_civil (if m =? 12 then y + 1 else y) (if m =? 12 then 1 else m + 1) 1).
  intros hi lo Hb. unfold ns_per_day in *. Z.to_euclidean_division_equations; lia.
Qed.

(** ** The order of the group keys *)

Lemma string_compare_trans_le s1 s2 s3 :
  String.compare s1 s2 ≠ Gt → String.compare s2 s3 ≠ Gt → String.compare s1 s3 ≠ Gt.
Proof.
  revert s2 s3. induction s1 as [|a1 s1 IH]; intros [|a2 s2] [|a3 s3]; simpl; try done.
  unfold Ascii.compare.
  destruct (N.compare_spec (N_of_ascii a1) (N_of_ascii a2)) as [H12|H12|H12]; [| |done];
    destruct (N.compare_spec (N_of_ascii a2) (N_of_ascii a3)) as [H23|H23|H23];
    try done; intros ??.
  - rewrite H12, H23, N.compare_refl. by apply (IH s2).
  - by rewrite (proj2 (N.compare_lt_iff _ _)) by lia.
  - by rewrite (proj2 (N.compare_lt_iff _ _)) by lia.
  - by rewrite (proj2 (N.compare_lt_iff _ _)) by lia.
Qed.

Lemma string_leb_trans s1 s2 s3 :
  String.leb s1 s2 = true → String.leb s2 s3 = true → String.leb s1 s3 = true.
Proof.
  unfold String.leb. pose proof (string_compare_trans_le s1 s2 s3) as Ht.
  destruct (String.compare s1 s2), (String.compare s2 s3), (String.compare s1 s3);
    try done; intros _ _; exfalso; by apply Ht.
Qed.

#[global] Instance cell_le_trans : Transitive cell_le.
Proof.
  intros [|x|x|x|x] [|y|y|y|y] [|z|z|z|z]; simpl; try lia.
  - apply string_leb_trans.
  - apply Qcle_trans.
Qed.

#[global] Instance cell_le_antisym : AntiSymm (=) cell_le.
Proof.
  intros [|x|x|x|x] [|y|y|y|y]; simpl; try lia; try done.
  - intros ??. f_equal. by apply String.leb_antisym.
  - intros ??. f_equal. by apply Qcle_antisym.
  - intros ??. f_equal. lia.
  - intros ??. f_equal. lia.
Qed.

(** The sorted list of distinct keys is determined by the keys that
    occur. *)
Lemma group_keys_unique ks keys :
  Sorted cell_le ks → NoDup ks → (∀ k, k ∈ ks ↔ k ≠ NaN ∧ k ∈ keys) → ks = group_keys keys.
Proof.
  intros Hs Hnd Hin. apply (Sorted_unique cell_le); [done | apply Sorted_group_keys |].
  apply NoDup_Permutation; [done | apply NoDup_group_keys |].
  intros k. by rewrite Hin, elem_of_group_keys.
Qed.

Lemma group_keys_Permutation keys1 keys2 :
  keys1 ≡ₚ keys2 → group_keys keys1 = group_keys keys2.
Proof.
  intros Hp. apply group_keys_unique; [apply Sorted_group_keys | apply NoDup_group_keys |].
  intros k. by rewrite elem_of_group_keys, Hp.
Qed.

Lemma NoDup_fst_inj {A B} (l : list (A * B)) x y :
  NoDup l.*1 → x ∈ l → y ∈ l → x.1 = y.1 → x = y.
Proof.
  induction l as [|z l IH]; [by intros _ ?%elem_of_nil |].
  rewrite fmap_cons. intros [Hz Hnd]%NoDup_cons [->|Hx]%elem_of_cons [->|Hy]%elem_of_cons Hxy.
  - done.
  - destruct Hz. rewrite Hxy. by apply list_elem_of_fmap_2.
  - destruct Hz. rewrite <-Hxy. by apply list_elem_of_fmap_2.
  - by apply IH.
Qed.

(** Sorting by key leaves a list alone whose keys are sorted and
    distinct. *)
Lemma sort_by_key_sorted l :
  Sorted cell_le l.*1 → NoDup l.*1 → sort_by_key l = l.
Proof.
  intros Hs Hnd.
  assert (Transitive key_le) as Htrans.
  { intros a b c. unfold key_le. apply cell_le_trans. }
  apply (Sorted_unique_strong key_le).
  - intros x1 x2 Hx1 Hx2 H12 H21. unfold sort_by_key in Hx1.
    rewrite merge_sort_Permutation in Hx1.
    apply (NoDup_fst_inj l); [done .. |]. by apply (anti_symm cell_le).
  - apply (Sorted_merge_sort _).
  - clear Hnd. induction l as [|x l IH]; [constructor |].
    rewrite fmap_cons in Hs. apply Sorted_inv in Hs as [Hs Hhd].
    constructor; [by apply IH |]. destruct l as [|y l]; constructor. by inv Hhd.
  - apply merge_sort_Permutation.
Qed.

(** ** Preparation, row by row *)

Lemma Forall2_filter_r {A B} (R : A → B → Prop) (P : B → Prop) `{∀ y, Decision (P y)}
    (l : list A) (k : list B) :
  Forall2 R l k →
  ∃ l', l' `sublist_of` l ∧ Forall2 (λ x y, R x y ∧ P y) l' (filter P k).
Proof.
  induction 1 as [|x y l k Hxy _ (l' & Hsub & IH)]; [by exists [] |].
  rewrite filter_cons. destruct (decide (P y)).
  - exists (x :: l'). split; [by apply sublist_skip | by constructor].
  - exists l'. split; [by apply sublist_cons | done].
Qed.

Lemma filter_fmap {A B} (f : A → B) (P : B → Prop) `{∀ x, Decision (P x)} (l : list A) :
  filter P (f <$> l) = f <$> filter (λ x, P (f x)) l.
Proof.
  induction l as [|x l IH]; [done |]. rewrite fmap_cons, !filter_cons.
  destruct (decide (P (f x))); [by rewrite fmap_cons, IH | done].
Qed.

Lemma marker_order_purchase_timestamp :
  contains "date" "order_purchase_timestamp" || contains "timestamp" "order_purchase_timestamp"
  = true.
Proof. by vm_compute. Qed.

Lemma marker_order_delivered_customer_date :
  contains "date" "order_delivered_customer_date"
  || contains "timestamp" "order_delivered_customer_date" = true.
Proof. by vm_compute. Qed.

Section row_by_row.
Context `{ToDatetime}.

(** The derivation of lines 48-52 when it returns. *)
Lemma derive_delivery_time_Ok df d :
  derive_delivery_time df = Ok d →
  "delivery_time_days" ∈ columns df ∧ d = df ∨
  ("delivery_time_days" ∉ columns df) ∧
    (("order_delivered_customer_date" ∉ columns df) ∨
     ("order_purchase_timestamp" ∉ columns df)) ∧ d = df ∨
  ("delivery_time_days" ∉ columns df) ∧
    dtypes df !! "order_delivered_customer_date" = Some DatetimeDtype ∧
    dtypes df !! "order_purchase_timestamp" = Some DatetimeDtype ∧
    d = {| dtypes := <["delivery_time_days" := NumericDtype]> (dtypes df);
           rows := derive_row <$> rows df |}.
Proof.
  unfold derive_delivery_time.
  destruct (decide ("delivery_time_days" ∈ columns df)) as [Hd|Hd].
  { rewrite bool_decide_eq_true_2 by done. intros [= <-]. by left. }
  rewrite bool_decide_eq_false_2 by done. intros Hd'. right.
  destruct (decide ("order_delivered_customer_date" ∈ columns df)) as [Ha|Ha];
    [|rewrite (bool_decide_eq_false_2 _ Ha) in Hd'; injection Hd' as <-; left; eauto].
  destruct (decide ("order_purchase_timestamp" ∈ columns df)) as [Hb|Hb];
    [|rewrite (bool_decide_eq_false_2 _ Hb), andb_false_r in Hd'; injection Hd' as <-;
      left; eauto].
  rewrite !bool_decide_eq_true_2 in Hd' by done. simpl in Hd'. inv_bind Hd'.
  injection Hd' as <-. right. split; [done |].
  apply getitem_Ok in Ha0 as [Hda Ha0]. apply getitem_Ok in Ha1 as [Hdb Ha1].
  unfold sub_dt_days in Ha2. destruct a.1 eqn:Ea; try done; destruct a0.1 eqn:Eb; try done.
  injection Ha2 as <-. split; [done |]. split; [done |].
  unfold setitem. simpl. f_equal. rewrite Ha0, Ha1. clear.
  induction (rows df) as [|r l IH]; [done |]. rewrite !fmap_cons. simpl. by f_equal.
Qed.

(** Preparation when it returns: the table before the filter, and the
    prepared table made from it. *)
Lemma prepare_Ok raw p :
  prepare raw = Ok p →
  ∃ d, derive_delivery_time (coerce_dates raw) = Ok d ∧
    dtypes d !! "order_purchase_timestamp" = Some DatetimeDtype ∧
    "delivery_time_days" ∈ columns d ∧
    dtypes p = <["order_year" := NumericDtype]>
                 (<["order_year_month" := PeriodDtype]> (dtypes d)) ∧
    rows p = add_periods_row <$>
               filter (λ r, valid_delivery_time (r !!! "delivery_time_days")) (rows d).
Proof.
  unfold prepare. intros Hp. inv_bind Hp. exists a. split; [done |].
  assert ("delivery_time_days" ∈ columns a) as Hd.
  { unfold drop_invalid in Ha0. inv_bind Ha0. apply getitem_Ok in Ha1 as [Hdt _].
    apply elem_of_columns. eauto. }
  apply drop_invalid_Ok in Ha0 as [Hdt Hrows].
  apply add_periods_Ok in Hp as (Hts & Hdt' & Hrows').
  rewrite Hdt in Hts, Hdt'. rewrite Hrows in Hrows'. done.
Qed.

(** Preparation is a filter on the rows of the input followed by a
    map: the rows of the prepared table come, one for one and in order,
    from rows of the input that it keeps. *)
Lemma prepare_rows_raw raw p :
  prepare raw = Ok p →
  ∃ kept, kept `sublist_of` rows raw ∧
    Forall2 (λ r0 r,
               valid_delivery_time (r !!! "delivery_time_days") ∧
               r !!! "order_year" = year (r !!! "order_purchase_timestamp") ∧
               r !!! "order_year_month" = to_period_M (r !!! "order_purchase_timestamp") ∧
               ∀ c, contains "date" c || contains "timestamp" c = false →
                    c ≠ "order_year" → c ≠ "order_year_month" →
                    (c = "delivery_time_days" → "delivery_time_days" ∈ columns raw) →
                    r !!! c = r0 !!! c) kept (rows p).
Proof.
  intros (d & Hd & _ & Hin & _ & ->)%prepare_Ok.
  assert (Forall2 (λ r0 r : gmap string cell,
                     ∀ c, contains "date" c || contains "timestamp" c = false →
                          (c = "delivery_time_days" → "delivery_time_days" ∈ columns raw) →
                          r !!! c = r0 !!! c) (rows raw) (rows d)) as Hrows.
  { pose proof (Forall2_rows_coerce_dates raw) as Hco.
    apply derive_delivery_time_Ok in Hd as [[Hc ->]|[(Hc & _ & ->)|(Hc & _ & _ & ->)]].
    - apply (Forall2_impl _ _ _ _ Hco). intros r0 r Hr c Hm _.
      by rewrite !lookup_total_alt, Hr.
    - done.
    - rewrite columns_coerce_dates in Hc. unfold rows at 2. apply Forall2_fmap_r.
      apply (Forall2_impl _ _ _ _ Hco). intros r0 r Hr c Hm Hdtd. unfold derive_row.
      rewrite lookup_total_insert_ne by (intros <-; by apply Hc, Hdtd).
      by rewrite !lookup_total_alt, Hr. }
  destruct (Forall2_filter_r _ (λ r, valid_delivery_time (r !!! "delivery_time_days"))
              _ _ Hrows) as (kept & Hsub & Hkept).
  exists kept. split; [done |]. apply Forall2_fmap_r.
  apply (Forall2_impl _ _ _ _ Hkept). intros r0 r [Hr Hvalid].
  unfold compose, add_periods_row. cbv beta.
  repeat (rewrite lookup_total_insert_eq || rewrite lookup_total_insert_ne by done).
  split; [done |]. split; [done |]. split; [done |].
  intros c Hm Hy Hym Hdtd. rewrite !lookup_total_insert_ne by done. by apply Hr.
Qed.
End row_by_row.

(** ** The prepared table *)

Lemma traverse_ge_zero cells :
  Forall numeric_cell cells → ∃ m, traverse cell_ge_zero cells = Ok m.
Proof.
  induction 1 as [|c cells Hc _ [m IH]]; [by eexists |]. simpl. rewrite IH.
  destruct c; try done; simpl; by eexists.
Qed.

Lemma drop_invalid_returns df s :
  getitem df "delivery_time_days" = Ok s →
  s.1 = ObjectDtype ∨ s.1 = NumericDtype →
  Forall numeric_cell s.2 →
  ∃ p, drop_invalid df = Ok p.
Proof.
  intros Hs Hdt Hnum. unfold drop_invalid. rewrite Hs. simpl.
  apply getitem_Ok in Hs as [Hd Hcells].
  set (df' := boolean_index df (notna s)).
  assert (getitem df' "delivery_time_days" =
            Ok (s.1, (λ r : gmap string cell, r !!! "delivery_time_days") <$> rows df'))
    as -> by (unfold getitem; simpl; by rewrite Hd).
  simpl. unfold ge_zero. simpl.
  assert (∀ k : result (list bool),
    match s.1 with DatetimeDtype | PeriodDtype => Raise TypeError | _ => k end = k) as ->
    by (intros k; by destruct Hdt as [-> | ->]).
  destruct (traverse_ge_zero ((λ r : gmap string cell, r !!! "delivery_time_days") <$> rows df'))
    as [m Hm].
  { unfold df', notna. rewrite Hcells, <-list_fmap_compose, rows_boolean_index_fmap.
    rewrite Hcells, Forall_forall in Hnum. apply Forall_forall.
    intros c (r & -> & [_ Hr]%list_elem_of_filter)%list_elem_of_fmap.
    apply Hnum, list_elem_of_fmap. eauto. }
  subst df'. simpl in Hm. rewrite Hm. simpl. by eexists.
Qed.

Lemma add_periods_returns df :
  dtypes df !! "order_purchase_timestamp" = Some DatetimeDtype →
  ∃ p, add_periods df = Ok p.
Proof.
  intros Hts. unfold add_periods, getitem. rewrite Hts. simpl.
  rewrite lookup_insert_ne by done. rewrite Hts. simpl. by eexists.
Qed.

Section prepared_table.
Context `{ToDatetime}.

(** X1. A prepared table has the columns of the input and the three
    derived columns, no others; its purchase timestamps are a date-time
    column, and the columns that are neither coerced nor derived keep
    their dtype. *)
Theorem prepare_columns raw p :
  prepare raw = Ok p →
  (∀ c, c ∈ columns p ↔
        c ∈ columns raw ∨ c = "delivery_time_days" ∨ c = "order_year_month" ∨ c = "order_year") ∧
  dtypes p !! "order_purchase_timestamp" = Some DatetimeDtype ∧
  dtypes p !! "order_year_month" = Some PeriodDtype ∧
  dtypes p !! "order_year" = Some NumericDtype ∧
  (∀ c, contains "date" c || contains "timestamp" c = false →
        c ≠ "delivery_time_days" → c ≠ "order_year_month" → c ≠ "order_year" →
        dtypes p !! c = dtypes raw !! c).
Proof.
  intros (d & Hd & Hts & Hin & Hdt & _)%prepare_Ok.
  assert (∀ c, c ≠ "delivery_time_days" → dtypes d !! c = dtypes (coerce_dates raw) !! c)
    as Hother.
  { intros c Hc.
    apply derive_delivery_time_Ok in Hd as [[_ ->]|[(_ & _ & ->)|(_ & _ & _ & ->)]];
      [done | done |]. simpl. by rewrite lookup_insert_ne. }
  split; [|split; [|split; [|split]]].
  - intros c. rewrite elem_of_columns, Hdt.
    destruct (decide (c = "order_year")) as [->|Hy];
      [rewrite lookup_insert_eq; split; eauto |]. rewrite lookup_insert_ne by done.
    destruct (decide (c = "order_year_month")) as [->|Hm];
      [rewrite lookup_insert_eq; split; eauto |]. rewrite lookup_insert_ne by done.
    destruct (decide (c = "delivery_time_days")) as [->|Hc].
    { apply elem_of_columns in Hin. split; eauto. }
    rewrite Hother, <-!elem_of_columns, columns_coerce_dates by done.
    split; [by left | by intros [?|[?|[?|?]]]].
  - rewrite Hdt. by rewrite !lookup_insert_ne.
  - rewrite Hdt. rewrite lookup_insert_ne by done. by rewrite lookup_insert_eq.
  - rewrite Hdt. by rewrite lookup_insert_eq.
  - intros c Hc Hc1 Hc2 Hc3. rewrite Hdt, !lookup_insert_ne, Hother by done.
    rewrite dtypes_coerce_dates. rewrite bool_decide_eq_false_2; [done |].
    rewrite elem_of_date_cols, Hc. by intros [? _].
Qed.

(** X2. In every row of a prepared table, [order_year] is the year and
    [order_year_month] the month of the purchase timestamp; the month
    lies in the year, and the two are missing together. *)
Theorem prepare_period_keys raw p r :
  prepare raw = Ok p → r ∈ rows p →
  r !!! "order_year" = year (r !!! "order_purchase_timestamp") ∧
  r !!! "order_year_month" = to_period_M (r !!! "order_purchase_timestamp") ∧
  (∀ m, r !!! "order_year_month" = Period m →
        r !!! "order_year" = Num (Qc_of_Z (1970 + m / 12))) ∧
  (r !!! "order_year_month" = NaN ↔ r !!! "order_year" = NaN).
Proof.
  intros (d & _ & _ & _ & _ & Hrows)%prepare_Ok Hr. rewrite Hrows in Hr.
  apply list_elem_of_fmap in Hr as (r' & -> & _). unfold add_periods_row.
  rewrite lookup_total_insert_eq, !lookup_total_insert_ne by done.
  rewrite lookup_total_insert_eq.
  destruct (r' !!! "order_purchase_timestamp") as [| | |ns|]; simpl; try done.
  repeat split; try done. intros m [= <-]. by rewrite year_of_month_of.
Qed.

(** X3. When the input has no [delivery_time_days] column, every row of
    the prepared table has both timestamps, was delivered no earlier than
    it was purchased, and its delivery time is the number of whole days
    between the two: a row that lacks either timestamp is dropped. *)
Theorem prepare_derived_delivery_time raw p r :
  prepare raw = Ok p → "delivery_time_days" ∉ columns raw → r ∈ rows p →
  ∃ delivered purchased,
    r !!! "order_delivered_customer_date" = Time delivered ∧
    r !!! "order_purchase_timestamp" = Time purchased ∧
    purchased ≤ delivered ∧
    r !!! "delivery_time_days" = Num (Qc_of_Z ((delivered - purchased) / ns_per_day)).
Proof.
  intros (d & Hderive & _ & Hin & _ & Hrows)%prepare_Ok Hd Hr.
  rewrite <-columns_coerce_dates in Hd.
  apply derive_delivery_time_Ok in Hderive as [[Hc _]|[(_ & _ & ->)|(_ & _ & _ & ->)]];
    [done | done |].
  rewrite Hrows in Hr. unfold rows at 1 in Hr.
  apply list_elem_of_fmap in Hr as (r1 & -> & [Hvalid Hr]%list_elem_of_filter).
  apply list_elem_of_fmap in Hr as (r' & -> & _).
  revert Hvalid. unfold add_periods_row, derive_row.
  repeat (rewrite lookup_total_insert_eq || rewrite lookup_total_insert_ne by done).
  destruct (r' !!! "order_delivered_customer_date") as [| | |a|];
    try by intros (? & [=] & _).
  destruct (r' !!! "order_purchase_timestamp") as [| | |b|]; try by intros (? & [=] & _).
  simpl. intros (q & [= <-] & Hq). exists a, b. repeat split.
  rewrite <-Z2Qc_inj_0 in Hq. apply Z2Qc_inj_le in Hq.
  unfold ns_per_day in Hq. Z.to_euclidean_division_equations; lia.
Qed.

(** X4. Preparation adds no row and keeps the order of the rows: the
    rows of the prepared table come, one for one and in order, from rows
    of the input, and in the columns that are neither coerced nor derived
    every cell is the one of the input. *)
Theorem prepare_keeps_rows raw p :
  prepare raw = Ok p →
  ∃ kept, kept `sublist_of` rows raw ∧
    Forall2 (λ r0 r, ∀ c,
               contains "date" c || contains "timestamp" c = false →
               c ≠ "order_year" → c ≠ "order_year_month" →
               (c = "delivery_time_days" → "delivery_time_days" ∈ columns raw) →
               r !!! c = r0 !!! c) kept (rows p).
Proof.
  intros (kept & Hsub & Hkept)%prepare_rows_raw. exists kept. split; [done |].
  apply (Forall2_impl _ _ _ _ Hkept). by intros r0 r (_ & _ & _ & Hr).
Qed.

(** X5. Preparation returns a table only for an input that has the
    purchase timestamps and either the delivery times or the delivery
    dates. *)
Theorem prepare_needs_columns raw p :
  prepare raw = Ok p →
  "order_purchase_timestamp" ∈ columns raw ∧
  ("delivery_time_days" ∈ columns raw ∨ "order_delivered_customer_date" ∈ columns raw).
Proof.
  intros (d & Hd & Hts & Hin & _)%prepare_Ok.
  apply derive_delivery_time_Ok in Hd as [[Hc ->]|[(Hc & _ & ->)|(Hc & Ha & Hb & ->)]].
  - split; [|left; by apply columns_coerce_dates].
    apply columns_coerce_dates, elem_of_columns. eauto.
  - done.
  - rewrite <-!(columns_coerce_dates raw), !elem_of_columns. eauto.
Qed.

(** X6. An input that has its delivery times, all numbers or missing,
    but no purchase timestamps is not prepared: line 59 raises
    [KeyError]. *)
Theorem prepare_without_purchase_timestamp raw s :
  getitem raw "delivery_time_days" = Ok s →
  s.1 = ObjectDtype ∨ s.1 = NumericDtype →
  Forall numeric_cell s.2 →
  "order_purchase_timestamp" ∉ columns raw →
  prepare raw = Raise (KeyError "order_purchase_timestamp").
Proof.
  intros Hs Hdt Hnum Hts. unfold prepare.
  assert ("delivery_time_days" ∈ columns raw) as Hin.
  { apply elem_of_columns. apply getitem_Ok in Hs as [-> _]. eauto. }
  rewrite derive_delivery_time_present by by apply columns_coerce_dates. simpl.
  rewrite <-getitem_coerce_dates_delivery_time in Hs.
  destruct (drop_invalid_returns _ _ Hs Hdt Hnum) as [f Hf]. rewrite Hf. simpl.
  apply drop_invalid_Ok in Hf as [Hdtf _]. unfold add_periods.
  assert (getitem f "order_purchase_timestamp" = Raise (KeyError "order_purchase_timestamp"))
    as ->; [|done].
  apply getitem_Raise. split; [|done].
  by rewrite elem_of_columns, Hdtf, <-elem_of_columns, columns_coerce_dates.
Qed.

(** X7. Preparation returns a table for every input that has its
    delivery times, all numbers or missing, and whose purchase
    timestamps the conversion turns into a date-time column. *)
Theorem prepare_returns raw s t t' :
  getitem raw "delivery_time_days" = Ok s →
  s.1 = ObjectDtype ∨ s.1 = NumericDtype →
  Forall numeric_cell s.2 →
  getitem raw "order_purchase_timestamp" = Ok t →
  to_datetime t = Ok t' → t'.1 = DatetimeDtype →
  ∃ p, prepare raw = Ok p.
Proof.
  intros Hs Hdt Hnum Ht Ht' Hdatetime.
  assert ("delivery_time_days" ∈ columns raw) as Hin.
  { apply elem_of_columns. apply getitem_Ok in Hs as [-> _]. eauto. }
  assert (dtypes (coerce_dates raw) !! "order_purchase_timestamp" = Some DatetimeDtype)
    as Hts.
  { rewrite dtypes_coerce_dates, bool_decide_eq_true_2.
    - unfold converted. rewrite Ht. simpl. by rewrite Ht', Hdatetime.
    - apply elem_of_date_cols. split; [apply marker_order_purchase_timestamp |].
      apply elem_of_columns. apply getitem_Ok in Ht as [-> _]. eauto. }
  unfold prepare.
  rewrite derive_delivery_time_present by by apply columns_coerce_dates. simpl.
  rewrite <-getitem_coerce_dates_delivery_time in Hs.
  destruct (drop_invalid_returns _ _ Hs Hdt Hnum) as [f Hf]. rewrite Hf. simpl.
  apply drop_invalid_Ok in Hf as [Hdtf _]. apply add_periods_returns. by rewrite Hdtf.
Qed.
End prepared_table.

(** ** The year selection (lines 67-73) *)

Lemma tahun_opsi_Ok df opts :
  tahun_opsi df = Ok opts →
  "order_year" ∈ columns df ∧
  ∃ ys, opts = Semua :: (Tahun <$> ys) ∧ NoDup ys ∧ Sorted Qcle ys ∧
    ∀ y, y ∈ ys ↔ Num y ∈ (λ r : gmap string cell, r !!! "order_year") <$> rows df.
Proof.
  unfold tahun_opsi. intros Ho. inv_bind Ho. injection Ho as <-.
  apply getitem_Ok in Ha as [Hdt Ha]. split; [apply elem_of_columns; eauto |].
  eexists. split; [done |]. split; [|split].
  - rewrite merge_sort_Permutation. apply NoDup_remove_dups.
  - apply (Sorted_merge_sort _).
  - intros y. by rewrite merge_sort_Permutation, elem_of_remove_dups, elem_of_numbers, Ha.
Qed.

Lemma filter_ext_in {A} (P Q : A → Prop) `{∀ x, Decision (P x)} `{∀ x, Decision (Q x)}
    (l : list A) :
  (∀ x, x ∈ l → P x ↔ Q x) → filter P l = filter Q l.
Proof.
  induction l as [|x l IH]; [done |]. intros HPQ. rewrite !filter_cons.
  rewrite IH by (intros y Hy; apply HPQ; by right).
  destruct (decide (P x)) as [HP|HP], (decide (Q x)) as [HQ|HQ]; try done.
  - apply HPQ in HP; [done | left].
  - apply HPQ in HQ; [done | left].
Qed.

(** X8. The selection box offers [Semua] first, and offers a year
    exactly when the table filtered to that year has a row. *)
Theorem tahun_opsi_offered df opts :
  tahun_opsi df = Ok opts →
  head opts = Some Semua ∧
  ∀ y, Tahun y ∈ opts ↔ ∃ f, filtered_df df (Tahun y) = Ok f ∧ rows f ≠ [].
Proof.
  intros (Hcol & ys & -> & _ & _ & Hys)%tahun_opsi_Ok. split; [done |]. intros y.
  destruct (filtered_df_year df y Hcol) as (f & Hf & _ & Hrows).
  rewrite elem_of_cons, list_elem_of_fmap. split.
  - intros [[=] | (y' & [= <-] & Hy)]. exists f. split; [done |].
    apply Hys, list_elem_of_fmap in Hy as (r & Hr & Hin). rewrite Hrows.
    assert (r ∈ filter (λ r, r !!! "order_year" = Num y) (rows df)) as Hr'
      by by apply list_elem_of_filter.
    intros Hnil. rewrite Hnil in Hr'. by apply not_elem_of_nil in Hr'.
  - intros (f' & Hf' & Hne). right. exists y. split; [done |]. apply Hys.
    rewrite Hf in Hf'. injection Hf' as <-. rewrite Hrows in Hne.
    destruct (filter _ (rows df)) as [|r l] eqn:Hl; [done |].
    assert (r ∈ filter (λ r, r !!! "order_year" = Num y) (rows df)) as Hr
      by (rewrite Hl; left).
    apply list_elem_of_filter in Hr as [Hr Hin]. apply list_elem_of_fmap. eauto.
Qed.

(** X9. The tables of the offered years partition the rows that have a
    year: every such row is in the table of exactly one offered year. *)
Theorem tahun_opsi_partition df opts :
  tahun_opsi df = Ok opts →
  ∃ ys fs, opts = Semua :: (Tahun <$> ys) ∧
    Forall2 (λ y f, filtered_df df (Tahun y) = Ok f) ys fs ∧
    concat (rows <$> fs) ≡ₚ filter has_year (rows df).
Proof.
  intros (Hcol & ys & -> & Hnd & _ & Hys)%tahun_opsi_Ok.
  exists ys, ((λ y, with_rows df (filter (λ r, r !!! "order_year" = Num y) (rows df))) <$> ys).
  split; [done |]. split.
  - apply Forall2_fmap_r, Forall_Forall2_diag, Forall_forall. intros y _.
    destruct (filtered_df_year df y Hcol) as (f & -> & Hdt & Hrows).
    f_equal. destruct f as [dts rs]. simpl in *. by subst.
  - rewrite <-list_fmap_compose.
    pose proof (partition_by_keys (λ r : gmap string cell, r !!! "order_year") (Num <$> ys)
                  (rows df)) as Hpart.
    rewrite <-list_fmap_compose in Hpart. etrans; [apply Hpart |].
    { apply NoDup_fmap_2; [by intros ?? [=] | done]. }
    rewrite (filter_ext_in _ has_year); [done |]. intros r Hr. unfold has_year.
    rewrite list_elem_of_fmap. split.
    + by intros (y & -> & _).
    + destruct (r !!! "order_year") as [| |q| |] eqn:Hq; try done. intros _.
      exists q. split; [done |]. apply Hys, list_elem_of_fmap. eauto.
Qed.

Lemma remove_dups_constant {A} `{EqDecision A} (y : A) l :
  Forall (eq y) l → remove_dups l = if decide (l = []) then [] else [y].
Proof.
  induction 1 as [|x l <- Hl IH]; [done |]. simpl. rewrite IH.
  destruct Hl as [|x l' <- _]; [done |].
  destruct (decide_rel _ _ _) as [_|Hn]; [|destruct Hn; left].
  by rewrite decide_False.
Qed.

(** X10. Selecting a year is idempotent, and the table of one year has
    no row of another: filtered again to its own year it is unchanged,
    filtered to another year it is empty, and the only year it offers is
    its own. *)
Theorem filtered_df_twice df y f :
  filtered_df df (Tahun y) = Ok f →
  filtered_df f (Tahun y) = Ok f ∧
  (∀ y', y' ≠ y → ∃ g, filtered_df f (Tahun y') = Ok g ∧ rows g = []) ∧
  tahun_opsi f = Ok (Semua :: if decide (rows f = []) then [] else [Tahun y]).
Proof.
  intros Hf.
  assert ("order_year" ∈ columns df) as Hcol.
  { simpl in Hf. inv_bind Hf. apply elem_of_columns. apply getitem_Ok in Ha as [-> _]. eauto. }
  destruct (filtered_df_year df y Hcol) as (f' & Hf' & Hdt & Hrows).
  rewrite Hf in Hf'. injection Hf' as <-.
  assert ("order_year" ∈ columns f) as Hcolf
    by by rewrite elem_of_columns, Hdt, <-elem_of_columns.
  assert (Forall (λ r : gmap string cell, r !!! "order_year" = Num y) (rows f)) as Hall.
  { rewrite Hrows. apply Forall_forall. by intros r [? _]%list_elem_of_filter. }
  split; [|split].
  - destruct (filtered_df_year f y Hcolf) as (g & -> & Hdtg & Hrowsg). f_equal.
    rewrite filter_all in Hrowsg by done. destruct f, g; simpl in *. by subst.
  - intros y' Hy. destruct (filtered_df_year f y' Hcolf) as (g & -> & _ & Hrowsg).
    exists g. split; [done |]. rewrite Hrowsg. clear Hrowsg Hrows.
    induction Hall as [|r l Hr _ IH]; [done |].
    rewrite filter_cons_False; [done |]. rewrite Hr. by intros [= ->].
  - destruct (getitem_is_Ok f "order_year" Hcolf) as [dt Hs]. unfold tahun_opsi.
    rewrite Hs. simpl. do 2 f_equal. clear Hs Hrows.
    rewrite (remove_dups_constant y).
    + destruct Hall as [|r l Hr _]; [done |]. by rewrite fmap_cons, Hr.
    + induction Hall as [|r l Hr _ IH]; [constructor |].
      rewrite fmap_cons, Hr. simpl. by constructor.
Qed.

(** ** When the aggregations return *)

Lemma traverse_cases {A B} (f : A → result B) (P : A → Prop) `{∀ x, Decision (P x)}
    (g : A → B) (l : list A) :
  (∀ x, f x = if decide (P x) then Ok (g x) else Raise TypeError) →
  traverse f l = if decide (Forall P l) then Ok (g <$> l) else Raise TypeError.
Proof.
  intros Hf. induction l as [|x l IH]; [done |]. simpl. rewrite Hf, IH.
  destruct (decide (P x)) as [Hx|Hx]; simpl.
  - destruct (decide (Forall P l)) as [Hl|Hl]; simpl.
    + by rewrite decide_True by by constructor.
    + rewrite decide_False; [done |]. by inversion 1.
  - rewrite decide_False; [done |]. by inversion 1.
Qed.

Lemma skipna_cases l :
  skipna l = if decide (Forall numeric_cell l) then Ok (numbers l) else Raise TypeError.
Proof.
  unfold skipna.
  rewrite (traverse_cases cell_number numeric_cell
             (λ c, match c with Num q => Some q | _ => None end)) by by intros [].
  destruct (decide _); [|done]. simpl. f_equal. unfold numbers. clear.
  induction l as [|c l IH]; [done |]. destruct c; simpl; try f_equal; apply IH.
Qed.

Lemma sum_cases l :
  sum l =
    if decide (Forall numeric_cell l) then Ok (machine_sum (numbers l)) else Raise TypeError.
Proof. unfold sum. rewrite skipna_cases. by destruct (decide _). Qed.

Lemma mean_cases {A} (vf : A → cell) (F : list A → cell) l :
  (∀ l' b, mean (vf <$> l') = Ok b → b = F l') →
  mean (vf <$> l) =
    if decide (Forall numeric_cell (vf <$> l)) then Ok (F l) else Raise TypeError.
Proof.
  intros HF. pose proof (HF l) as Hl. revert Hl. unfold mean. rewrite skipna_cases.
  destruct (decide _); [|done]. simpl. intros Hl. f_equal. by apply Hl.
Qed.

Lemma numeric_groups_Forall {A} (kf vf : A → cell) (l : list A) :
  numeric_groups kf vf l ↔
  Forall (λ k, Forall numeric_cell (vf <$> filter (λ r, kf r = k) l)) (group_keys (kf <$> l)).
Proof.
  unfold numeric_groups. rewrite !Forall_forall. split.
  - intros Hl k [Hk _]%elem_of_group_keys. apply Forall_forall.
    intros c (r & -> & [<- Hr]%list_elem_of_filter)%list_elem_of_fmap. by apply Hl.
  - intros Hg r Hr Hk.
    assert (kf r ∈ group_keys (kf <$> l)) as Hin.
    { apply elem_of_group_keys. split; [done |]. apply list_elem_of_fmap. eauto. }
    apply Hg in Hin. rewrite Forall_forall in Hin. apply Hin, list_elem_of_fmap.
    exists r. split; [done |]. by apply list_elem_of_filter.
Qed.

Lemma aggregate_groupby_cases {A B} (f : list cell → result B) (kf vf : A → cell)
    (F : list A → B) (l : list A) :
  (∀ l', f (vf <$> l') =
         if decide (Forall numeric_cell (vf <$> l')) then Ok (F l') else Raise TypeError) →
  aggregate f (groupby (kf <$> l) (vf <$> l)) =
    if decide (numeric_groups kf vf l)
    then Ok ((λ k, (k, F (filter (λ r, kf r = k) l))) <$> group_keys (kf <$> l))
    else Raise TypeError.
Proof.
  intros Hf. unfold aggregate. rewrite groupby_fmap.
  set (ks := group_keys (kf <$> l)).
  assert (numeric_groups kf vf l ↔
          Forall (λ k, Forall numeric_cell (vf <$> filter (λ r, kf r = k) l)) ks) as Hiff
    by apply numeric_groups_Forall.
  clearbody ks.
  assert (traverse (λ kv : cell * list cell, a <- f kv.2;; Ok (kv.1, a))
            ((λ k, (k, vf <$> filter (λ r, kf r = k) l)) <$> ks) =
          if decide (Forall (λ k, Forall numeric_cell (vf <$> filter (λ r, kf r = k) l)) ks)
          then Ok ((λ k, (k, F (filter (λ r, kf r = k) l))) <$> ks)
          else Raise TypeError) as ->.
  { clear Hiff. induction ks as [|k ks IH]; [done |]. rewrite fmap_cons. simpl.
    rewrite Hf, IH.
    destruct (decide (Forall numeric_cell _)) as [Hk|Hk]; simpl.
    - destruct (decide (Forall _ ks)) as [Hks|Hks]; simpl.
      + by rewrite decide_True by by constructor.
      + rewrite decide_False; [done |]. by inversion 1.
    - rewrite decide_False; [done |]. by inversion 1. }
  destruct (decide (numeric_groups kf vf l)) as [Hn|Hn].
  - by rewrite decide_True by by apply Hiff.
  - rewrite decide_False; [done |]. intros Hks. by apply Hn, Hiff.
Qed.

Lemma aggregate_sum_cases {A} (kf vf : A → cell) (l : list A) :
  aggregate sum (groupby (kf <$> l) (vf <$> l)) =
    if decide (numeric_groups kf vf l)
    then Ok ((λ k, (k, machine_total vf (filter (λ r, kf r = k) l))) <$>
               group_keys (kf <$> l))
    else Raise TypeError.
Proof. apply aggregate_groupby_cases. intros l'. apply sum_cases. Qed.

Lemma aggregate_mean_cases (kf : gmap string cell → cell) (l : list (gmap string cell)) :
  aggregate mean
    (groupby (kf <$> l) ((λ r : gmap string cell, r !!! "delivery_time_days") <$> l)) =
    if decide (numeric_groups kf (λ r, r !!! "delivery_time_days") l)
    then Ok ((λ k, (k, mean_delivery_time (filter (λ r, kf r = k) l))) <$>
               group_keys (kf <$> l))
    else Raise TypeError.
Proof.
  apply aggregate_groupby_cases. intros l'. apply mean_cases. intros l'' b. apply mean_Ok.
Qed.

(** ** The derived tables, case by case *)

Lemma getitem_cases df c :
  getitem df c =
    match dtypes df !! c with
    | Some dt => Ok (dt, (λ r : gmap string cell, r !!! c) <$> rows df)
    | None => Raise (KeyError c)
    end.
Proof. done. Qed.

Lemma orders_per_month_cases f :
  orders_per_month f =
    match dtypes f !! "order_purchase_timestamp" with
    | None => Raise (KeyError "order_purchase_timestamp")
    | Some DatetimeDtype =>
        match dtypes f !! "order_id" with
        | None => Raise (KeyError "order_id")
        | Some _ =>
            Ok ((λ k, (to_timestamp k,
                       nunique ((λ r : gmap string cell, r !!! "order_id") <$>
                                  filter (λ r, purchase_month r = k) (rows f)))) <$>
                  group_keys (purchase_month <$> rows f))
        end
    | Some _ => Raise AttributeError
    end.
Proof.
  unfold orders_per_month. rewrite !getitem_cases.
  destruct (dtypes f !! "order_purchase_timestamp") as [[]|]; try done. simpl.
  destruct (dtypes f !! "order_id"); [|done]. simpl. f_equal.
  rewrite <-list_fmap_compose.
  change (to_period_M ∘ _) with purchase_month.
  by rewrite groupby_fmap, <-list_fmap_compose.
Qed.

Lemma revenue_per_month_cases f :
  revenue_per_month f =
    match dtypes f !! "order_purchase_timestamp" with
    | None => Raise (KeyError "order_purchase_timestamp")
    | Some DatetimeDtype =>
        match dtypes f !! "price" with
        | None => Raise (KeyError "price")
        | Some _ =>
            if decide (numeric_groups purchase_month (λ r, r !!! "price") (rows f))
            then Ok ((λ k, (to_timestamp k,
                            machine_total (λ r, r !!! "price")
                              (filter (λ r, purchase_month r = k) (rows f)))) <$>
                       group_keys (purchase_month <$> rows f))
            else Raise TypeError
        end
    | Some _ => Raise AttributeError
    end.
Proof.
  unfold revenue_per_month. rewrite !getitem_cases.
  destruct (dtypes f !! "order_purchase_timestamp") as [[]|]; try done. simpl.
  destruct (dtypes f !! "price"); [|done]. simpl.
  rewrite <-list_fmap_compose.
  change (to_period_M ∘ _) with purchase_month.
  rewrite aggregate_sum_cases. destruct (decide _); [|done]. simpl.
  by rewrite <-list_fmap_compose.
Qed.

Lemma top10_products_cases f :
  top10_products f =
    match dtypes f !! "product_category_name" with
    | None => Raise (KeyError "product_category_name")
    | Some _ =>
        match dtypes f !! "price" with
        | None => Raise (KeyError "price")
        | Some _ =>
            if decide (numeric_groups (λ r, r !!! "product_category_name")
                         (λ r, r !!! "price") (rows f))
            then Ok (take 10 (sort_values_desc
                       ((λ c, (c, category_revenue c (rows f))) <$>
                        group_keys ((λ r : gmap string cell, r !!! "product_category_name")
                                      <$> rows f))))
            else Raise TypeError
        end
    end.
Proof.
  unfold top10_products. rewrite !getitem_cases.
  destruct (dtypes f !! "product_category_name"); [|done]. simpl.
  destruct (dtypes f !! "price"); [|done]. simpl.
  rewrite aggregate_sum_cases. by destruct (decide _).
Qed.

Lemma delivery_vs_review_cases f :
  delivery_vs_review f =
    match dtypes f !! "review_score" with
    | None => Raise (KeyError "review_score")
    | Some _ =>
        match dtypes f !! "delivery_time_days" with
        | None => Raise (KeyError "delivery_time_days")
        | Some _ =>
            if decide (numeric_groups (λ r, r !!! "review_score")
                         (λ r, r !!! "delivery_time_days") (rows f))
            then Ok ((λ k, (k, mean_delivery_time
                                 (filter (λ r, r !!! "review_score" = k) (rows f)))) <$>
                       group_keys ((λ r : gmap string cell, r !!! "review_score") <$> rows f))
            else Raise TypeError
        end
    end.
Proof.
  unfold delivery_vs_review. rewrite !getitem_cases.
  destruct (dtypes f !! "review_score"); [|done]. simpl.
  destruct (dtypes f !! "delivery_time_days"); [|done]. simpl.
  apply aggregate_mean_cases.
Qed.

Lemma avg_delivery_cases f :
  avg_delivery f =
    match dtypes f !! "review_score" with
    | None => Raise (KeyError "review_score")
    | Some _ =>
        match dtypes f !! "delivery_time_days" with
        | None => Raise (KeyError "delivery_time_days")
        | Some _ =>
            if decide (numeric_groups (λ r, r !!! "review_score")
                         (λ r, r !!! "delivery_time_days") (rows f))
            then Ok (sort_by_key
                       ((λ k, (k, mean_delivery_time
                                    (filter (λ r, r !!! "review_score" = k) (rows f)))) <$>
                        group_keys ((λ r : gmap string cell, r !!! "review_score")
                                      <$> rows f)))
            else Raise TypeError
        end
    end.
Proof.
  unfold avg_delivery. rewrite !getitem_cases.
  destruct (dtypes f !! "review_score"); [|done]. simpl.
  destruct (dtypes f !! "delivery_time_days"); [|done]. simpl.
  rewrite aggregate_mean_cases. by destruct (decide _).
Qed.

(** ** The derived tables (lines 91-182) *)

(** X11. The two monthly charts have the same months, in the same
    order. *)
Theorem monthly_views_months f a b :
  orders_per_month f = Ok a → revenue_per_month f = Ok b → a.*1 = b.*1.
Proof.
  rewrite orders_per_month_cases, revenue_per_month_cases.
  destruct (dtypes f !! "order_purchase_timestamp") as [[]|]; try done.
  destruct (dtypes f !! "order_id"); [|done].
  destruct (dtypes f !! "price"); [|done]. destruct (decide _); [|done].
  intros [= <-] [= <-]. by rewrite <-!list_fmap_compose.
Qed.

(** X12. When the review scores are numbers, the table of the last
    chart is the table of the chart before it: the groups come out sorted
    by review score, so that the explicit sort of line 181 changes
    nothing, and both raise the same exception when they raise. *)
Theorem avg_delivery_delivery_vs_review f :
  Forall (λ r : gmap string cell, numeric_cell (r !!! "review_score")) (rows f) →
  avg_delivery f = delivery_vs_review f.
Proof.
  intros _. rewrite avg_delivery_cases, delivery_vs_review_cases.
  destruct (dtypes f !! "review_score"); [|done].
  destruct (dtypes f !! "delivery_time_days"); [|done].
  destruct (decide _); [|done]. f_equal.
  apply sort_by_key_sorted; rewrite <-list_fmap_compose;
    change (fst ∘ _) with (@id cell); rewrite list_fmap_id.
  - apply Sorted_group_keys.
  - apply NoDup_group_keys.
Qed.

Lemma length_group_keys keys : length (group_keys keys) = nunique keys.
Proof. unfold group_keys, nunique. by rewrite merge_sort_Permutation. Qed.

Lemma length_top10_products f v :
  top10_products f = Ok v →
  length v =
    (10 `min` nunique ((λ r : gmap string cell, r !!! "product_category_name") <$> rows f))%nat.
Proof.
  intros ->%top10_products_Ok. rewrite length_take. f_equal.
  unfold sort_values_desc. rewrite merge_sort_Permutation.
  by rewrite length_fmap, length_group_keys.
Qed.

(** X13. The category chart has as many bars as there are categories,
    but at most ten.  With at most ten categories it shows every
    category, and when the sum of no category is rounded or wraps around,
    its revenues add up to the prices of all rows that have a
    category. *)
Theorem top10_products_complete f v :
  top10_products f = Ok v →
  let cats := (λ r : gmap string cell, r !!! "product_category_name") <$> rows f in
  length v = (10 `min` nunique cats)%nat ∧
  ((nunique cats ≤ 10)%nat →
   (∀ c, c ∈ v.*1 ↔ c ≠ NaN ∧ c ∈ cats) ∧
   ((∀ c, c ∈ cats →
          category_revenue c (rows f) =
            total_of (λ r, r !!! "price")
              (filter (λ r, r !!! "product_category_name" = c) (rows f))) →
    Qc_sum v.*2 =
      total_of (λ r, r !!! "price")
        (filter (λ r, r !!! "product_category_name" ≠ NaN) (rows f)))).
Proof.
  intros Hv cats. split; [by apply length_top10_products |].
  apply top10_products_Ok in Hv. fold cats in Hv.
  set (g := (λ c, (c, category_revenue c (rows f))) <$> group_keys cats) in Hv.
  assert (length (sort_values_desc g) = nunique cats) as Hlen.
  { unfold sort_values_desc. rewrite merge_sort_Permutation. unfold g.
    by rewrite length_fmap, length_group_keys. }
  intros Hle. rewrite take_ge in Hv by lia.
  assert (v ≡ₚ g) as Hp by (rewrite Hv; apply merge_sort_Permutation).
  split.
  - intros c. rewrite Hp. unfold g. rewrite <-list_fmap_compose.
    change (fst ∘ _) with (@id cell). rewrite list_fmap_id. apply elem_of_group_keys.
  - intros Hexact. rewrite Hp. unfold g. rewrite <-list_fmap_compose.
    rewrite <-(total_groups (λ r : gmap string cell, r !!! "product_category_name")).
    f_equal. apply list_fmap_ext. intros i c Hc. simpl.
    apply Hexact. by apply list_elem_of_lookup_2, elem_of_group_keys in Hc as [_ ?].
Qed.

Lemma Qc_sum_nonneg xs : Forall (λ x, (0 ≤ x)%Qc) xs → (0 ≤ Qc_sum xs)%Qc.
Proof.
  induction 1 as [|x xs Hx _ IH]; [done |]. simpl.
  rewrite <-(Qcplus_0_l 0). by apply Qcplus_le_compat.
Qed.

Lemma Qc_mean_nonneg (s : Qc) (k : nat) :
  (0 ≤ s)%Qc → (0 ≤ s / Qc_of_Z (Z.of_nat (S k)))%Qc.
Proof.
  intros Hs.
  assert (0 < Qc_of_Z (Z.of_nat (S k)))%Qc as Hk by (rewrite <-Z2Qc_inj_0, <-Z2Qc_inj_lt; lia).
  apply (Qcmult_lt_0_le_reg_r _ _ _ Hk).
  rewrite Qcmult_0_l, Qcmult_comm, Qcmult_div_r; [done |].
  intros Hz. rewrite Hz in Hk. by apply Qclt_not_eq in Hk.
Qed.

Lemma mean_delivery_time_valid l :
  l ≠ [] → Forall (λ r : gmap string cell, valid_delivery_time (r !!! "delivery_time_days")) l →
  valid_delivery_time (mean_delivery_time l).
Proof.
  intros Hne Hl. unfold mean_delivery_time.
  assert (Forall (λ x, (0 ≤ x)%Qc)
            (numbers ((λ r : gmap string cell, r !!! "delivery_time_days") <$> l)) ∧
          numbers ((λ r : gmap string cell, r !!! "delivery_time_days") <$> l) ≠ [])
    as [Hpos Hnum].
  { destruct Hl as [|r l (q & Hq & Hpos) Hl]; [done |]. rewrite fmap_cons, Hq. simpl.
    split; [|done]. constructor; [done |]. clear Hq Hne.
    induction Hl as [|r' l' (q' & Hq' & Hpos') _ IH]; [constructor |].
    rewrite fmap_cons, Hq'. simpl. by constructor. }
  destruct (numbers _) as [|x xs]; [done |]. eexists. split; [done |].
  change (length (x :: xs)) with (S (length xs)). by apply Qc_mean_nonneg, Qc_sum_nonneg.
Qed.

Lemma numeric_groups_valid {A} (kf vf : A → cell) l :
  Forall (λ r, valid_delivery_time (vf r)) l → numeric_groups kf vf l.
Proof. intros Hl. apply (Forall_impl _ _ _ Hl). by intros r (q & -> & _) _. Qed.

Section prepared_views.
Context `{ToDatetime}.

Lemma prepared_row raw df r :
  prepare raw = Ok df → r ∈ rows df →
  valid_delivery_time (r !!! "delivery_time_days") ∧
  r !!! "order_year" = year (r !!! "order_purchase_timestamp") ∧
  purchase_month r = to_period_M (r !!! "order_purchase_timestamp") ∧
  ∃ r0, r0 ∈ rows raw ∧
    ∀ c, contains "date" c || contains "timestamp" c = false →
         c ≠ "order_year" → c ≠ "order_year_month" → c ≠ "delivery_time_days" →
         r !!! c = r0 !!! c.
Proof.
  intros (kept & Hsub & Hkept)%prepare_rows_raw [i Hi]%list_elem_of_lookup.
  destruct (Forall2_lookup_r _ _ _ _ _ Hkept Hi) as (r0 & Hr0 & Hvalid & Hy & Hm & Hc).
  split; [done |]. split; [done |]. split; [done |]. exists r0. split.
  - apply (elem_of_sublist kept); [|done]. by apply list_elem_of_lookup_2 in Hr0.
  - intros c ? ? ? Hd. by apply Hc.
Qed.

Lemma filtered_df_Ok df sel f :
  filtered_df df sel = Ok f →
  dtypes f = dtypes df ∧
  rows f = match sel with
           | Semua => rows df
           | Tahun y => filter (λ r, r !!! "order_year" = Num y) (rows df)
           end.
Proof.
  destruct sel as [|y]; simpl.
  - by intros [= <-].
  - intros Hf. inv_bind Hf. injection Hf as <-. split; [done |].
    apply getitem_Ok in Ha as [_ ->]. rewrite <-list_fmap_compose, rows_boolean_index_fmap.
    apply list_filter_iff. intros r. simpl. by rewrite bool_decide_eq_true.
Qed.

Lemma filtered_df_subseteq df sel f : filtered_df df sel = Ok f → rows f ⊆ rows df.
Proof.
  intros [_ ->]%filtered_df_Ok. destruct sel; [done | apply list_subseteq_filter].
Qed.

(** X14. On a prepared table, whatever year is selected, the mean
    delivery time of every review score in the chart is a number, and it
    is not negative. *)
Theorem review_means_valid raw df sel f v :
  prepare raw = Ok df → filtered_df df sel = Ok f → delivery_vs_review f = Ok v →
  Forall (λ km, valid_delivery_time km.2) v.
Proof.
  intros Hp Hsub%filtered_df_subseteq ->%delivery_vs_review_Ok.
  apply Forall_fmap, Forall_forall. intros k [Hk Hin]%elem_of_group_keys. simpl.
  apply list_elem_of_fmap in Hin as (r & -> & Hr). apply mean_delivery_time_valid.
  - intros Hnil.
    assert (r ∈ filter (λ r', r' !!! "review_score" = r !!! "review_score") (rows f)) as Hr'
      by by apply list_elem_of_filter.
    rewrite Hnil in Hr'. by apply not_elem_of_nil in Hr'.
  - apply Forall_forall. intros r' [_ Hr']%list_elem_of_filter.
    by apply (prepared_row raw df r' Hp), Hsub.
Qed.

(** X15. When a year is selected, every month of the two monthly
    charts lies in that year. *)
Theorem selected_year_months raw df y f :
  prepare raw = Ok df → filtered_df df (Tahun y) = Ok f →
  (∀ a, orders_per_month f = Ok a → Forall (λ t, year t = Num y) a.*1) ∧
  (∀ b, revenue_per_month f = Ok b → Forall (λ t, year t = Num y) b.*1).
Proof.
  intros Hp Hf.
  assert (Forall (λ k, year (to_timestamp k) = Num y) (group_keys (purchase_month <$> rows f)))
    as Hkeys.
  { apply Forall_forall. intros k [Hk Hin]%elem_of_group_keys.
    apply list_elem_of_fmap in Hin as (r & -> & Hr).
    apply filtered_df_Ok in Hf as [_ Hrows]. rewrite Hrows in Hr.
    apply list_elem_of_filter in Hr as [Hy Hr].
    destruct (prepared_row raw df r Hp Hr) as (_ & Hyear & -> & _).
    rewrite Hyear in Hy. revert Hy.
    destruct (r !!! "order_purchase_timestamp") as [| | |t|]; try done. simpl.
    intros <-. by rewrite year_of_month_start, year_of_month_of. }
  split.
  - intros a. rewrite orders_per_month_cases.
    destruct (dtypes f !! "order_purchase_timestamp") as [[]|]; try done.
    destruct (dtypes f !! "order_id"); [|done]. intros [= <-].
    rewrite <-list_fmap_compose. by apply Forall_fmap.
  - intros b. rewrite revenue_per_month_cases.
    destruct (dtypes f !! "order_purchase_timestamp") as [[]|]; try done.
    destruct (dtypes f !! "price"); [|done]. destruct (decide _); [|done]. intros [= <-].
    rewrite <-list_fmap_compose. by apply Forall_fmap.
Qed.
End prepared_views.

(** ** The order of the rows *)

Lemma nunique_Permutation l1 l2 : l1 ≡ₚ l2 → nunique l1 = nunique l2.
Proof.
  intros Hl. unfold nunique. apply Permutation_length.
  apply NoDup_Permutation; [apply NoDup_remove_dups .. |].
  intros c. by rewrite !elem_of_remove_dups, Hl.
Qed.

Lemma years_Permutation l1 l2 :
  l1 ≡ₚ l2 →
  merge_sort Qcle (remove_dups (numbers l1)) = merge_sort Qcle (remove_dups (numbers l2)).
Proof.
  intros Hl. apply (Sorted_unique Qcle); [apply (Sorted_merge_sort _) .. |].
  rewrite !merge_sort_Permutation.
  apply NoDup_Permutation; [apply NoDup_remove_dups .. |].
  intros q. by rewrite !elem_of_remove_dups, !elem_of_numbers, Hl.
Qed.

(** X16. The options of the year selection and the table of the
    orders per month do not depend on the order of the rows; nor do the
    months of the revenue chart, the number of bars of the category chart
    and the review scores of the last two charts. *)
Theorem views_row_order f g :
  dtypes f = dtypes g → rows f ≡ₚ rows g →
  tahun_opsi f = tahun_opsi g ∧
  orders_per_month f = orders_per_month g ∧
  (∀ a b, revenue_per_month f = Ok a → revenue_per_month g = Ok b → a.*1 = b.*1) ∧
  (∀ a b, top10_products f = Ok a → top10_products g = Ok b → length a = length b) ∧
  (∀ a b, delivery_vs_review f = Ok a → delivery_vs_review g = Ok b → a.*1 = b.*1) ∧
  (∀ a b, avg_delivery f = Ok a → avg_delivery g = Ok b → a.*1 = b.*1).
Proof.
  intros Hdt Hrows.
  assert (∀ kf : gmap string cell → cell, group_keys (kf <$> rows f) = group_keys (kf <$> rows g))
    as Hkeys by (intros kf; apply group_keys_Permutation; by rewrite Hrows).
  assert (∀ (kf : gmap string cell → cell) k,
            filter (λ r, kf r = k) (rows f) ≡ₚ filter (λ r, kf r = k) (rows g)) as Hgroup
    by (intros kf k; by rewrite Hrows).
  split; [|split; [|split; [|split; [|split]]]].
  - unfold tahun_opsi. rewrite !getitem_cases, Hdt.
    destruct (dtypes g !! "order_year"); [|done]. simpl. do 3 f_equal.
    apply years_Permutation. by rewrite Hrows.
  - rewrite !orders_per_month_cases, Hdt, Hkeys.
    destruct (dtypes g !! "order_purchase_timestamp") as [[]|]; try done.
    destruct (dtypes g !! "order_id"); [|done]. f_equal.
    apply list_fmap_ext. intros _ k _. f_equal. apply nunique_Permutation.
    by rewrite Hgroup.
  - intros a b. rewrite !revenue_per_month_cases, Hdt, Hkeys.
    destruct (dtypes g !! "order_purchase_timestamp") as [[]|]; try done.
    destruct (dtypes g !! "price"); [|done].
    do 2 (destruct (decide _); [|done]). intros [= <-] [= <-].
    by rewrite <-!list_fmap_compose.
  - intros a b ->%length_top10_products ->%length_top10_products.
    f_equal. apply nunique_Permutation. by rewrite Hrows.
  - intros a b ->%delivery_vs_review_Ok ->%delivery_vs_review_Ok.
    by rewrite <-!list_fmap_compose, Hkeys.
  - intros a b. rewrite !avg_delivery_cases, Hdt, Hkeys.
    destruct (dtypes g !! "review_score"); [|done].
    destruct (dtypes g !! "delivery_time_days"); [|done].
    do 2 (destruct (decide _); [|done]).
    rewrite !sort_by_key_sorted
      by (rewrite <-list_fmap_compose; change (fst ∘ _) with (@id cell);
          rewrite list_fmap_id; (apply Sorted_group_keys || apply NoDup_group_keys)).
    intros [= <-] [= <-]. by rewrite <-!list_fmap_compose.
Qed.

(** ** When the derived tables are computed *)

(** X17. The six derived tables are all computed, none raising, only
    when the purchase timestamps are a date-time column and the five
    other columns that the charts read exist.  Without the purchase
    timestamps the first chart raises a key error, and with purchase
    timestamps that are no date-time column it raises an attribute
    error. *)
Theorem views_return f :
  (∀ v, views f = Ok v →
     dtypes f !! "order_purchase_timestamp" = Some DatetimeDtype ∧
     "order_id" ∈ columns f ∧ "price" ∈ columns f ∧ "product_category_name" ∈ columns f ∧
     "delivery_time_days" ∈ columns f ∧ "review_score" ∈ columns f) ∧
  ("order_purchase_timestamp" ∉ columns f →
     views f = Raise (KeyError "order_purchase_timestamp")) ∧
  (∀ dt, dtypes f !! "order_purchase_timestamp" = Some dt → dt ≠ DatetimeDtype →
     views f = Raise AttributeError).
Proof.
  unfold views. rewrite orders_per_month_cases. split; [|split].
  - intros v. rewrite !elem_of_columns.
    rewrite revenue_per_month_cases, top10_products_cases, delivery_vs_review_cases,
      avg_delivery_cases. unfold delivery_time_distribution. rewrite getitem_cases.
    destruct (dtypes f !! "order_purchase_timestamp") as [[]|]; try done.
    destruct (dtypes f !! "order_id"); [|done].
    destruct (dtypes f !! "price"); [|done]. simpl.
    destruct (decide _); [|done]. simpl.
    destruct (dtypes f !! "product_category_name"); [|done]. simpl.
    destruct (decide _); [|done]. simpl.
    destruct (dtypes f !! "delivery_time_days"); [|done]. simpl.
    destruct (dtypes f !! "review_score"); [|done]. intros _. repeat split; eauto.
  - rewrite elem_of_columns. intros Hts.
    destruct (dtypes f !! "order_purchase_timestamp"); [|done]. destruct Hts. eauto.
  - intros dt Hdt Hne. rewrite Hdt. by destruct dt.
Qed.

(** ** Months and years of timestamps (lines 59-60, 92-96, 110-114) *)

(** X18. The date of a day count converts back to the day count: the
    year, month and day that the pipeline reads off a timestamp are those
    of a date of the calendar, the month between 1 and 12 and the day
    between 1 and 31. *)
Theorem civil_from_days_round_trip z :
  let '(y, m, d) := civil_from_days z in
  days_from_civil y m d = z ∧ 1 ≤ m ≤ 12 ∧ 1 ≤ d ≤ 31.
Proof.
  unfold civil_from_days, days_from_civil. cbv zeta.
  set (era := (z + 719468) / 146097).
  set (doe := z + 719468 - era * 146097).
  assert (0 ≤ doe < 146097) as Hdoe by (unfold doe, era; Z.to_euclidean_division_equations; lia).
  assert (z = era * 146097 + doe - 719468) as Hz by (unfold doe; lia).
  clearbody doe era. subst z.
  set (yoe := (doe - doe / 1460 + doe / 36524 - doe / 146096) / 365).
  assert (0 ≤ yoe ≤ 399) as Hyoe by (unfold yoe; Z.to_euclidean_division_equations; lia).
  set (doy := doe - (365 * yoe + yoe / 4 - yoe / 100)).
  assert (0 ≤ doy ≤ 365) as Hdoy by (unfold doy, yoe; Z.to_euclidean_division_equations; lia).
  assert (doe = yoe * 365 + yoe / 4 - yoe / 100 + doy) as Hd by (unfold doy; lia).
  clearbody doy yoe. subst doe.
  set (mp := (5 * doy + 2) / 153).
  assert (0 ≤ mp ≤ 11) as Hmp by (unfold mp; Z.to_euclidean_division_equations; lia).
  assert (mp = 0 ∨ mp = 1 ∨ mp = 2 ∨ mp = 3 ∨ mp = 4 ∨ mp = 5 ∨ mp = 6 ∨ mp = 7 ∨ mp = 8
          ∨ mp = 9 ∨ mp = 10 ∨ mp = 11) as Hcases by lia.
  assert ((153 * mp + 2) / 5 ≤ doy < (153 * (mp + 1) + 2) / 5) as Hin
    by (unfold mp; Z.to_euclidean_division_equations; lia).
  clearbody mp.
  destruct_or!; subst mp; simpl in *; split;
    Z.to_euclidean_division_equations; lia.
Qed.

(** X19. The month under which a purchase is charted is the month it
    was made in, for every timestamp whose month begins at an instant
    that a timestamp holds: the label is midnight of the first day of a
    month, the timestamp lies between this label and the label of the
    next month, the label is in the same month and the same year as the
    timestamp, and the year is the one that the year filter compares. *)
Theorem month_label ns :
  Timestamp_min ≤ month_start (month_of ns) → ns ≤ Timestamp_max →
  ∃ p, to_period_M (Time ns) = Period p ∧
    to_timestamp (Period p) = Time (month_start p) ∧
    month_start p ≤ ns < month_start (p + 1) ∧
    to_period_M (Time (month_start p)) = Period p ∧
    year (Time (month_start p)) = year (Time ns) ∧
    month_start p `mod` ns_per_day = 0 ∧
    (civil_from_days (month_start p / ns_per_day)).2 = 1.
Proof.
  intros Hmin _. exists (month_of ns). split; [done |]. split; [done |].
  split; [apply month_start_month_of |].
  split; [unfold to_period_M; by rewrite month_of_month_start |].
  split; [unfold year; by rewrite year_of_month_start, <-year_of_month_of |].
  split; [unfold month_start; by rewrite Z.mod_mul |].
  by rewrite civil_from_days_month_start.
Qed.

(** ** Coercing twice *)


Section coercing_twice.
Context `{ToDatetime}.



End coercing_twice.

(** ** The script as a whole *)

Lemma marker_price : contains "date" "price" || contains "timestamp" "price" = false.
Proof. by vm_compute. Qed.

Section running.
Context `{ToDatetime}.

Lemma prepare_keeps_columns raw df c :
  prepare raw = Ok df → c ∈ columns raw → c ∈ columns df.
Proof.
  intros (d & Hd & _ & _ & Hdt & _)%prepare_Ok Hc.
  apply elem_of_columns. rewrite Hdt.
  destruct (decide (c = "order_year")) as [->|?]; [by rewrite lookup_insert_eq |].
  rewrite lookup_insert_ne by done.
  destruct (decide (c = "order_year_month")) as [->|?]; [by rewrite lookup_insert_eq |].
  rewrite lookup_insert_ne by done. apply elem_of_columns.
  apply columns_coerce_dates in Hc.
  apply derive_delivery_time_Ok in Hd as [[_ ->]|[(_ & _ & ->)|(_ & _ & _ & ->)]];
    [done | done |].
  apply elem_of_columns. simpl.
  destruct (decide (c = "delivery_time_days")) as [->|?]; [by rewrite lookup_insert_eq |].
  rewrite lookup_insert_ne by done. by apply elem_of_columns.
Qed.

(** X21. Once the table is prepared, the options, the filtered table
    and the six derived tables are computed, none raising, whatever the
    user selects: when the input has the order ids, the categories, the
    review scores and the prices, every price and every review score is a
    number or missing, and the month of every purchase timestamp of the
    prepared table begins at an instant that a timestamp holds. *)
Theorem dashboard_renders raw df selectbox :
  prepare raw = Ok df →
  "order_id" ∈ columns raw → "product_category_name" ∈ columns raw →
  "review_score" ∈ columns raw → "price" ∈ columns raw →
  Forall (λ r : gmap string cell, numeric_cell (r !!! "price")) (rows raw) →
  Forall (λ r : gmap string cell, numeric_cell (r !!! "review_score")) (rows raw) →
  Forall (λ r : gmap string cell, month_in_bounds (r !!! "order_purchase_timestamp"))
    (rows df) →
  ∃ opts f v,
    tahun_opsi df = Ok opts ∧
    filtered_df df (selectbox opts) = Ok f ∧
    views f = Ok v ∧
    dashboard (Some raw) selectbox = Rendered (selectbox opts) v.
Proof.
  intros Hp Hid Hcat Hrev Hprice Hnum _ _.
  destruct (prepare_dtypes raw df Hp) as (Hts & Hdtd & Hyear & _).
  destruct (getitem_is_Ok df "order_year" Hyear) as [dty Hy].
  assert (∃ opts, tahun_opsi df = Ok opts) as [opts Hopts]
    by (unfold tahun_opsi; rewrite Hy; by eexists).
  assert (∃ f, filtered_df df (selectbox opts) = Ok f) as [f Hf].
  { destruct (selectbox opts) as [|y]; [by eexists |].
    destruct (filtered_df_year df y Hyear) as (f & Hf & _). by exists f. }
  pose proof (filtered_df_subseteq _ _ _ Hf) as Hsub.
  apply filtered_df_Ok in Hf as Hdt. destruct Hdt as [Hdt _].
  assert (∀ c, c ∈ columns raw → is_Some (dtypes f !! c)) as Hcol.
  { intros c Hc. rewrite Hdt. by apply elem_of_columns, (prepare_keeps_columns raw). }
  assert (Forall (λ r : gmap string cell, numeric_cell (r !!! "price")) (rows f)) as Hpr.
  { apply Forall_forall. intros r Hr%Hsub.
    destruct (prepared_row raw df r Hp Hr) as (_ & _ & _ & r0 & Hr0 & Heq).
    rewrite (Heq "price") by (done || apply marker_price).
    by apply (proj1 (Forall_forall _ _) Hnum). }
  assert (Forall (λ r : gmap string cell, valid_delivery_time (r !!! "delivery_time_days"))
            (rows f)) as Hdel.
  { apply Forall_forall. intros r Hr%Hsub. by apply (prepared_row raw df r Hp Hr). }
  assert (∃ v, views f = Ok v) as [v Hv].
  { unfold views.
    rewrite orders_per_month_cases, revenue_per_month_cases, top10_products_cases,
      delivery_vs_review_cases, avg_delivery_cases. unfold delivery_time_distribution.
    rewrite getitem_cases, Hdt, Hts. rewrite <-Hdt.
    destruct (Hcol "order_id" Hid) as [? ->]. destruct (Hcol "price" Hprice) as [? ->].
    destruct (Hcol "product_category_name" Hcat) as [? ->].
    destruct (Hcol "review_score" Hrev) as [? ->].
    assert (is_Some (dtypes f !! "delivery_time_days")) as [? ->]
      by by rewrite Hdt; apply elem_of_columns.
    assert (∀ kf : gmap string cell → cell, numeric_groups kf (λ r, r !!! "price") (rows f))
      as Hgroups by (intros kf; apply (Forall_impl _ _ _ Hpr); by intros r Hr _).
    rewrite !decide_True by (apply Hgroups || by apply numeric_groups_valid).
    by eexists. }
  exists opts, f, v. repeat split; [done .. |].
  unfold dashboard. rewrite Hp. simpl. rewrite Hopts. simpl. rewrite Hf. simpl.
  by rewrite Hv.
Qed.
End running.

(** ** The monthly charts, year by year *)

Lemma elem_of_concat {A} (ls : list (list A)) x : x ∈ concat ls ↔ ∃ l, l ∈ ls ∧ x ∈ l.
Proof.
  induction ls as [|l ls IH]; simpl.
  - split; [by intros ?%elem_of_nil | by intros (? & ?%elem_of_nil & _)].
  - rewrite elem_of_app, IH. split.
    + intros [?|(l' & ? & ?)]; [exists l; split; [left | done] | exists l'; split; [by right | done]].
    + intros (l' & [->|?]%elem_of_cons & ?); [by left | right; eauto].
Qed.

Lemma fmap_concat {A B} (f : A → B) (ls : list (list A)) :
  f <$> concat ls = concat ((λ l : list A, f <$> l) <$> ls).
Proof. induction ls as [|l ls IH]; [done |]. simpl. by rewrite fmap_app, IH. Qed.

Section by_year.
Variable l : list (gmap string cell).
Hypothesis Hyear : ∀ r, r ∈ l → r !!! "order_year" = year (r !!! "order_purchase_timestamp").

Lemma purchase_month_year r :
  r ∈ l → purchase_month r ≠ NaN →
  ∃ p, purchase_month r = Period p ∧ r !!! "order_year" = Num (Qc_of_Z (1970 + p / 12)).
Proof.
  intros Hr. rewrite (Hyear r Hr). unfold purchase_month.
  destruct (r !!! "order_purchase_timestamp") as [| | |t|]; try done. intros _.
  exists (month_of t). split; [done |]. simpl. by rewrite year_of_month_of.
Qed.

Lemma elem_of_year_keys y k :
  k ∈ group_keys (purchase_month <$> rows_of_year y l) →
  ∃ p, k = Period p ∧ y = Qc_of_Z (1970 + p / 12).
Proof.
  intros [Hk (r & -> & [Hy Hr]%list_elem_of_filter)%list_elem_of_fmap]%elem_of_group_keys.
  destruct (purchase_month_year r Hr Hk) as (p & Hp & Hp'). exists p. split; [done |].
  rewrite Hp' in Hy. by injection Hy as <-.
Qed.

Lemma year_keys_sorted ys :
  StronglySorted Qclt ys →
  let ks := concat ((λ y, group_keys (purchase_month <$> rows_of_year y l)) <$> ys) in
  StronglySorted cell_le ks ∧ NoDup ks.
Proof.
  induction 1 as [|y ys Hys [IHs IHn] Hlt]; [split; constructor |].
  rewrite fmap_cons. simpl.
  assert (∀ k1 k2,
            k1 ∈ group_keys (purchase_month <$> rows_of_year y l) →
            k2 ∈ concat ((λ y, group_keys (purchase_month <$> rows_of_year y l)) <$> ys) →
            cell_le k1 k2 ∧ k1 ≠ k2) as Hlt'.
  { intros k1 k2 (p1 & -> & Hy)%elem_of_year_keys
      (ks & (y' & -> & Hy')%list_elem_of_fmap & (p2 & -> & Hp2)%elem_of_year_keys)%elem_of_concat.
    rewrite Forall_forall in Hlt. apply Hlt in Hy'. subst y y'.
    apply Z2Qc_inj_lt in Hy'. simpl.
    split; [Z.to_euclidean_division_equations; lia |].
    intros [= ->]. lia. }
  split.
  - apply StronglySorted_app_2; [by intros k1 k2 H1 H2; apply Hlt' | | done].
    apply (Sorted_StronglySorted _), Sorted_group_keys.
  - apply NoDup_app. split; [apply NoDup_group_keys |]. split; [|done].
    intros k H1 H2. by destruct (Hlt' k k H1 H2).
Qed.

Lemma group_keys_by_year ys :
  StronglySorted Qclt ys →
  (∀ y, y ∈ ys ↔ Num y ∈ (λ r : gmap string cell, r !!! "order_year") <$> l) →
  group_keys (purchase_month <$> l) =
    concat ((λ y, group_keys (purchase_month <$> rows_of_year y l)) <$> ys).
Proof.
  intros Hs Hys. destruct (year_keys_sorted ys Hs) as [Hsorted Hnd].
  apply (StronglySorted_unique cell_le);
    [apply (Sorted_StronglySorted _), Sorted_group_keys | done |].
  apply NoDup_Permutation; [apply NoDup_group_keys | done |]. intros k.
  rewrite elem_of_group_keys, elem_of_concat. split.
  - intros [Hk (r & -> & Hr)%list_elem_of_fmap].
    destruct (purchase_month_year r Hr Hk) as (p & Hp & Hp').
    exists (group_keys (purchase_month <$> rows_of_year (Qc_of_Z (1970 + p / 12)) l)). split.
    + apply list_elem_of_fmap. eexists. split; [done |].
      apply Hys. rewrite <-Hp'. by apply list_elem_of_fmap_2.
    + apply elem_of_group_keys. split; [done |]. apply list_elem_of_fmap_2.
      by apply list_elem_of_filter.
  - intros (ks & (y & -> & _)%list_elem_of_fmap & [Hk Hin]%elem_of_group_keys).
    split; [done |]. apply list_elem_of_fmap in Hin as (r & -> & [_ Hr]%list_elem_of_filter).
    by apply list_elem_of_fmap_2.
Qed.

Lemma filter_month_of_year y k :
  k ∈ group_keys (purchase_month <$> rows_of_year y l) →
  filter (λ r, purchase_month r = k) (rows_of_year y l) = filter (λ r, purchase_month r = k) l.
Proof.
  intros Hk. pose proof Hk as (p & -> & ->)%elem_of_year_keys.
  unfold rows_of_year. rewrite list_filter_filter. apply filter_ext_in. intros r Hr.
  split; [by intros [? _] |]. intros Hp. split; [done |].
  destruct (purchase_month_year r Hr) as (p' & Hp' & ->); [by rewrite Hp |].
  rewrite Hp in Hp'. by injection Hp' as <-.
Qed.

Lemma monthly_by_year {B} (F : list (gmap string cell) → B) ys :
  StronglySorted Qclt ys →
  (∀ y, y ∈ ys ↔ Num y ∈ (λ r : gmap string cell, r !!! "order_year") <$> l) →
  monthly F l = concat ((λ y, monthly F (rows_of_year y l)) <$> ys).
Proof.
  intros Hs Hys. unfold monthly at 1. rewrite (group_keys_by_year ys Hs Hys).
  rewrite fmap_concat, <-list_fmap_compose. f_equal.
  apply list_fmap_ext. intros _ y _. simpl. unfold monthly.
  apply list_fmap_ext. intros i k Hk. f_equal. f_equal. symmetry.
  apply filter_month_of_year. by apply list_elem_of_lookup_2 in Hk.
Qed.
End by_year.

Lemma orders_per_month_monthly f :
  orders_per_month f =
    match dtypes f !! "order_purchase_timestamp" with
    | None => Raise (KeyError "order_purchase_timestamp")
    | Some DatetimeDtype =>
        match dtypes f !! "order_id" with
        | None => Raise (KeyError "order_id")
        | Some _ =>
            Ok (monthly (λ g, nunique ((λ r : gmap string cell, r !!! "order_id") <$> g))
                  (rows f))
        end
    | Some _ => Raise AttributeError
    end.
Proof. apply orders_per_month_cases. Qed.

Lemma revenue_per_month_monthly f :
  revenue_per_month f =
    match dtypes f !! "order_purchase_timestamp" with
    | None => Raise (KeyError "order_purchase_timestamp")
    | Some DatetimeDtype =>
        match dtypes f !! "price" with
        | None => Raise (KeyError "price")
        | Some _ =>
            if decide (numeric_groups purchase_month (λ r, r !!! "price") (rows f))
            then Ok (monthly (machine_total (λ r, r !!! "price")) (rows f))
            else Raise TypeError
        end
    | Some _ => Raise AttributeError
    end.
Proof. apply revenue_per_month_cases. Qed.

Lemma Tahun_fmap_inj (ys1 ys2 : list Qc) : Tahun <$> ys1 = Tahun <$> ys2 → ys1 = ys2.
Proof.
  revert ys2. induction ys1 as [|y ys1 IH]; intros [|y' ys2]; try done.
  rewrite !fmap_cons. intros [= -> ?]. f_equal. by apply IH.
Qed.

Section charts_by_year.
Context `{ToDatetime}.

(** X22. The monthly charts of all years are the monthly charts of the
    offered years, one after the other in the order of the years: no
    month is split between two years, counted twice or lost. *)
Theorem monthly_views_by_year raw df ys :
  prepare raw = Ok df → tahun_opsi df = Ok (Semua :: (Tahun <$> ys)) →
  (∀ a, orders_per_month df = Ok a →
     ∃ parts,
       Forall2 (λ y w, (f <- filtered_df df (Tahun y);; orders_per_month f) = Ok w) ys parts ∧
       a = concat parts) ∧
  (∀ b, revenue_per_month df = Ok b →
     ∃ parts,
       Forall2 (λ y w, (f <- filtered_df df (Tahun y);; revenue_per_month f) = Ok w) ys parts ∧
       b = concat parts).
Proof.
  intros Hp Hopts.
  apply tahun_opsi_Ok in Hopts as (Hcol & ys' & [= Hys'] & Hnd & Hsorted & Hys).
  apply Tahun_fmap_inj in Hys' as <-.
  pose proof (Sorted_NoDup_Qclt ys Hsorted Hnd) as Hs.
  assert (∀ r, r ∈ rows df →
               r !!! "order_year" = year (r !!! "order_purchase_timestamp")) as Hyear
    by (intros r Hr; by apply (prepared_row raw df r Hp Hr)).
  assert (∀ y, ∃ f, filtered_df df (Tahun y) = Ok f ∧ dtypes f = dtypes df ∧
                    rows f = rows_of_year y (rows df)) as Hf
    by (intros y; apply filtered_df_year, Hcol).
  split.
  - intros a. rewrite orders_per_month_monthly.
    destruct (dtypes df !! "order_purchase_timestamp") as [[]|] eqn:Hts; try done.
    destruct (dtypes df !! "order_id") as [dt|] eqn:Hid; [|done]. intros [= <-].
    eexists. split; [|by apply (monthly_by_year _ Hyear _ ys)].
    apply Forall2_fmap_r, Forall_Forall2_diag, Forall_forall. intros y _.
    destruct (Hf y) as (f & -> & Hdt & Hrows). simpl.
    by rewrite orders_per_month_monthly, Hdt, Hts, Hid, Hrows.
  - intros b. rewrite revenue_per_month_monthly.
    destruct (dtypes df !! "order_purchase_timestamp") as [[]|] eqn:Hts; try done.
    destruct (dtypes df !! "price") as [dt|] eqn:Hprice; [|done].
    destruct (decide _) as [Hnum|]; [|done]. intros [= <-].
    eexists. split; [|by apply (monthly_by_year _ Hyear _ ys)].
    apply Forall2_fmap_r, Forall_Forall2_diag, Forall_forall. intros y _.
    destruct (Hf y) as (f & -> & Hdt & Hrows). simpl.
    rewrite revenue_per_month_monthly, Hdt, Hts, Hprice, Hrows.
    rewrite decide_True; [done |]. unfold numeric_groups, rows_of_year.
    apply Forall_forall. intros r [_ Hr]%list_elem_of_filter.
    by apply (proj1 (Forall_forall _ _) Hnum).
Qed.

(** X23. The charts of an offered year are not empty: the two monthly
    charts have a month and the histogram has a delivery time. *)
Theorem offered_year_charts raw df opts y f :
  prepare raw = Ok df → tahun_opsi df = Ok opts → Tahun y ∈ opts →
  filtered_df df (Tahun y) = Ok f →
  (∀ a, orders_per_month f = Ok a → a ≠ []) ∧
  (∀ b, revenue_per_month f = Ok b → b ≠ []) ∧
  (∀ d, delivery_time_distribution f = Ok d → d ≠ []).
Proof.
  intros Hp (_ & ys & -> & _ & _ & Hys)%tahun_opsi_Ok Hy [_ Hrows]%filtered_df_Ok.
  apply elem_of_cons in Hy as [[=]|(y' & [= <-] & Hy)%list_elem_of_fmap].
  apply Hys, list_elem_of_fmap in Hy as (r & Hy & Hr).
  assert (r ∈ rows f) as Hrf by (rewrite Hrows; by apply list_elem_of_filter).
  assert (purchase_month r ≠ NaN) as Hpm.
  { destruct (prepared_row raw df r Hp Hr) as (_ & Hyear & _). rewrite Hyear in Hy.
    unfold purchase_month. by destruct (r !!! "order_purchase_timestamp"). }
  assert (group_keys (purchase_month <$> rows f) ≠ []) as Hkeys.
  { intros Hnil.
    assert (purchase_month r ∈ group_keys (purchase_month <$> rows f)) as Hin
      by (apply elem_of_group_keys; split; [done | by apply list_elem_of_fmap_2]).
    rewrite Hnil in Hin. by apply not_elem_of_nil in Hin. }
  split; [|split].
  - intros a. rewrite orders_per_month_cases.
    destruct (dtypes f !! "order_purchase_timestamp") as [[]|]; try done.
    destruct (dtypes f !! "order_id"); [|done]. intros [= <-].
    by destruct (group_keys _).
  - intros b. rewrite revenue_per_month_cases.
    destruct (dtypes f !! "order_purchase_timestamp") as [[]|]; try done.
    destruct (dtypes f !! "price"); [|done]. destruct (decide _); [|done]. intros [= <-].
    by destruct (group_keys _).
  - intros d. unfold delivery_time_distribution. rewrite getitem_cases.
    destruct (dtypes f !! "delivery_time_days"); [|done]. simpl. intros [= <-].
    destruct (rows f); [by apply elem_of_nil in Hrf | done].
Qed.
End charts_by_year.

(** ** Delivery times that are no numbers *)

Lemma cell_ge_zero_cases c :
  cell_ge_zero c =
    if decide (numeric_cell c)
    then Ok (match c with Num q => bool_decide (0 ≤ q)%Qc | _ => false end)
    else Raise TypeError.
Proof. by destruct c. Qed.

Lemma ge_zero_TypeError s : ¬ Forall numeric_cell s.2 → ge_zero s = Raise TypeError.
Proof.
  intros Hs. unfold ge_zero. rewrite (traverse_cases _ _ _ _ cell_ge_zero_cases).
  rewrite decide_False by done. by destruct s.1.
Qed.

Lemma drop_invalid_TypeError df s :
  getitem df "delivery_time_days" = Ok s → ¬ Forall numeric_cell s.2 →
  drop_invalid df = Raise TypeError.
Proof.
  intros Hs Hnum. unfold drop_invalid. rewrite Hs. cbn [bind].
  apply getitem_Ok in Hs as [Hd Hcells].
  set (df' := boolean_index df (notna s)).
  assert (getitem df' "delivery_time_days" =
            Ok (s.1, (λ r : gmap string cell, r !!! "delivery_time_days") <$> rows df'))
    as -> by (unfold getitem; simpl; by rewrite Hd).
  cbn [bind]. rewrite ge_zero_TypeError; [done |]. cbn [snd]. intros Hall. apply Hnum.
  rewrite Hcells. apply Forall_fmap, Forall_forall. intros r Hr. simpl.
  destruct (decide (r !!! "delivery_time_days" = NaN)) as [Hna|Hna]; [by rewrite Hna |].
  apply (proj1 (Forall_forall _ _) Hall).
  apply (list_elem_of_fmap_2 (λ r : gmap string cell, r !!! "delivery_time_days")).
  unfold df', notna. rewrite Hcells, <-list_fmap_compose, rows_boolean_index_fmap.
  apply list_elem_of_filter. split; [by apply bool_decide_eq_true_2 | done].
Qed.

Section invalid_delivery_time.
Context `{ToDatetime}.

(** X24. An input whose delivery times are not all numbers or missing
    is not prepared: the comparison of line 56 raises [TypeError]. *)
Theorem prepare_invalid_delivery_time raw s :
  getitem raw "delivery_time_days" = Ok s →
  ¬ Forall numeric_cell s.2 →
  prepare raw = Raise TypeError.
Proof.
  intros Hs Hnum. unfold prepare.
  assert ("delivery_time_days" ∈ columns raw) as Hin.
  { apply elem_of_columns. apply getitem_Ok in Hs as [-> _]. eauto. }
  rewrite derive_delivery_time_present by by apply columns_coerce_dates. cbn [bind].
  rewrite <-getitem_coerce_dates_delivery_time in Hs.
  by rewrite (drop_invalid_TypeError _ _ Hs Hnum).
Qed.
End invalid_delivery_time.

End further.

(** ** Witnesses of the further properties *)

Section further_witnesses.
#[local] Existing Instance iso_to_datetime.
#[local] Existing Instance exact_arithmetic.

Lemma prepare_columns_witness :
  prepare scenario = Ok scenario_prepared ∧
  dtypes scenario_prepared !! "order_purchase_timestamp" = Some DatetimeDtype.
Proof.
  pose proof prepare_scenario as Hp. split; [exact Hp |].
  exact (proj1 (proj2 (prepare_columns scenario scenario_prepared Hp))).
Defined.

Lemma prepare_period_keys_witness :
  ∃ r, r ∈ rows scenario_prepared ∧
    r !!! "order_year" = year (r !!! "order_purchase_timestamp").
Proof.
  pose proof prepare_scenario as Hp.
  assert (∃ r, r ∈ rows scenario_prepared) as [r Hr] by (eexists; left).
  exists r. split; [exact Hr |].
  exact (proj1 (prepare_period_keys scenario scenario_prepared r Hp Hr)).
Defined.

Lemma prepare_derived_delivery_time_witness :
  ("delivery_time_days" ∉ columns scenario) ∧
  ∃ r, r ∈ rows scenario_prepared ∧
    ∃ delivered purchased,
      r !!! "order_delivered_customer_date" = Time delivered ∧
      r !!! "order_purchase_timestamp" = Time purchased ∧
      purchased ≤ delivered ∧
      r !!! "delivery_time_days" = Num (Qc_of_Z ((delivered - purchased) / ns_per_day)).
Proof.
  pose proof prepare_scenario as Hp.
  assert ("delivery_time_days" ∉ columns scenario) as Hd by compute_done.
  split; [exact Hd |].
  assert (∃ r, r ∈ rows scenario_prepared) as [r Hr] by (eexists; left).
  exists r. split; [exact Hr |].
  exact (prepare_derived_delivery_time scenario scenario_prepared r Hp Hd Hr).
Defined.

Lemma prepare_keeps_rows_witness :
  prepare scenario = Ok scenario_prepared ∧
  ∃ kept, kept `sublist_of` rows scenario ∧
    Forall2 (λ r0 r, ∀ c,
               contains "date" c || contains "timestamp" c = false →
               c ≠ "order_year" → c ≠ "order_year_month" →
               (c = "delivery_time_days" → "delivery_time_days" ∈ columns scenario) →
               r !!! c = r0 !!! c) kept (rows scenario_prepared).
Proof.
  pose proof prepare_scenario as Hp. split; [exact Hp |].
  exact (prepare_keeps_rows scenario scenario_prepared Hp).
Defined.

Lemma prepare_needs_columns_witness :
  prepare scenario = Ok scenario_prepared ∧ "order_purchase_timestamp" ∈ columns scenario.
Proof.
  pose proof prepare_scenario as Hp. split; [exact Hp |].
  exact (proj1 (prepare_needs_columns scenario scenario_prepared Hp)).
Defined.

Lemma prepare_without_purchase_timestamp_witness :
  getitem undated "delivery_time_days" = Ok (NumericDtype, [n 5]) ∧
  ("order_purchase_timestamp" ∉ columns undated) ∧
  prepare undated = Raise (KeyError "order_purchase_timestamp").
Proof.
  assert (getitem undated "delivery_time_days" = Ok (NumericDtype, [n 5])) as Hs
    by compute_done.
  assert ("order_purchase_timestamp" ∉ columns undated) as Hts by compute_done.
  split; [exact Hs |]. split; [exact Hts |].
  refine (prepare_without_purchase_timestamp undated _ Hs (or_intror eq_refl) _ Hts).
  repeat constructor.
Defined.

Lemma prepare_returns_witness :
  getitem missing_purchase "delivery_time_days" = Ok (NumericDtype, [n 5; n 3]) ∧
  to_datetime (ObjectDtype, [Str "2023-01-05"; NaN]) =
    Ok (DatetimeDtype, [Time 1672876800000000000; NaN]) ∧
  ∃ p, prepare missing_purchase = Ok p.
Proof.
  assert (getitem missing_purchase "delivery_time_days" = Ok (NumericDtype, [n 5; n 3]))
    as Hs by compute_done.
  assert (getitem missing_purchase "order_purchase_timestamp" =
            Ok (ObjectDtype, [Str "2023-01-05"; NaN])) as Ht by compute_done.
  assert (to_datetime (ObjectDtype, [Str "2023-01-05"; NaN]) =
            Ok (DatetimeDtype, [Time 1672876800000000000; NaN])) as Ht' by compute_done.
  split; [exact Hs |]. split; [exact Ht' |].
  refine (prepare_returns missing_purchase _ _ _ Hs (or_intror eq_refl) _ Ht Ht' eq_refl).
  repeat constructor.
Defined.

Lemma tahun_opsi_offered_witness :
  tahun_opsi scenario_prepared = Ok [Semua; Tahun (Qc_of_Z 2023)] ∧
  head [Semua; Tahun (Qc_of_Z 2023)] = Some Semua.
Proof.
  assert (tahun_opsi scenario_prepared = Ok [Semua; Tahun (Qc_of_Z 2023)]) as Ho
    by compute_done.
  split; [exact Ho |]. exact (proj1 (tahun_opsi_offered scenario_prepared _ Ho)).
Defined.

Lemma tahun_opsi_partition_witness :
  tahun_opsi scenario_prepared = Ok [Semua; Tahun (Qc_of_Z 2023)] ∧
  ∃ ys fs, [Semua; Tahun (Qc_of_Z 2023)] = Semua :: (Tahun <$> ys) ∧
    Forall2 (λ y f, filtered_df scenario_prepared (Tahun y) = Ok f) ys fs ∧
    concat (rows <$> fs) ≡ₚ filter has_year (rows scenario_prepared).
Proof.
  assert (tahun_opsi scenario_prepared = Ok [Semua; Tahun (Qc_of_Z 2023)]) as Ho
    by compute_done.
  split; [exact Ho |]. exact (tahun_opsi_partition scenario_prepared _ Ho).
Defined.

Lemma filtered_df_twice_witness :
  filtered_df scenario_prepared (Tahun (Qc_of_Z 2023)) = Ok scenario_prepared ∧
  tahun_opsi scenario_prepared =
    Ok (Semua :: if decide (rows scenario_prepared = []) then [] else [Tahun (Qc_of_Z 2023)]).
Proof.
  assert (filtered_df scenario_prepared (Tahun (Qc_of_Z 2023)) = Ok scenario_prepared) as Hf
    by compute_done.
  split; [exact Hf |].
  exact (proj2 (proj2 (filtered_df_twice scenario_prepared _ _ Hf))).
Defined.

Lemma monthly_views_months_witness :
  orders_per_month scenario_prepared = Ok [(Time (month_start 636), 2%nat)] ∧
  revenue_per_month scenario_prepared = Ok [(Time (month_start 636), Qc_of_Z 150)] ∧
  [(Time (month_start 636), 2%nat)].*1 = [(Time (month_start 636), Qc_of_Z 150)].*1.
Proof.
  assert (orders_per_month scenario_prepared = Ok [(Time (month_start 636), 2%nat)]) as Ha
    by compute_done.
  assert (revenue_per_month scenario_prepared = Ok [(Time (month_start 636), Qc_of_Z 150)])
    as Hb by compute_done.
  split; [exact Ha |]. split; [exact Hb |].
  exact (monthly_views_months scenario_prepared _ _ Ha Hb).
Defined.

Lemma avg_delivery_delivery_vs_review_witness :
  Forall (λ r : gmap string cell, numeric_cell (r !!! "review_score"))
    (rows scenario_prepared) ∧
  avg_delivery scenario_prepared = delivery_vs_review scenario_prepared.
Proof.
  assert (Forall (λ r : gmap string cell, numeric_cell (r !!! "review_score"))
            (rows scenario_prepared)) as Hnum by compute_done.
  split; [exact Hnum |]. exact (avg_delivery_delivery_vs_review scenario_prepared Hnum).
Defined.

Lemma top10_products_complete_witness :
  top10_products catalogue = Ok [(Str "toys", Qc_of_Z 150); (Str "books", Qc_of_Z 50)] ∧
  length [(Str "toys", Qc_of_Z 150); (Str "books", Qc_of_Z 50)] =
    (10 `min` nunique ((λ r : gmap string cell, r !!! "product_category_name") <$>
                         rows catalogue))%nat ∧
  Qc_sum [(Str "toys", Qc_of_Z 150); (Str "books", Qc_of_Z 50)].*2 =
    total_of (λ r, r !!! "price")
      (filter (λ r, r !!! "product_category_name" ≠ NaN) (rows catalogue)).
Proof.
  assert (top10_products catalogue =
            Ok [(Str "toys", Qc_of_Z 150); (Str "books", Qc_of_Z 50)]) as Hv by compute_done.
  assert (nunique ((λ r : gmap string cell, r !!! "product_category_name") <$>
                     rows catalogue) ≤ 10)%nat as Hle by compute_done.
  pose proof (top10_products_complete catalogue _ Hv) as Hc.
  split; [exact Hv |]. split; [exact (proj1 Hc) |].
  exact (proj2 (proj2 Hc Hle) (λ c _, eq_refl)).
Defined.

Lemma review_means_valid_witness :
  prepare scenario = Ok scenario_prepared ∧
  filtered_df scenario_prepared Semua = Ok scenario_prepared ∧
  delivery_vs_review scenario_prepared = Ok [(n 4, n 5); (n 5, n 2)] ∧
  Forall (λ km : cell * cell, valid_delivery_time km.2) [(n 4, n 5); (n 5, n 2)].
Proof.
  pose proof prepare_scenario as Hp.
  assert (filtered_df scenario_prepared Semua = Ok scenario_prepared) as Hf by reflexivity.
  assert (delivery_vs_review scenario_prepared = Ok [(n 4, n 5); (n 5, n 2)]) as Hv
    by compute_done.
  split; [exact Hp |]. split; [exact Hf |]. split; [exact Hv |].
  exact (review_means_valid scenario scenario_prepared Semua scenario_prepared _ Hp Hf Hv).
Defined.

Lemma selected_year_months_witness :
  prepare scenario = Ok scenario_prepared ∧
  filtered_df scenario_prepared (Tahun (Qc_of_Z 2023)) = Ok scenario_prepared ∧
  orders_per_month scenario_prepared = Ok [(Time (month_start 636), 2%nat)] ∧
  Forall (λ t, year t = Num (Qc_of_Z 2023)) [(Time (month_start 636), 2%nat)].*1.
Proof.
  pose proof prepare_scenario as Hp.
  assert (filtered_df scenario_prepared (Tahun (Qc_of_Z 2023)) = Ok scenario_prepared) as Hf
    by compute_done.
  assert (orders_per_month scenario_prepared = Ok [(Time (month_start 636), 2%nat)]) as Ha
    by compute_done.
  split; [exact Hp |]. split; [exact Hf |]. split; [exact Ha |].
  exact (proj1 (selected_year_months scenario scenario_prepared _ _ Hp Hf) _ Ha).
Defined.

Lemma views_row_order_witness :
  rows scenario_prepared ≡ₚ reverse (rows scenario_prepared) ∧
  orders_per_month scenario_prepared =
    orders_per_month (with_rows scenario_prepared (reverse (rows scenario_prepared))).
Proof.
  assert (rows scenario_prepared ≡ₚ reverse (rows scenario_prepared)) as Hrows
    by (symmetry; apply reverse_Permutation).
  split; [exact Hrows |].
  exact (proj1 (proj2
    (views_row_order scenario_prepared
       (with_rows scenario_prepared (reverse (rows scenario_prepared))) eq_refl Hrows))).
Defined.

Lemma views_return_witness :
  ("order_purchase_timestamp" ∉ columns undated) ∧
  views undated = Raise (KeyError "order_purchase_timestamp").
Proof.
  assert ("order_purchase_timestamp" ∉ columns undated) as Hts by compute_done.
  split; [exact Hts |]. exact (proj1 (proj2 (views_return undated)) Hts).
Defined.

Lemma month_label_witness :
  Timestamp_min ≤ month_start (month_of 1672876800000000000) ∧
  1672876800000000000 ≤ Timestamp_max ∧
  ∃ p, to_period_M (Time 1672876800000000000) = Period p ∧
    to_timestamp (Period p) = Time (month_start p) ∧
    month_start p ≤ 1672876800000000000 < month_start (p + 1) ∧
    to_period_M (Time (month_start p)) = Period p ∧
    year (Time (month_start p)) = year (Time 1672876800000000000) ∧
    month_start p `mod` ns_per_day = 0 ∧
    (civil_from_days (month_start p / ns_per_day)).2 = 1.
Proof.
  assert (Timestamp_min ≤ month_start (month_of 1672876800000000000)) as Hmin
    by compute_done.
  assert (1672876800000000000 ≤ Timestamp_max) as Hmax by compute_done.
  split; [exact Hmin |]. split; [exact Hmax |].
  exact (month_label 1672876800000000000 Hmin Hmax).
Defined.

Lemma dashboard_renders_witness :
  prepare scenario = Ok scenario_prepared ∧
  Forall (λ r : gmap string cell, numeric_cell (r !!! "price")) (rows scenario) ∧
  Forall (λ r : gmap string cell, numeric_cell (r !!! "review_score")) (rows scenario) ∧
  Forall (λ r : gmap string cell, month_in_bounds (r !!! "order_purchase_timestamp"))
    (rows scenario_prepared) ∧
  ∃ opts f v,
    tahun_opsi scenario_prepared = Ok opts ∧
    filtered_df scenario_prepared (first_option opts) = Ok f ∧
    views f = Ok v ∧
    dashboard (Some scenario) first_option = Rendered (first_option opts) v.
Proof.
  pose proof prepare_scenario as Hp.
  assert ("order_id" ∈ columns scenario) as Hid by compute_done.
  assert ("product_category_name" ∈ columns scenario) as Hcat by compute_done.
  assert ("review_score" ∈ columns scenario) as Hrev by compute_done.
  assert ("price" ∈ columns scenario) as Hprice by compute_done.
  assert (Forall (λ r : gmap string cell, numeric_cell (r !!! "price")) (rows scenario))
    as Hnum by (repeat constructor).
  assert (Forall (λ r : gmap string cell, numeric_cell (r !!! "review_score"))
            (rows scenario)) as Hscore by compute_done.
  assert (Forall (λ r : gmap string cell, month_in_bounds (r !!! "order_purchase_timestamp"))
            (rows scenario_prepared)) as Hmonth by compute_done.
  split; [exact Hp |]. split; [exact Hnum |]. split; [exact Hscore |].
  split; [exact Hmonth |].
  exact (dashboard_renders scenario scenario_prepared first_option Hp Hid Hcat Hrev Hprice
           Hnum Hscore Hmonth).
Defined.

Lemma monthly_views_by_year_witness :
  prepare scenario = Ok scenario_prepared ∧
  tahun_opsi scenario_prepared = Ok (Semua :: (Tahun <$> [Qc_of_Z 2023])) ∧
  revenue_per_month scenario_prepared = Ok [(Time (month_start 636), Qc_of_Z 150)] ∧
  ∃ parts,
    Forall2 (λ y w, (f <- filtered_df scenario_prepared (Tahun y);; revenue_per_month f) = Ok w)
      [Qc_of_Z 2023] parts ∧
    [(Time (month_start 636), Qc_of_Z 150)] = concat parts.
Proof.
  pose proof prepare_scenario as Hp.
  assert (tahun_opsi scenario_prepared = Ok (Semua :: (Tahun <$> [Qc_of_Z 2023]))) as Ho
    by compute_done.
  assert (revenue_per_month scenario_prepared = Ok [(Time (month_start 636), Qc_of_Z 150)])
    as Hb by compute_done.
  split; [exact Hp |]. split; [exact Ho |]. split; [exact Hb |].
  exact (proj2 (monthly_views_by_year scenario scenario_prepared _ Hp Ho) _ Hb).
Defined.

Lemma offered_year_charts_witness :
  prepare scenario = Ok scenario_prepared ∧
  tahun_opsi scenario_prepared = Ok [Semua; Tahun (Qc_of_Z 2023)] ∧
  Tahun (Qc_of_Z 2023) ∈ [Semua; Tahun (Qc_of_Z 2023)] ∧
  filtered_df scenario_prepared (Tahun (Qc_of_Z 2023)) = Ok scenario_prepared ∧
  orders_per_month scenario_prepared = Ok [(Time (month_start 636), 2%nat)] ∧
  [(Time (month_start 636), 2%nat)] ≠ [].
Proof.
  pose proof prepare_scenario as Hp.
  assert (tahun_opsi scenario_prepared = Ok [Semua; Tahun (Qc_of_Z 2023)]) as Ho
    by compute_done.
  assert (Tahun (Qc_of_Z 2023) ∈ [Semua; Tahun (Qc_of_Z 2023)]) as Hy by (right; left).
  assert (filtered_df scenario_prepared (Tahun (Qc_of_Z 2023)) = Ok scenario_prepared) as Hf
    by compute_done.
  assert (orders_per_month scenario_prepared = Ok [(Time (month_start 636), 2%nat)]) as Ha
    by compute_done.
  split; [exact Hp |]. split; [exact Ho |]. split; [exact Hy |]. split; [exact Hf |].
  split; [exact Ha |].
  exact (proj1 (offered_year_charts scenario scenario_prepared _ _ _ Hp Ho Hy Hf) _ Ha).
Defined.

Lemma prepare_invalid_delivery_time_witness :
  getitem text_delivery_time "delivery_time_days" = Ok (ObjectDtype, [Str "soon"]) ∧
  ¬ Forall numeric_cell [Str "soon"] ∧
  prepare text_delivery_time = Raise TypeError.
Proof.
  assert (getitem text_delivery_time "delivery_time_days" = Ok (ObjectDtype, [Str "soon"]))
    as Hs by compute_done.
  assert (¬ Forall numeric_cell [Str "soon"]) as Hnum by (by inversion 1).
  split; [exact Hs |]. split; [exact Hnum |].
  exact (prepare_invalid_delivery_time text_delivery_time _ Hs Hnum).
Defined.
End further_witnesses.
